(** * Vulkan performance layers: dispatch-table registry and event logging

    A shallow embedding of [layer/layer_data.cc] and [layer/common_logging.h].

    Conventions of the embedding.
    - Opaque Vulkan handles, function pointers and [VkResult] codes are
      integers ([Z]); a null pointer / [VK_NULL_HANDLE] is [0].
    - A [FILE*] is a value of type [FILE]; a null [FILE*] is [None].
    - Every method runs in the monad [M]: it threads the fields of the object
      together with the trace of calls made to the C library and to the next
      layer, and it stops with [Abort] where the C++ code trips an [assert] or
      dereferences a null pointer.
    - What the outside world answers (environment variables, [fopen], the
      clocks, the next layer's entry points) is collected in the record
      [Env]. *)

From Stdlib Require Import ZArith String Ascii List Lia DecimalString.
From stdpp Require Import gmap strings list.

Local Open Scope string_scope.
Local Open Scope Z_scope.

(** ** Text formatting *)

Module Text.

(** The double-quote character, used by [std::quoted]. *)
Definition dquote : ascii := "034"%char.
Definition backslash : ascii := "\"%char.
Definition newline : ascii := "010"%char.

(** Digits of the conversion [x]: lowercase. *)
Definition hex_char (d : Z) : ascii :=
  match d with
  | 0 => "0" | 1 => "1" | 2 => "2" | 3 => "3" | 4 => "4" | 5 => "5"
  | 6 => "6" | 7 => "7" | 8 => "8" | 9 => "9" | 10 => "a" | 11 => "b"
  | 12 => "c" | 13 => "d" | 14 => "e" | _ => "f"
  end%char.

(** The hexadecimal digits of [v], least significant first; no digit at all
    for [0].  At most [fuel] digits are produced (16 cover 64 bits). *)
Fixpoint hex_digits (fuel : nat) (v : Z) : list Z :=
  match fuel with
  | O => []
  | S fuel' => if v =? 0 then [] else (v mod 16) :: hex_digits fuel' (v / 16)
  end.

Definition hex_string (v : Z) : string :=
  string_of_list_ascii (map hex_char (rev (hex_digits 16 v))).

(** [absl::StrFormat("%#x", v)] for a [uint64_t] argument.  The conversion
    follows printf: the value is printed in lowercase hexadecimal with no
    padding, and the alternate form [#] prefixes [0x] to a NONZERO result; the
    value [0] is printed as the single digit [0]. *)
Definition StrFormat_alt_x (v : Z) : string :=
  let v := v mod 2 ^ 64 in
  if v =? 0 then "0" else "0x" +:+ hex_string v.

(** [absl::StrCat] / [absl::StrJoin] of a signed 64-bit integer: decimal, with
    a leading minus sign for a negative value. *)
Definition decimal (v : Z) : string := NilEmpty.string_of_int (Z.to_int v).

(** [absl::StrJoin(parts, sep)]. *)
Definition StrJoin (parts : list string) (sep : string) : string :=
  String.concat sep parts.

(** [out << std::quoted(s)]: [s] between double quotes, each double quote and
    each backslash of [s] preceded by a backslash. *)
Fixpoint quoted_body (s : string) : string :=
  match s with
  | EmptyString => EmptyString
  | String c rest =>
      if (Ascii.eqb c dquote || Ascii.eqb c backslash)%bool
      then String backslash (String c (quoted_body rest))
      else String c (quoted_body rest)
  end.

Definition quoted (s : string) : string :=
  String dquote (quoted_body s) +:+ String dquote EmptyString.

(** Modelled from the spec: [CsvCat] is declared in [layer_utils.h], which is
    not among the sources.  It joins its fields with [','] into one line (the
    comment of [MakeEventLogPrefix] says "','-separated"; the comment in [Log]
    says the caller quotes a field that holds a comma itself). *)
Definition CsvCat (fields : list string) : string := StrJoin fields ",".

(** The value of a list of hexadecimal digits, least significant first. *)
Fixpoint lsb_value (ds : list Z) : Z :=
  match ds with
  | [] => 0
  | d :: rest => d + 16 * lsb_value rest
  end.

(** Reading a lowercase hexadecimal numeral back. *)
Definition hex_val (c : ascii) : option Z :=
  let n := Z.of_nat (nat_of_ascii c) in
  if (48 <=? n) && (n <=? 57) then Some (n - 48)
  else if (97 <=? n) && (n <=? 102) then Some (n - 87)
  else None.

Fixpoint parse_hex_from (acc : Z) (s : string) : option Z :=
  match s with
  | EmptyString => Some acc
  | String c rest =>
      match hex_val c with
      | Some d => parse_hex_from (acc * 16 + d) rest
      | None => None
      end
  end.

Definition parse_hex (s : string) : option Z :=
  match s with
  | EmptyString => None
  | _ => parse_hex_from 0 s
  end.

End Text.

(** ** Vulkan types seen by the layer *)

(** Handles, function pointers and result codes are integers; [0] is the null
    pointer and [VK_NULL_HANDLE]. *)
Abbreviation PFN := Z (only parsing).
Abbreviation VkResult := Z (only parsing).
Abbreviation VkInstance := Z (only parsing).
Abbreviation VkPhysicalDevice := Z (only parsing).
Abbreviation VkDevice := Z (only parsing).
Abbreviation VkShaderModule := Z (only parsing).

Definition VK_NULL_HANDLE : Z := 0.
Definition VK_SUCCESS : VkResult := 0.
Definition VK_ERROR_OUT_OF_HOST_MEMORY : VkResult := -1.
Definition VK_ERROR_INITIALIZATION_FAILED : VkResult := -3.
Definition VK_STRUCTURE_TYPE_LOADER_INSTANCE_CREATE_INFO : Z := 47.
Definition VK_STRUCTURE_TYPE_LOADER_DEVICE_CREATE_INFO : Z := 48.
Definition VK_LAYER_LINK_INFO : Z := 0.

(** [VkLayerInstanceLink]: a node of the loader's list of layers; the list
    stands for the chain through the nodes' [pNext]. *)
Record VkLayerInstanceLink : Type := {
  pfnNextGetInstanceProcAddr : PFN;
  pfnNextGetPhysicalDeviceProcAddr : PFN
}.

(** An element of the [pNext] chain of a [VkInstanceCreateInfo], read the way
    [FindInstanceCreateInfo] reads it: every element is cast to
    [VkLayerInstanceCreateInfo], whatever its real type, so [function] is the
    word found at that offset and [pLayerInfo] is meaningful only in a loader
    record.  [pLayerInfo] is the list of links it points to ([[]] for a null
    pointer). *)
Record VkLayerInstanceCreateInfo : Type := {
  sType : Z;
  function : Z;
  pLayerInfo : list VkLayerInstanceLink
}.

(** [VkInstanceCreateInfo]: only its [pNext] chain is read by the layer. *)
Record VkInstanceCreateInfo : Type := {
  pNext : list VkLayerInstanceCreateInfo
}.

Record VkLayerDeviceLink : Type := {
  dev_pfnNextGetInstanceProcAddr : PFN;
  dev_pfnNextGetDeviceProcAddr : PFN
}.

Record VkLayerDeviceCreateInfo : Type := {
  dev_sType : Z;
  dev_function : Z;
  dev_pLayerInfo : list VkLayerDeviceLink
}.

Record VkDeviceCreateInfo : Type := {
  dev_pNext : list VkLayerDeviceCreateInfo
}.

(** [VkShaderModuleCreateInfo]: the SPIR-V words and their size in bytes. *)
Record VkShaderModuleCreateInfo : Type := {
  pCode : list Z;
  codeSize : Z
}.

(** The store [record->u.pLayerInfo = layer_info] through the pointer
    [record] found at [position] of the chain: the caller's create info, and
    whoever receives it afterwards, sees the chain with that record
    changed. *)
Definition store_pLayerInfo (create_info : VkInstanceCreateInfo)
    (position : nat) (record : VkLayerInstanceCreateInfo)
    (layer_info : list VkLayerInstanceLink) : VkInstanceCreateInfo :=
  {| pNext :=
       <[position := {| sType := sType record;
                        function := function record;
                        pLayerInfo := layer_info |}]> (pNext create_info) |}.

Definition dev_store_pLayerInfo (create_info : VkDeviceCreateInfo)
    (position : nat) (record : VkLayerDeviceCreateInfo)
    (layer_info : list VkLayerDeviceLink) : VkDeviceCreateInfo :=
  {| dev_pNext :=
       <[position := {| dev_sType := dev_sType record;
                        dev_function := dev_function record;
                        dev_pLayerInfo := layer_info |}]>
         (dev_pNext create_info) |}.

(** The dispatch tables, with the members the layer selects. *)
Record VkLayerInstanceDispatchTable : Type := {
  GetInstanceProcAddr : PFN;
  DestroyInstance : PFN
}.

Record VkLayerDispatchTable : Type := {
  GetDeviceProcAddr : PFN;
  CreateShaderModule_member : PFN;
  DestroyShaderModule_member : PFN
}.

(** ** The C library's streams and the calls that leave the layer *)

Inductive FILE : Type :=
| stderr
| stream (id : nat).

Global Instance FILE_eq_dec : EqDecision FILE.
Proof. solve_decision. Defined.

Inductive call : Type :=
| c_fopen (path mode : string)
| c_fputs (f : FILE) (text : string)
| c_fflush (f : FILE)
| c_fclose (f : FILE)
| c_log_error (message : string)
| next_GetInstanceProcAddr (pfn : PFN) (instance : VkInstance) (name : string)
| next_vkCreateInstance (pfn : PFN) (create_info : VkInstanceCreateInfo)
| next_vkCreateDevice (pfn : PFN) (physical_device : VkPhysicalDevice)
    (create_info : VkDeviceCreateInfo)
| next_vkCreateShaderModule (pfn : PFN) (device : VkDevice)
    (create_info : VkShaderModuleCreateInfo)
| c_clock_now (reading : Z).

(** ** The monad of a method

    A method of an object with fields [S] maps the fields and the trace of
    calls made so far to a result, the new fields and the extended trace, or
    aborts (a failed [assert], a null pointer dereferenced). *)

Inductive outcome (S A : Type) : Type :=
| Done (a : A) (s : S) (trace : list call)
| Abort.
Arguments Done {S A} a s trace.
Arguments Abort {S A}.

Definition M (S A : Type) : Type := S -> list call -> outcome S A.

Definition ret {S A} (a : A) : M S A := fun s t => Done a s t.

Definition bind {S A B} (m : M S A) (k : A -> M S B) : M S B :=
  fun s t =>
    match m s t with
    | Done a s' t' => k a s' t'
    | Abort => Abort
    end.

Declare Scope method_scope.
Delimit Scope method_scope with method.
Notation "x <- m ;; k" := (bind m (fun x => k))
  (at level 100, m at next level, right associativity) : method_scope.
Notation "m ;; k" := (bind m (fun _ => k))
  (at level 100, right associativity) : method_scope.
Local Open Scope method_scope.

Definition get {S} : M S S := fun s t => Done s s t.
Definition put {S} (s : S) : M S unit := fun _ t => Done tt s t.
Definition emit {S} (c : call) : M S unit := fun s t => Done tt s (t ++ [c]).
Definition abort {S A} : M S A := fun _ _ => Abort.

(** [assert(cond)] *)
Definition assert {S} (cond : bool) : M S unit :=
  if cond then ret tt else abort.

(** Modelled from the spec: [WriteLnAndFlush] is declared in [layer_utils.h],
    which is not among the sources.  It "performs an atomic single
    write-and-flush of a complete line to a file sink": one write of the
    content and its line terminator, then a flush.  A null stream cannot be
    written to. *)
Definition WriteLnAndFlush {S} (file : option FILE) (content : string)
  : M S unit :=
  match file with
  | None => abort
  | Some f =>
      emit (c_fputs f (content +:+ String Text.newline EmptyString)) ;;
      emit (c_fflush f)
  end.

(** ** [common_logging.h] *)

(** Modelled from the spec: [Event] is declared in [event_logging.h], which
    is not among the sources: "a named occurrence with zero or more named
    attributes"; the values are kept stringified. *)
Record Event : Type := {
  event_name : string;
  event_attributes : list (string * string)
}.

(** Modelled from the spec: [EventToCommonLogStr] is only declared in
    [common_logging.h]; its comment and the spec give the format
    [event_name,attribute1_name:attribute1_value,...] in attribute order. *)
Definition EventToCommonLogStr (event : Event) : string :=
  Text.StrJoin
    (event_name event ::
     map (fun a => fst a +:+ ":" +:+ snd a) (event_attributes event)) ",".

Module CommonLogger.

Record t : Type := { out_ : option FILE }.

Definition AddEvent (event : Event) : M t unit :=
  this <- get ;;
  assert (bool_decide (is_Some (out_ this))) ;;
  let event_str := EventToCommonLogStr event in
  WriteLnAndFlush (out_ this) event_str.

Definition StartLog : M t unit := ret tt.

Definition EndLog : M t unit :=
  this <- get ;;
  match out_ this with
  | Some f =>
      if bool_decide (f <> stderr)
      then emit (c_fclose f) ;; put {| out_ := None |}
      else ret tt
  | None => ret tt
  end.

Definition Flush : M t unit :=
  this <- get ;;
  assert (bool_decide (is_Some (out_ this))) ;;
  match out_ this with
  | Some f => emit (c_fflush f)
  | None => abort
  end.

End CommonLogger.

(** ** [layer_data.cc] *)

(** 64-bit two's complement range of [std::chrono] time points and
    durations. *)
Definition int64_min : Z := - 2 ^ 63.
Definition int64_max : Z := 2 ^ 63 - 1.
Definition wrap_int64 (z : Z) : Z := (z + 2 ^ 63) mod 2 ^ 64 - 2 ^ 63.

(** [DurationClock::time_point::min()] and [DurationClock::duration::min()],
    in ticks. *)
Definition time_point_min : Z := int64_min.
Definition duration_min : Z := int64_min.

(** What the world outside the layer answers.  The types and helpers named
    here are declared in headers that are not among the sources
    ([layer_data.h], [layer_utils.h]) or belong to the loader, the driver and
    the C library; the methods below take them as parameters. *)
Record Env : Type := {
  (** [getenv(name)] *)
  getenv : string -> option string;
  (** [fopen(path, mode)]; [None] is a null result *)
  fopen : string -> string -> option FILE;
  (** the [n]-th reading of [DurationClock::now()], in ticks *)
  DurationClock_now : nat -> Z;
  (** the [n]-th reading of [GetTimestamp()] *)
  TimestampClock_now : nat -> Z;
  (** [ToUnixNanos(timestamp)] *)
  ToUnixNanos : Z -> Z;
  (** [InstanceKey(instance)] and [InstanceKey(physical_device)] *)
  InstanceKey_of_instance : VkInstance -> Z;
  InstanceKey_of_physical_device : VkPhysicalDevice -> Z;
  (** [DeviceKey(device)] *)
  DeviceKey : VkDevice -> Z;
  (** whether the registry can store one more dispatch table *)
  can_register_instance : VkInstance -> bool;
  can_register_device : VkDevice -> bool;
  (** the digest of a shader binary *)
  shader_digest : list Z -> Z -> Z;
  (** calling the function pointer [pfn] as [vkGetInstanceProcAddr] *)
  call_GetInstanceProcAddr : PFN -> VkInstance -> string -> PFN;
  (** calling [pfn] as [vkCreateInstance], [vkCreateDevice] or
      [vkCreateShaderModule]: the last argument is the content of the output
      location at entry, the result its content at exit *)
  call_vkCreateInstance :
    PFN -> VkInstanceCreateInfo -> Z -> VkInstance -> VkResult * VkInstance;
  call_vkCreateDevice :
    PFN -> VkPhysicalDevice -> VkDeviceCreateInfo -> Z -> VkDevice ->
    VkResult * VkDevice;
  call_vkCreateShaderModule :
    PFN -> VkDevice -> VkShaderModuleCreateInfo -> Z -> VkShaderModule ->
    VkResult * VkShaderModule
}.

Module LayerData.

(** The fields of [LayerData].  [clock_reads] is not a field: it counts the
    readings of the clocks taken so far. *)
Record t : Type := {
  instance_dispatch_map_ : gmap Z VkLayerInstanceDispatchTable;
  instance_keys_map_ : gmap Z VkInstance;
  device_dispatch_map_ : gmap Z VkLayerDispatchTable;
  shader_hash_map_ : gmap VkShaderModule Z;
  out_ : option FILE;
  event_log_ : option FILE;
  last_log_time_ : Z;
  clock_reads : nat
}.

Definition set_instance_maps
    (d : gmap Z VkLayerInstanceDispatchTable) (k : gmap Z VkInstance)
    (this : t) : t :=
  {| instance_dispatch_map_ := d;
     instance_keys_map_ := k;
     device_dispatch_map_ := device_dispatch_map_ this;
     shader_hash_map_ := shader_hash_map_ this;
     out_ := out_ this;
     event_log_ := event_log_ this;
     last_log_time_ := last_log_time_ this;
     clock_reads := clock_reads this |}.

Definition set_device_dispatch_map_
    (d : gmap Z VkLayerDispatchTable) (this : t) : t :=
  {| instance_dispatch_map_ := instance_dispatch_map_ this;
     instance_keys_map_ := instance_keys_map_ this;
     device_dispatch_map_ := d;
     shader_hash_map_ := shader_hash_map_ this;
     out_ := out_ this;
     event_log_ := event_log_ this;
     last_log_time_ := last_log_time_ this;
     clock_reads := clock_reads this |}.

Definition set_shader_hash_map_ (h : gmap VkShaderModule Z) (this : t) : t :=
  {| instance_dispatch_map_ := instance_dispatch_map_ this;
     instance_keys_map_ := instance_keys_map_ this;
     device_dispatch_map_ := device_dispatch_map_ this;
     shader_hash_map_ := h;
     out_ := out_ this;
     event_log_ := event_log_ this;
     last_log_time_ := last_log_time_ this;
     clock_reads := clock_reads this |}.

Definition set_out_ (f : option FILE) (this : t) : t :=
  {| instance_dispatch_map_ := instance_dispatch_map_ this;
     instance_keys_map_ := instance_keys_map_ this;
     device_dispatch_map_ := device_dispatch_map_ this;
     shader_hash_map_ := shader_hash_map_ this;
     out_ := f;
     event_log_ := event_log_ this;
     last_log_time_ := last_log_time_ this;
     clock_reads := clock_reads this |}.

Definition set_event_log_ (f : option FILE) (this : t) : t :=
  {| instance_dispatch_map_ := instance_dispatch_map_ this;
     instance_keys_map_ := instance_keys_map_ this;
     device_dispatch_map_ := device_dispatch_map_ this;
     shader_hash_map_ := shader_hash_map_ this;
     out_ := out_ this;
     event_log_ := f;
     last_log_time_ := last_log_time_ this;
     clock_reads := clock_reads this |}.

Definition set_last_log_time_ (x : Z) (this : t) : t :=
  {| instance_dispatch_map_ := instance_dispatch_map_ this;
     instance_keys_map_ := instance_keys_map_ this;
     device_dispatch_map_ := device_dispatch_map_ this;
     shader_hash_map_ := shader_hash_map_ this;
     out_ := out_ this;
     event_log_ := event_log_ this;
     last_log_time_ := x;
     clock_reads := clock_reads this |}.

Definition set_clock_reads (n : nat) (this : t) : t :=
  {| instance_dispatch_map_ := instance_dispatch_map_ this;
     instance_keys_map_ := instance_keys_map_ this;
     device_dispatch_map_ := device_dispatch_map_ this;
     shader_hash_map_ := shader_hash_map_ this;
     out_ := out_ this;
     event_log_ := event_log_ this;
     last_log_time_ := last_log_time_ this;
     clock_reads := n |}.

(** Modelled from the spec: the member initialisers are in [layer_data.h],
    which is not among the sources.  The registries start empty, the sinks
    null, and the last log time is the "no prior call" sentinel that
    [GetTimeDelta] compares with. *)
Definition fresh : t :=
  {| instance_dispatch_map_ := ∅;
     instance_keys_map_ := ∅;
     device_dispatch_map_ := ∅;
     shader_hash_map_ := ∅;
     out_ := None;
     event_log_ := None;
     last_log_time_ := time_point_min;
     clock_reads := O |}.

Definition kEventLogFileEnvVar : string :=
  "VK_PERFORMANCE_LAYERS_EVENT_LOG_FILE".

Section Methods.

Variable E : Env.

(** [Now()]: the next reading of the duration clock. *)
Definition Now : M t Z :=
  this <- get ;;
  put (set_clock_reads (S (clock_reads this)) this) ;;
  ret (DurationClock_now E (clock_reads this)).

(** [Now()] where the code reads the clock around a call that leaves the
    layer: the reading is recorded in the trace, so that its place before or
    after that call is part of the behaviour. *)
Definition Now_traced : M t Z :=
  now <- Now ;;
  emit (c_clock_now now) ;;
  ret now.

(** [GetTimestamp()]: the next reading of the timestamp clock. *)
Definition GetTimestamp : M t Z :=
  this <- get ;;
  put (set_clock_reads (S (clock_reads this)) this) ;;
  ret (TimestampClock_now E (clock_reads this)).

(** [fopen(path, mode)] *)
Definition do_fopen (path mode : string) : M t (option FILE) :=
  emit (c_fopen path mode) ;;
  ret (fopen E path mode).

Definition MakeEventLogPrefix (event_type : string) (timestamp : Z) : string :=
  Text.CsvCat [event_type; Text.decimal (ToUnixNanos E timestamp)].

Fixpoint FindInstanceCreateInfo_loop
    (chain : list VkLayerInstanceCreateInfo) (position : nat)
  : option (nat * VkLayerInstanceCreateInfo) :=
  match chain with
  | [] => None
  | instance_create_info :: rest =>
      if bool_decide
           (sType instance_create_info
              <> VK_STRUCTURE_TYPE_LOADER_INSTANCE_CREATE_INFO)
         || bool_decide (function instance_create_info <> VK_LAYER_LINK_INFO)
      then FindInstanceCreateInfo_loop rest (S position)
      else Some (position, instance_create_info)
  end.

(** The first loader record with the link function: its position in the
    chain (the pointer returned) and the record there; [None] for
    [nullptr]. *)
Definition FindInstanceCreateInfo (create_info : VkInstanceCreateInfo)
  : option (nat * VkLayerInstanceCreateInfo) :=
  FindInstanceCreateInfo_loop (pNext create_info) O.

Fixpoint FindDeviceCreateInfo_loop
    (chain : list VkLayerDeviceCreateInfo) (position : nat)
  : option (nat * VkLayerDeviceCreateInfo) :=
  match chain with
  | [] => None
  | device_create_info :: rest =>
      if bool_decide
           (dev_sType device_create_info
              <> VK_STRUCTURE_TYPE_LOADER_DEVICE_CREATE_INFO)
         || bool_decide (dev_function device_create_info <> VK_LAYER_LINK_INFO)
      then FindDeviceCreateInfo_loop rest (S position)
      else Some (position, device_create_info)
  end.

Definition FindDeviceCreateInfo (create_info : VkDeviceCreateInfo)
  : option (nat * VkLayerDeviceCreateInfo) :=
  FindDeviceCreateInfo_loop (dev_pNext create_info) O.

(** The constructor [LayerData()]. *)
Definition open_event_log : M t unit :=
  match getenv E kEventLogFileEnvVar with
  | Some event_log_file =>
      f <- do_fopen event_log_file "a" ;;
      this <- get ;;
      put (set_event_log_ f this)
  | None => ret tt
  end.


(** The constructor [LayerData(log_filename, header)]; a null [log_filename]
    is [None]. *)
Definition LayerData_with_log (log_filename : option string) (header : string)
  : M t unit :=
  match log_filename with
  | Some name =>
      f <- do_fopen name "w" ;;
      match f with
      | Some _ => this <- get ;; put (set_out_ f this)
      | None =>
          emit (c_log_error
                  ("Failed to open " +:+ name +:+ ", output will be to STDERR.")) ;;
          this <- get ;; put (set_out_ (Some stderr) this)
      end
  | None => this <- get ;; put (set_out_ (Some stderr) this)
  end ;;
  this <- get ;;
  WriteLnAndFlush (out_ this) header ;;
  open_event_log.

(** Modelled from the spec: [AddInstance] is defined in [layer_data.h], which
    is not among the sources.  It "registers a new dispatch table for
    [handle]; fails (returns false) if registration cannot be completed"; the
    instance key of the handle then resolves to the handle.  "Any physical
    device enumerated under an instance maps to the same key as the instance
    itself", so this one entry also resolves the keys derived from its
    physical devices. *)
Definition AddInstance (instance : VkInstance)
    (dispatch_table : VkLayerInstanceDispatchTable) : M t bool :=
  this <- get ;;
  if can_register_instance E instance then
    let key := InstanceKey_of_instance E instance in
    put (set_instance_maps
           (<[key := dispatch_table]> (instance_dispatch_map_ this))
           (<[key := instance]> (instance_keys_map_ this)) this) ;;
    ret true
  else ret false.

(** Modelled from the spec: [AddDevice] is defined in [layer_data.h]: "same
    contract for a device handle, keyed independently from instances". *)
Definition AddDevice (device : VkDevice)
    (dispatch_table : VkLayerDispatchTable) : M t bool :=
  this <- get ;;
  if can_register_device E device then
    put (set_device_dispatch_map_
           (<[DeviceKey E device := dispatch_table]> (device_dispatch_map_ this))
           this) ;;
    ret true
  else ret false.

(** Modelled from the spec: [GetInstance] is defined in [layer_data.h]: it
    "resolves an instance-key ... to its owning instance handle;
    undefined/fails if absent". *)
Definition GetInstance (instance_key : Z) : M t VkInstance :=
  this <- get ;;
  match instance_keys_map_ this !! instance_key with
  | Some instance => ret instance
  | None => abort
  end.

Definition RemoveInstance (instance : VkInstance) : M t unit :=
  let key := InstanceKey_of_instance E instance in
  this <- get ;;
  put (set_instance_maps
         (delete key (instance_dispatch_map_ this))
         (delete key (instance_keys_map_ this)) this).

Definition LogLine (event_type line : string) (timestamp : Z) : M t unit :=
  this <- get ;;
  WriteLnAndFlush (out_ this) line ;;
  match event_log_ this with
  | Some _ =>
      WriteLnAndFlush (event_log_ this)
        (Text.CsvCat [MakeEventLogPrefix event_type timestamp; line])
  | None => ret tt
  end.

Definition ShaderHashToString (hash : Z) : string :=
  Text.StrFormat_alt_x hash.

Definition PipelineHashToString (pipeline : list Z) : string :=
  "[" +:+ Text.StrJoin (map ShaderHashToString pipeline) "," +:+ "]".

(** [Log] leaves the timestamp of [LogLine] to its default argument, which is
    declared in [layer_data.h]; as for [MakeEventLogPrefix] it is taken to be
    [GetTimestamp()]. *)
Definition Log (event_type : string) (pipeline : list Z) (prefix : string)
  : M t unit :=
  let pipeline_hash_str := Text.quoted (PipelineHashToString pipeline) in
  let pipeline_and_content := Text.CsvCat [pipeline_hash_str; prefix] in
  timestamp <- GetTimestamp ;;
  LogLine event_type pipeline_and_content timestamp.

Definition GetTimeDelta : M t Z :=
  now <- Now ;;
  this <- get ;;
  let logged_delta :=
    if bool_decide (last_log_time_ this <> time_point_min)
    then wrap_int64 (now - last_log_time_ this)
    else duration_min in
  put (set_last_log_time_ now this) ;;
  ret logged_delta.

Definition LogEventOnly (event_type extra_content : string) : M t unit :=
  this <- get ;;
  match event_log_ this with
  | Some _ =>
      timestamp <- GetTimestamp ;;
      let prefix := MakeEventLogPrefix event_type timestamp in
      WriteLnAndFlush (event_log_ this)
        (if String.eqb extra_content "" then prefix
         else Text.CsvCat [prefix; extra_content])
  | None => ret tt
  end.

(** The calls through function pointers.  A call through a null pointer
    does not return. *)
Definition invoke_GetInstanceProcAddr (pfn : PFN) (instance : VkInstance)
    (name : string) : M t PFN :=
  if bool_decide (pfn = 0) then abort
  else
    emit (next_GetInstanceProcAddr pfn instance name) ;;
    ret (call_GetInstanceProcAddr E pfn instance name).

Definition invoke_vkCreateInstance (pfn : PFN)
    (create_info : VkInstanceCreateInfo) (allocator : Z)
    (instance : VkInstance) : M t (VkResult * VkInstance) :=
  if bool_decide (pfn = 0) then abort
  else
    emit (next_vkCreateInstance pfn create_info) ;;
    ret (call_vkCreateInstance E pfn create_info allocator instance).

Definition invoke_vkCreateDevice (pfn : PFN)
    (physical_device : VkPhysicalDevice) (create_info : VkDeviceCreateInfo)
    (allocator : Z) (device : VkDevice) : M t (VkResult * VkDevice) :=
  if bool_decide (pfn = 0) then abort
  else
    emit (next_vkCreateDevice pfn physical_device create_info) ;;
    ret (call_vkCreateDevice E pfn physical_device create_info allocator
           device).

Definition invoke_vkCreateShaderModule (pfn : PFN) (device : VkDevice)
    (create_info : VkShaderModuleCreateInfo) (allocator : Z)
    (shader_module : VkShaderModule) : M t (VkResult * VkShaderModule) :=
  if bool_decide (pfn = 0) then abort
  else
    emit (next_vkCreateShaderModule pfn device create_info) ;;
    ret (call_vkCreateShaderModule E pfn device create_info allocator
           shader_module).

(** [instance] is the content of the output location [*instance] at entry;
    the result carries its content at exit. *)
Definition CreateInstance (create_info : VkInstanceCreateInfo)
    (allocator : Z) (instance : VkInstance)
    (get_dispatch_table : PFN -> VkLayerInstanceDispatchTable)
  : M t (VkResult * VkInstance) :=
  match FindInstanceCreateInfo create_info with
  | None => ret (VK_ERROR_INITIALIZATION_FAILED, instance)
  | Some (position, instance_create_info) =>
      match pLayerInfo instance_create_info with
      | [] => abort
      | layer_info :: layer_info_pNext =>
          let get_proc_addr := pfnNextGetInstanceProcAddr layer_info in
          (* Create the instance by calling the next layer's
             vkCreateInstance. *)
          let create_info :=
            store_pLayerInfo create_info position instance_create_info
              layer_info_pNext in
          create_function <-
            invoke_GetInstanceProcAddr get_proc_addr VK_NULL_HANDLE
              "vkCreateInstance" ;;
          r <- invoke_vkCreateInstance create_function create_info allocator
                 instance ;;
          let (res, instance) := r in
          if bool_decide (res <> VK_SUCCESS) then ret (res, instance)
          else
            (* Build dispatch table for the instance functions we need to
               call. *)
            let dispatch_table := get_dispatch_table get_proc_addr in
            (* Add the dispatch table to the dispatch map. *)
            added <- AddInstance instance dispatch_table ;;
            if negb added then ret (VK_ERROR_OUT_OF_HOST_MEMORY, instance)
            else ret (VK_SUCCESS, instance)
      end
  end.

Definition CreateDevice (physical_device : VkPhysicalDevice)
    (create_info : VkDeviceCreateInfo) (allocator : Z) (device : VkDevice)
    (get_dispatch_table : PFN -> VkLayerDispatchTable)
  : M t (VkResult * VkDevice) :=
  match FindDeviceCreateInfo create_info with
  | None =>
      (* No loader device create info. *)
      ret (VK_ERROR_INITIALIZATION_FAILED, device)
  | Some (position, device_create_info) =>
      match dev_pLayerInfo device_create_info with
      | [] => abort
      | layer_info :: layer_info_pNext =>
          let get_instance_proc_addr :=
            dev_pfnNextGetInstanceProcAddr layer_info in
          let get_device_proc_addr :=
            dev_pfnNextGetDeviceProcAddr layer_info in
          instance <-
            GetInstance (InstanceKey_of_physical_device E physical_device) ;;
          assert (bool_decide (instance <> VK_NULL_HANDLE)) ;;
          (* Create the device after removing the current layer. *)
          let create_info :=
            dev_store_pLayerInfo create_info position device_create_info
              layer_info_pNext in
          create_function <-
            invoke_GetInstanceProcAddr get_instance_proc_addr instance
              "vkCreateDevice" ;;
          assert (bool_decide (create_function <> 0)) ;;
          r <- invoke_vkCreateDevice create_function physical_device
                 create_info allocator device ;;
          let (result, device) := r in
          if bool_decide (result <> VK_SUCCESS) then ret (result, device)
          else
            (* Build dispatch table for the device functions we need to
               call. *)
            let dispatch_table := get_dispatch_table get_device_proc_addr in
            (* Add the dispatch_table to the dispatch map. *)
            added <- AddDevice device dispatch_table ;;
            if negb added then ret (VK_ERROR_OUT_OF_HOST_MEMORY, device)
            else ret (VK_SUCCESS, device)
      end
  end.

(** Modelled from the spec: [GetNextDeviceProcAddr] is defined in
    [layer_data.h]: it "looks up the resolved next-layer function pointer for
    a given operation on a given handle's dispatch table; caller guarantees
    the handle was previously added". *)
Definition GetNextDeviceProcAddr (device : VkDevice)
    (member : VkLayerDispatchTable -> PFN) : M t PFN :=
  this <- get ;;
  match device_dispatch_map_ this !! DeviceKey E device with
  | Some dispatch_table => ret (member dispatch_table)
  | None => abort
  end.

(** Modelled from the spec: [HashShader] is defined in [layer_data.h]: the
    "deterministic hash of a shader binary blob", recorded in the
    "shader-handle → content hash" registry under the module's handle. *)
Definition HashShader (shader_module : VkShaderModule) (code : list Z)
    (size : Z) : M t Z :=
  let hash := shader_digest E code size in
  this <- get ;;
  put (set_shader_hash_map_
         (<[shader_module := hash]> (shader_hash_map_ this)) this) ;;
  ret hash.

Record ShaderModuleCreateResult : Type := {
  result : VkResult;
  shader_hash : Z;
  create_start : Z;
  create_end : Z
}.

(** [shader_module] is the content of [*shader_module] at entry; the result
    carries its content at exit. *)
Definition CreateShaderModule (device : VkDevice)
    (create_info : VkShaderModuleCreateInfo) (allocator : Z)
    (shader_module : VkShaderModule)
  : M t (ShaderModuleCreateResult * VkShaderModule) :=
  next_proc <- GetNextDeviceProcAddr device CreateShaderModule_member ;;
  start <- Now_traced ;;
  r <- invoke_vkCreateShaderModule next_proc device create_info allocator
         shader_module ;;
  let (result, shader_module) := r in
  end_ <- Now_traced ;;
  hash <- HashShader shader_module (pCode create_info) (codeSize create_info) ;;
  ret ({| result := result; shader_hash := hash;
          create_start := start; create_end := end_ |}, shader_module).

End Methods.
End LayerData.

(** * Vocabulary of the statements *)

Import LayerData.

(** A string is the [0x]-prefixed lowercase hexadecimal rendering of [v]:
    after the prefix come digits among [0-9a-f] whose value is [v]. *)
Definition rendered_0x_lower_hex (s : string) (v : Z) : Prop :=
  exists digits, s = "0x" +:+ digits /\ Text.parse_hex digits = Some v.

(** What [LogLine] sends to the secondary sink, when there is one. *)
Definition event_log_writes (E : Env) (this : LayerData.t)
    (event_type line : string) (timestamp : Z) : list call :=
  match event_log_ this with
  | Some event_log =>
      [c_fputs event_log
         (event_type +:+ "," +:+ Text.decimal (ToUnixNanos E timestamp)
          +:+ "," +:+ line +:+ String Text.newline "");
       c_fflush event_log]
  | None => []
  end.


(** An environment to run the methods in: the event log is configured through
    the environment variable, every [fopen] succeeds, the clocks advance with
    each reading, an instance and its physical devices share the bits of the
    handle above the lowest eight as their key, and the next layer answers a
    create call with [driver_result] and a handle derived from its function
    pointer; [host_memory] tells whether a dispatch table can be stored. *)
Definition demo_env (driver_result : VkResult) (host_memory : bool) : Env :=
  {| getenv := fun name =>
       if String.eqb name kEventLogFileEnvVar then Some "events.csv" else None;
     fopen := fun path _ =>
       if String.eqb path "events.csv" then Some (stream 2)
       else Some (stream 1);
     DurationClock_now := fun n => 1000 + 25 * Z.of_nat n;
     TimestampClock_now := fun n => 1700000000 + Z.of_nat n;
     ToUnixNanos := fun timestamp => timestamp * 1000000000;
     InstanceKey_of_instance := fun instance => instance / 256;
     InstanceKey_of_physical_device := fun physical_device =>
       physical_device / 256;
     DeviceKey := fun device => device;
     can_register_instance := fun _ => host_memory;
     can_register_device := fun _ => host_memory;
     shader_digest := fun code size => (fold_right Z.add size code) mod 2 ^ 64;
     call_GetInstanceProcAddr := fun pfn _ name =>
       if String.eqb name "vkCreateInstance" then pfn + 1
       else if String.eqb name "vkCreateDevice" then pfn + 2
       else 0;
     call_vkCreateInstance := fun pfn _ _ instance =>
       if driver_result =? VK_SUCCESS then (driver_result, 256 * pfn)
       else (driver_result, instance);
     call_vkCreateDevice := fun pfn _ _ _ device =>
       if driver_result =? VK_SUCCESS then (driver_result, 256 * pfn + 16)
       else (driver_result, device);
     call_vkCreateShaderModule := fun pfn _ _ _ shader_module =>
       if driver_result =? VK_SUCCESS then (driver_result, 256 * pfn + 32)
       else (driver_result, shader_module) |}.

(** A layer object whose primary sink is [stderr] and whose event log is the
    stream [stream 2]. *)
Definition demo_layer : LayerData.t :=
  set_event_log_ (Some (stream 2)) (set_out_ (Some stderr) fresh).

(** The methods of the common logger as calls, and the run of a sequence of
    them on one logger. *)
Inductive logger_call : Type :=
| call_AddEvent (event : Event)
| call_StartLog
| call_EndLog
| call_Flush.

Definition run_logger_call (c : logger_call) : M CommonLogger.t unit :=
  match c with
  | call_AddEvent event => CommonLogger.AddEvent event
  | call_StartLog => CommonLogger.StartLog
  | call_EndLog => CommonLogger.EndLog
  | call_Flush => CommonLogger.Flush
  end.

Fixpoint run_logger_calls (calls : list logger_call) : M CommonLogger.t unit :=
  match calls with
  | [] => ret tt
  | c :: rest => (run_logger_call c ;; run_logger_calls rest)%method
  end.

(** The write operations of the logger. *)
Definition is_write (c : logger_call) : bool :=
  match c with
  | call_AddEvent _ | call_Flush => true
  | call_StartLog | call_EndLog => false
  end.

Definition is_EndLog (c : logger_call) : bool :=
  match c with
  | call_EndLog => true
  | _ => false
  end.

(** The rule of use of the logger: once [EndLog] has been called, no write
    operation follows. *)
Fixpoint permitted (calls : list logger_call) : bool :=
  match calls with
  | [] => true
  | call_EndLog :: rest => forallb (fun c => negb (is_write c)) rest
  | _ :: rest => permitted rest
  end.

(** What the write operations of a sequence send to the sink [f]. *)
Definition writes_on (f : FILE) (calls : list logger_call) : list call :=
  flat_map
    (fun c =>
       match c with
       | call_AddEvent event =>
           [c_fputs f (EventToCommonLogStr event +:+ String Text.newline "");
            c_fflush f]
       | call_Flush => [c_fflush f]
       | call_StartLog | call_EndLog => []
       end)
    calls.

(** The closing of the sink [f] by a sequence: once, if the sequence calls
    [EndLog] and the sink is not [stderr]. *)
Definition closing_of (f : FILE) (calls : list logger_call) : list call :=
  match f with
  | stderr => []
  | stream id => if existsb is_EndLog calls then [c_fclose f] else []
  end.

(** The logger after a sequence: its sink is forgotten once closed. *)
Definition logger_after (f : FILE) (calls : list logger_call)
  : CommonLogger.t :=
  match f with
  | stderr => {| CommonLogger.out_ := Some stderr |}
  | stream id =>
      if existsb is_EndLog calls then {| CommonLogger.out_ := None |}
      else {| CommonLogger.out_ := Some f |}
  end.

(** A chain of creation parameters holds no loader-linkage record: no element
    has both the loader's instance-create-info tag and the link sub-tag. *)
Definition no_instance_linkage (create_info : VkInstanceCreateInfo) : Prop :=
  Forall
    (fun record =>
       ~ (sType record = VK_STRUCTURE_TYPE_LOADER_INSTANCE_CREATE_INFO
          /\ function record = VK_LAYER_LINK_INFO))
    (pNext create_info).

(** Creation parameters as the loader hands them over: an application record
    first, then the loader's linkage record with two layers left to call. *)
Definition demo_instance_create_info : VkInstanceCreateInfo :=
  {| pNext :=
       [ {| sType := 1000011004; function := 7; pLayerInfo := [] |};
         {| sType := VK_STRUCTURE_TYPE_LOADER_INSTANCE_CREATE_INFO;
            function := VK_LAYER_LINK_INFO;
            pLayerInfo :=
              [ {| pfnNextGetInstanceProcAddr := 4096;
                   pfnNextGetPhysicalDeviceProcAddr := 4104 |};
                {| pfnNextGetInstanceProcAddr := 8192;
                   pfnNextGetPhysicalDeviceProcAddr := 8200 |} ] |} ] |}.

(** The same parameters without the linkage record: the loader's record there
    carries another function than the link. *)
Definition demo_unlinked_create_info : VkInstanceCreateInfo :=
  {| pNext :=
       [ {| sType := 1000011004; function := 0; pLayerInfo := [] |};
         {| sType := VK_STRUCTURE_TYPE_LOADER_INSTANCE_CREATE_INFO;
            function := 1;
            pLayerInfo := [] |} ] |}.

Definition demo_device_create_info : VkDeviceCreateInfo :=
  {| dev_pNext :=
       [ {| dev_sType := VK_STRUCTURE_TYPE_LOADER_DEVICE_CREATE_INFO;
            dev_function := VK_LAYER_LINK_INFO;
            dev_pLayerInfo :=
              [ {| dev_pfnNextGetInstanceProcAddr := 4096;
                   dev_pfnNextGetDeviceProcAddr := 4112 |} ] |} ] |}.

Definition demo_instance_table (get_proc_addr : PFN)
  : VkLayerInstanceDispatchTable :=
  {| GetInstanceProcAddr := get_proc_addr;
     DestroyInstance := get_proc_addr + 8 |}.

Definition demo_device_table (get_proc_addr : PFN) : VkLayerDispatchTable :=
  {| GetDeviceProcAddr := get_proc_addr;
     CreateShaderModule_member := get_proc_addr + 8;
     DestroyShaderModule_member := get_proc_addr + 16 |}.

(** A layer object that tracks the instance [1048832], whose key [4097] is
    also the key of the physical device [1048833], and the device [77]. *)
Definition demo_tracking_layer : LayerData.t :=
  set_device_dispatch_map_ {[ 77 := demo_device_table 4112 ]}
    (set_instance_maps {[ 4097 := demo_instance_table 4096 ]}
       {[ 4097 := 1048832 ]} demo_layer).

(** A call on the instance registry, and the run of a sequence of them. *)
Inductive registry_call : Type :=
| call_AddInstance (instance : VkInstance)
    (dispatch_table : VkLayerInstanceDispatchTable)
| call_RemoveInstance (instance : VkInstance).

Fixpoint run_calls (E : Env) (calls : list registry_call)
  : M LayerData.t unit :=
  match calls with
  | [] => ret tt
  | call_AddInstance instance dispatch_table :: rest =>
      (AddInstance E instance dispatch_table ;; run_calls E rest)%method
  | call_RemoveInstance instance :: rest =>
      (RemoveInstance E instance ;; run_calls E rest)%method
  end.

(** The call does not register an instance under the key of [instance]:
    it removes, or it adds an instance with another key. *)
Definition keeps_clear_of (E : Env) (instance : VkInstance)
    (c : registry_call) : Prop :=
  match c with
  | call_AddInstance other _ =>
      InstanceKey_of_instance E other <> InstanceKey_of_instance E instance
  | call_RemoveInstance _ => True
  end.

(** Every instance-key entry is filed under the key of the instance it
    points at. *)
Definition keys_map_consistent (E : Env) (this : LayerData.t) : Prop :=
  forall key instance,
    instance_keys_map_ this !! key = Some instance ->
    key = InstanceKey_of_instance E instance.

(** ** Vocabulary of the further properties *)

(** A record of the chain is the loader's linkage record. *)
Definition is_instance_linkage (record : VkLayerInstanceCreateInfo) : Prop :=
  sType record = VK_STRUCTURE_TYPE_LOADER_INSTANCE_CREATE_INFO
  /\ function record = VK_LAYER_LINK_INFO.

Definition is_device_linkage (record : VkLayerDeviceCreateInfo) : Prop :=
  dev_sType record = VK_STRUCTURE_TYPE_LOADER_DEVICE_CREATE_INFO
  /\ dev_function record = VK_LAYER_LINK_INFO.

Definition no_device_linkage (create_info : VkDeviceCreateInfo) : Prop :=
  Forall (fun record => ~ is_device_linkage record) (dev_pNext create_info).



(** A call opens a file, or reports an error: it writes to no stream. *)
Definition opens_or_reports (c : call) : Prop :=
  match c with
  | c_fopen _ _ | c_log_error _ => True
  | _ => False
  end.

(** The calls of the logging interface, and the run of a sequence of them. *)
Inductive log_op : Type :=
| op_LogLine (event_type line : string) (timestamp : Z)
| op_Log (event_type : string) (pipeline : list Z) (prefix : string)
| op_LogEventOnly (event_type extra_content : string).

Fixpoint run_log_ops (E : Env) (ops : list log_op) : M LayerData.t unit :=
  match ops with
  | [] => ret tt
  | op_LogLine event_type line timestamp :: rest =>
      (LogLine E event_type line timestamp ;; run_log_ops E rest)%method
  | op_Log event_type pipeline prefix :: rest =>
      (Log E event_type pipeline prefix ;; run_log_ops E rest)%method
  | op_LogEventOnly event_type extra_content :: rest =>
      (LogEventOnly E event_type extra_content ;; run_log_ops E rest)%method
  end.

(** A trace made of whole lines only: each write is a text that ends with the
    line terminator, on an allowed stream, and the flush of that stream comes
    right after it. *)
Inductive whole_lines (allowed : FILE -> Prop) : list call -> Prop :=
| whole_lines_nil : whole_lines allowed []
| whole_lines_line (f : FILE) (line : string) (rest : list call) :
    allowed f ->
    whole_lines allowed rest ->
    whole_lines allowed
      (c_fputs f (line +:+ String Text.newline "") :: c_fflush f :: rest).

(** The number of lines of a trace that go to the stream [f]. *)
Fixpoint lines_on (f : FILE) (calls : list call) : nat :=
  match calls with
  | [] => O
  | c_fputs g _ :: rest =>
      if bool_decide (g = f) then S (lines_on f rest) else lines_on f rest
  | _ :: rest => lines_on f rest
  end.

(** The number of operations that write to the primary sink. *)
Fixpoint primary_ops (ops : list log_op) : nat :=
  match ops with
  | [] => O
  | op_LogEventOnly _ _ :: rest => primary_ops rest
  | _ :: rest => S (primary_ops rest)
  end.

(** [count] calls of [GetTimeDelta] in a row, with their results in order. *)
Fixpoint GetTimeDelta_times (E : Env) (count : nat) : M LayerData.t (list Z) :=
  match count with
  | O => ret []
  | S count' =>
      (delta <- GetTimeDelta E ;;
       deltas <- GetTimeDelta_times E count' ;;
       ret (delta :: deltas))%method
  end.

(** The differences between [count] consecutive readings of the duration
    clock, from reading number [reading] on, the first one taken against
    [previous]. *)
Fixpoint consecutive_deltas (E : Env) (previous : Z) (reading count : nat)
  : list Z :=
  match count with
  | O => []
  | S count' =>
      (DurationClock_now E reading - previous)
      :: consecutive_deltas E (DurationClock_now E reading) (S reading) count'
  end.

(** Reading the log's rendering of a shader hash back: the single digit [0],
    or [0x] and lowercase hexadecimal digits. *)
Definition decode_hash (s : string) : option Z :=
  match s with
  | String "0" EmptyString => Some 0
  | String "0" (String "x" digits) => Text.parse_hex digits
  | _ => None
  end.

Fixpoint decode_hashes (fields : list string) : option (list Z) :=
  match fields with
  | [] => Some []
  | field :: rest =>
      match decode_hash field, decode_hashes rest with
      | Some hash, Some hashes => Some (hash :: hashes)
      | _, _ => None
      end
  end.

(** The fields between commas of a text that ends with the closing bracket. *)
Fixpoint decode_fields (s : string) : option (list string) :=
  match s with
  | EmptyString => None
  | String c rest =>
      if Ascii.eqb c "]" then
        if String.eqb rest "" then Some [""] else None
      else if Ascii.eqb c "," then option_map (cons "") (decode_fields rest)
      else
        match decode_fields rest with
        | Some (field :: fields) => Some (String c field :: fields)
        | _ => None
        end
  end.

(** Reading a pipeline's hash list back from its rendering. *)
Definition decode_pipeline (s : string) : option (list Z) :=
  match s with
  | String "[" rest =>
      match decode_fields rest with
      | Some [EmptyString] => Some []
      | Some fields => decode_hashes fields
      | None => None
      end
  | _ => None
  end.

(** A text without comma and closing bracket. *)
Fixpoint is_field (s : string) : bool :=
  match s with
  | EmptyString => true
  | String c rest =>
      negb (Ascii.eqb c ",") && negb (Ascii.eqb c "]") && is_field rest
  end.

(** [AddEvent] for each event of a list, in order. *)
Fixpoint AddEvents (events : list Event) : M CommonLogger.t unit :=
  match events with
  | [] => ret tt
  | event :: rest => (CommonLogger.AddEvent event ;; AddEvents rest)%method
  end.

(** One flushed line per event on the stream [f]. *)
Definition event_lines (f : FILE) (events : list Event) : list call :=
  flat_map
    (fun event =>
       [c_fputs f (EventToCommonLogStr event +:+ String Text.newline "");
        c_fflush f])
    events.

(** A text without double quote. *)
Fixpoint quote_free (s : string) : bool :=
  match s with
  | EmptyString => true
  | String c rest => negb (Ascii.eqb c Text.dquote) && quote_free rest
  end.

(** The line that [Log] writes to the primary sink, without its terminator. *)
Definition Log_line (pipeline : list Z) (prefix : string) : string :=
  Text.CsvCat [Text.quoted (PipelineHashToString pipeline); prefix].
(** * Properties *)

(** ** Hexadecimal rendering *)

Section HexFacts.
Import Text.

Lemma hex_digits_range fuel v :
  0 <= v -> Forall (fun d => 0 <= d < 16) (hex_digits fuel v).
Proof.
  revert v. induction fuel as [|fuel IH]; intros v Hv; simpl.
  - constructor.
  - destruct (v =? 0); constructor.
    + apply Z.mod_pos_bound. lia.
    + apply IH. apply Z.div_pos; lia.
Qed.

Lemma hex_digits_value fuel v :
  0 <= v < 16 ^ Z.of_nat fuel -> lsb_value (hex_digits fuel v) = v.
Proof.
  revert v. induction fuel as [|fuel IH]; intros v Hv.
  - simpl in *. lia.
  - cbn [hex_digits]. destruct (Z.eqb_spec v 0) as [->|Hne]; [reflexivity|].
    cbn [lsb_value]. rewrite IH.
    + pose proof (Z.div_mod v 16). lia.
    + rewrite Nat2Z.inj_succ, Z.pow_succ_r in Hv by lia.
      split; [apply Z.div_pos; lia | apply Z.div_lt_upper_bound; lia].
Qed.

Lemma hex_val_hex_char d : 0 <= d < 16 -> hex_val (hex_char d) = Some d.
Proof.
  intros Hd.
  assert (Hcases : d = 0 \/ d = 1 \/ d = 2 \/ d = 3 \/ d = 4 \/ d = 5 \/ d = 6
                   \/ d = 7 \/ d = 8 \/ d = 9 \/ d = 10 \/ d = 11 \/ d = 12
                   \/ d = 13 \/ d = 14 \/ d = 15) by lia.
  repeat (destruct Hcases as [->|Hcases]; [reflexivity|]).
  subst d. reflexivity.
Qed.

Lemma parse_hex_from_digits ds acc :
  Forall (fun d => 0 <= d < 16) ds ->
  parse_hex_from acc (string_of_list_ascii (map hex_char ds))
  = Some (fold_left (fun a d => a * 16 + d) ds acc).
Proof.
  intros Hds. revert acc.
  induction Hds as [|d ds Hd _ IH]; intros acc; simpl.
  - reflexivity.
  - rewrite hex_val_hex_char by exact Hd. apply IH.
Qed.

Lemma fold_left_rev_lsb ds :
  fold_left (fun a d => a * 16 + d) (rev ds) 0 = lsb_value ds.
Proof.
  induction ds as [|d ds IH]; simpl.
  - reflexivity.
  - rewrite fold_left_app. simpl. rewrite IH. lia.
Qed.

Lemma hex_digits_nonempty fuel v : 0 < v -> hex_digits (S fuel) v <> [].
Proof.
  intros Hv. cbn [hex_digits].
  destruct (Z.eqb_spec v 0); [lia | discriminate].
Qed.

(** The most significant digit produced is not zero. *)
Lemma hex_digits_last fuel v :
  0 <= v < 16 ^ Z.of_nat fuel -> List.last (hex_digits fuel v) 1 <> 0.
Proof.
  revert v. induction fuel as [|fuel IH]; intros v Hv.
  - simpl. lia.
  - cbn [hex_digits]. destruct (Z.eqb_spec v 0) as [->|Hne]; [simpl; lia|].
    assert (Hq : 0 <= v / 16 < 16 ^ Z.of_nat fuel).
    { rewrite Nat2Z.inj_succ, Z.pow_succ_r in Hv by lia.
      split; [apply Z.div_pos; lia | apply Z.div_lt_upper_bound; lia]. }
    specialize (IH _ Hq).
    destruct (hex_digits fuel (v / 16)) as [|d ds] eqn:Hrec.
    + simpl. destruct fuel as [|fuel'].
      * simpl in Hq. pose proof (Z.div_mod v 16). lia.
      * cbn [hex_digits] in Hrec.
        destruct (Z.eqb_spec (v / 16) 0) as [Hz|]; [|discriminate].
        pose proof (Z.div_mod v 16). lia.
    + exact IH.
Qed.

Lemma parse_hex_hex_string v :
  0 < v < 2 ^ 64 -> parse_hex (hex_string v) = Some v.
Proof.
  intros Hv. unfold parse_hex, hex_string.
  pose proof (hex_digits_nonempty 15 v (proj1 Hv)) as Hne.
  assert (Hval : lsb_value (hex_digits 16 v) = v).
  { apply hex_digits_value. change (16 ^ Z.of_nat 16) with (2 ^ 64). lia. }
  assert (Hrange : Forall (fun d => 0 <= d < 16) (hex_digits 16 v)).
  { apply hex_digits_range. lia. }
  remember (hex_digits 16 v) as digits eqn:Hdigits. clear Hdigits.
  destruct (rev digits) as [|d ds] eqn:Hrev.
  - apply (f_equal (@rev Z)) in Hrev. rewrite rev_involutive in Hrev.
    simpl in Hrev. congruence.
  - cbn [map string_of_list_ascii].
    change (String (hex_char d) (string_of_list_ascii (map hex_char ds)))
      with (string_of_list_ascii (map hex_char (d :: ds))).
    rewrite parse_hex_from_digits.
    + rewrite <- Hrev, fold_left_rev_lsb. congruence.
    + rewrite <- Hrev. apply Forall_rev. exact Hrange.
Qed.

Lemma hex_char_nonzero d : 0 <= d < 16 -> d <> 0 -> hex_char d <> "0"%char.
Proof.
  intros Hd Hnz.
  assert (Hcases : d = 1 \/ d = 2 \/ d = 3 \/ d = 4 \/ d = 5 \/ d = 6
                   \/ d = 7 \/ d = 8 \/ d = 9 \/ d = 10 \/ d = 11 \/ d = 12
                   \/ d = 13 \/ d = 14 \/ d = 15) by lia.
  repeat (destruct Hcases as [->|Hcases]; [discriminate|]).
  subst d. discriminate.
Qed.

Lemma hex_string_leading_digit v :
  0 < v < 2 ^ 64 -> String.get 0 (hex_string v) <> Some "0"%char.
Proof.
  intros Hv. unfold hex_string.
  pose proof (hex_digits_nonempty 15 v (proj1 Hv)) as Hne.
  assert (Hlast : List.last (hex_digits 16 v) 1 <> 0).
  { apply hex_digits_last. change (16 ^ Z.of_nat 16) with (2 ^ 64). lia. }
  assert (Hrange : Forall (fun d => 0 <= d < 16) (hex_digits 16 v)).
  { apply hex_digits_range. lia. }
  remember (hex_digits 16 v) as digits eqn:Hdigits. clear Hdigits.
  rewrite (app_removelast_last 1 Hne) in Hrange |- *.
  rewrite rev_app_distr. simpl.
  apply Forall_app in Hrange as [_ Hd]. inversion Hd as [|? ? Hd1 _]; subst.
  intros Heq. injection Heq. apply hex_char_nonzero; assumption.
Qed.

End HexFacts.

(** C8, as stated, fails at the hash [0]: [%#x] prints a zero value as the
    single digit [0], without the prefix. *)
Lemma ShaderHashToString_zero_not_prefixed :
  0 <= 0 < 2 ^ 64 /\
  ShaderHashToString 0 = "0" /\
  ~ rendered_0x_lower_hex (ShaderHashToString 0) 0.
Proof.
  split; [lia|]. split; [reflexivity|].
  intros [digits [Heq _]]. discriminate Heq.
Qed.

(** C8 (amended): for every nonzero 64-bit shader hash, [ShaderHashToString]
    is [0x] followed by the lowercase hexadecimal digits of the value, the
    first of them not [0]; the hash [0] is rendered as the single digit [0]
    without a prefix. *)
Theorem ShaderHashToString_rendering (hash : Z) :
  0 <= hash < 2 ^ 64 ->
  if decide (hash = 0) then ShaderHashToString hash = "0"
  else rendered_0x_lower_hex (ShaderHashToString hash) hash
       /\ String.get 2 (ShaderHashToString hash) <> Some "0"%char.
Proof.
  intros Hrange. destruct (decide (hash = 0)) as [->|Hnz]; [reflexivity|].
  unfold ShaderHashToString, Text.StrFormat_alt_x.
  rewrite Z.mod_small by lia.
  destruct (Z.eqb_spec hash 0) as [|_]; [contradiction|].
  split.
  - exists (Text.hex_string hash). split; [reflexivity|].
    apply parse_hex_hex_string. lia.
  - change (String.get 2 ("0x" +:+ Text.hex_string hash))
      with (String.get 0 (Text.hex_string hash)).
    apply hex_string_leading_digit. lia.
Qed.

Lemma ShaderHashToString_rendering_witness :
  0 <= 48879 < 2 ^ 64 /\
  rendered_0x_lower_hex (ShaderHashToString 48879) 48879 /\
  ShaderHashToString 48879 = "0xbeef".
Proof.
  split; [lia|]. split; [|reflexivity].
  exact (proj1 (ShaderHashToString_rendering 48879 ltac:(lia))).
Defined.

(** ** Logging *)

Section QuotedFacts.
Import Text.

Lemma string_app_assoc (a b c : string) : (a +:+ b) +:+ c = a +:+ b +:+ c.
Proof.
  induction a as [|x a IH]; [reflexivity|].
  change (String x ((a +:+ b) +:+ c) = String x (a +:+ b +:+ c)).
  now rewrite IH.
Qed.

Lemma quoted_body_app a b :
  quoted_body (a +:+ b) = quoted_body a +:+ quoted_body b.
Proof.
  induction a as [|c a IH]; simpl; [reflexivity|].
  destruct (Ascii.eqb c dquote || Ascii.eqb c backslash)%bool;
    simpl; rewrite IH; reflexivity.
Qed.

Lemma hex_char_plain d :
  (Ascii.eqb (hex_char d) dquote || Ascii.eqb (hex_char d) backslash)%bool
  = false.
Proof.
  destruct d as [|p|p]; [reflexivity| |reflexivity].
  do 4 (try destruct p as [p|p|]); reflexivity.
Qed.

Lemma quoted_body_hex_chars ds :
  quoted_body (string_of_list_ascii (map hex_char ds))
  = string_of_list_ascii (map hex_char ds).
Proof.
  induction ds as [|d ds IH]; simpl; [reflexivity|].
  rewrite hex_char_plain, IH. reflexivity.
Qed.

Lemma quoted_body_StrFormat_alt_x v :
  quoted_body (StrFormat_alt_x v) = StrFormat_alt_x v.
Proof.
  unfold StrFormat_alt_x. destruct (v mod 2 ^ 64 =? 0); [reflexivity|].
  rewrite quoted_body_app. unfold hex_string.
  rewrite quoted_body_hex_chars. reflexivity.
Qed.

Lemma quoted_body_join_hashes pipeline :
  quoted_body (StrJoin (map ShaderHashToString pipeline) ",")
  = StrJoin (map ShaderHashToString pipeline) ",".
Proof.
  unfold StrJoin.
  induction pipeline as [|hash rest IH]; [reflexivity|].
  destruct rest as [|hash' rest].
  - simpl. apply quoted_body_StrFormat_alt_x.
  - change (String.concat "," (map ShaderHashToString (hash :: hash' :: rest)))
      with (ShaderHashToString hash +:+ "," +:+
            String.concat "," (map ShaderHashToString (hash' :: rest))).
    rewrite !quoted_body_app, IH.
    unfold ShaderHashToString at 1.
    rewrite quoted_body_StrFormat_alt_x. reflexivity.
Qed.

(** The hash list of a pipeline holds no character that [std::quoted]
    escapes: quoting it only encloses it in double quotes. *)
Lemma quoted_PipelineHashToString pipeline :
  quoted (PipelineHashToString pipeline)
  = String dquote (PipelineHashToString pipeline) +:+ String dquote "".
Proof.
  unfold quoted, PipelineHashToString.
  rewrite !quoted_body_app, quoted_body_join_hashes. reflexivity.
Qed.

End QuotedFacts.

Lemma LogLine_trace E event_type line timestamp this f trace :
  out_ this = Some f ->
  LogLine E event_type line timestamp this trace
  = Done tt this
      (trace ++ [c_fputs f (line +:+ String Text.newline ""); c_fflush f]
             ++ event_log_writes E this event_type line timestamp).
Proof.
  intros Hout. unfold LogLine, event_log_writes, bind, get.
  rewrite Hout. unfold WriteLnAndFlush, bind, emit, ret.
  destruct (event_log_ this) as [event_log|].
  - rewrite <- !app_assoc.
    unfold MakeEventLogPrefix, Text.CsvCat, Text.StrJoin, String.concat.
    rewrite !string_app_assoc. reflexivity.
  - rewrite <- !app_assoc. reflexivity.
Qed.

(** C5: [LogLine(event_type, line, timestamp)] writes [line] and the line
    terminator to the primary sink and flushes it; the line
    [event_type,timestampNanos,line] is written to the secondary sink and
    flushed if one is configured, and nothing else happens if none is. *)
Theorem LogLine_writes (E : Env) (event_type line : string) (timestamp : Z)
    (this : LayerData.t) (out : FILE) (trace : list call) :
  out_ this = Some out ->
  exists secondary,
    LogLine E event_type line timestamp this trace
    = Done tt this
        (trace ++ [c_fputs out (line +:+ String Text.newline "");
                   c_fflush out] ++ secondary)
    /\ (event_log_ this = None -> secondary = [])
    /\ (forall event_log, event_log_ this = Some event_log ->
        secondary
        = [c_fputs event_log
             (event_type +:+ "," +:+ Text.decimal (ToUnixNanos E timestamp)
              +:+ "," +:+ line +:+ String Text.newline "");
           c_fflush event_log]).
Proof.
  intros Hout.
  exists (event_log_writes E this event_type line timestamp).
  split; [apply LogLine_trace; exact Hout|].
  unfold event_log_writes. split.
  - intros ->. reflexivity.
  - intros event_log ->. reflexivity.
Qed.

Lemma LogLine_writes_witness :
  out_ demo_layer = Some stderr /\
  LogLine (demo_env VK_SUCCESS true) "frame_present" "17,42" 1700000000
    demo_layer []
  = Done tt demo_layer
      [c_fputs stderr ("17,42" +:+ String Text.newline "");
       c_fflush stderr;
       c_fputs (stream 2)
         ("frame_present,1700000000000000000,17,42" +:+ String Text.newline "");
       c_fflush (stream 2)].
Proof.
  split; [reflexivity|].
  destruct (LogLine_writes (demo_env VK_SUCCESS true) "frame_present" "17,42"
              1700000000 demo_layer stderr [] eq_refl)
    as [secondary [Hrun [_ Hsecondary]]].
  rewrite Hrun, (Hsecondary (stream 2) eq_refl). reflexivity.
Defined.

(** C6: [Log] writes to the primary sink the hash list of the pipeline,
    bracketed, comma-joined and enclosed in double quotes, then a comma and
    the prefix, through [LogLine]; for [Log("pipeline_cache_hit", {0x1, 0x2},
    "42")] the line is ["[0x1,0x2]",42]. *)
Theorem Log_pipeline_line (E : Env) (this : LayerData.t) (out : FILE)
    (trace : list call) :
  out_ this = Some out ->
  (forall event_type pipeline prefix,
     let line :=
       String Text.dquote
         ("[" +:+ Text.StrJoin (map ShaderHashToString pipeline) "," +:+ "]")
       +:+ String Text.dquote "" +:+ "," +:+ prefix in
     Log E event_type pipeline prefix this trace
     = LogLine E event_type line (TimestampClock_now E (clock_reads this))
         (set_clock_reads (S (clock_reads this)) this) trace)
  /\ Log E "pipeline_cache_hit" [1; 2] "42" this trace
     = Done tt (set_clock_reads (S (clock_reads this)) this)
         (trace ++
          [c_fputs out
             (String Text.dquote "[0x1,0x2]" +:+ String Text.dquote ",42"
              +:+ String Text.newline "");
           c_fflush out] ++
          event_log_writes E this "pipeline_cache_hit"
            (String Text.dquote "[0x1,0x2]" +:+ String Text.dquote ",42")
            (TimestampClock_now E (clock_reads this))).
Proof.
  intros Hout.
  assert (Hgeneral : forall event_type pipeline prefix,
    Log E event_type pipeline prefix this trace
    = LogLine E event_type
        (String Text.dquote
           ("[" +:+ Text.StrJoin (map ShaderHashToString pipeline) ","
            +:+ "]")
         +:+ String Text.dquote "" +:+ "," +:+ prefix)
        (TimestampClock_now E (clock_reads this))
        (set_clock_reads (S (clock_reads this)) this) trace).
  { intros event_type pipeline prefix.
    unfold Log. rewrite quoted_PipelineHashToString.
    unfold Text.CsvCat, Text.StrJoin at 1, String.concat.
    rewrite string_app_assoc. reflexivity. }
  split; [exact Hgeneral|].
  rewrite Hgeneral.
  rewrite (LogLine_trace E _ _ _ _ out) by exact Hout.
  reflexivity.
Qed.

Lemma Log_pipeline_line_witness :
  out_ demo_layer = Some stderr /\
  Log (demo_env VK_SUCCESS true) "pipeline_cache_hit" [1; 2] "42" demo_layer []
  = Done tt (set_clock_reads 1 demo_layer)
      [c_fputs stderr
         (String Text.dquote "[0x1,0x2]" +:+ String Text.dquote ",42"
          +:+ String Text.newline "");
       c_fflush stderr;
       c_fputs (stream 2)
         ("pipeline_cache_hit,1700000000000000000,"
          +:+ String Text.dquote "[0x1,0x2]" +:+ String Text.dquote ",42"
          +:+ String Text.newline "");
       c_fflush (stream 2)].
Proof.
  split; [reflexivity|].
  rewrite (proj2 (Log_pipeline_line (demo_env VK_SUCCESS true) demo_layer
                    stderr [] eq_refl)).
  reflexivity.
Defined.

(** The scenario of the log file: opened with a header, then one pipeline
    line. *)
Example log_file_scenario :
  (LayerData_with_log (demo_env VK_SUCCESS true) (Some "layer.csv")
     "event,pipeline_hash,time_delta" ;;
   Log (demo_env VK_SUCCESS true) "pipeline_cache_hit" [1; 2] "42")%method
    fresh []
  = Done tt
      (set_clock_reads 1
         (set_event_log_ (Some (stream 2)) (set_out_ (Some (stream 1)) fresh)))
      [c_fopen "layer.csv" "w";
       c_fputs (stream 1)
         ("event,pipeline_hash,time_delta" +:+ String Text.newline "");
       c_fflush (stream 1);
       c_fopen "events.csv" "a";
       c_fputs (stream 1)
         (String Text.dquote "[0x1,0x2]" +:+ String Text.dquote ",42"
          +:+ String Text.newline "");
       c_fflush (stream 1);
       c_fputs (stream 2)
         ("pipeline_cache_hit,1700000000000000000,"
          +:+ String Text.dquote "[0x1,0x2]" +:+ String Text.dquote ",42"
          +:+ String Text.newline "");
       c_fflush (stream 2)].
Proof. reflexivity. Qed.

(** ** Time deltas *)

Lemma wrap_int64_small z : int64_min <= z <= int64_max -> wrap_int64 z = z.
Proof.
  unfold wrap_int64, int64_min, int64_max. intros Hz.
  rewrite Z.mod_small; lia.
Qed.

Lemma GetTimeDelta_run E this trace :
  GetTimeDelta E this trace
  = Done
      (if bool_decide (last_log_time_ this <> time_point_min)
       then wrap_int64 (DurationClock_now E (clock_reads this)
                        - last_log_time_ this)
       else duration_min)
      (set_last_log_time_ (DurationClock_now E (clock_reads this))
         (set_clock_reads (S (clock_reads this)) this))
      trace.
Proof. reflexivity. Qed.

(** C7: on a fresh [LayerData] the first [GetTimeDelta] returns the sentinel
    [duration::min()]; the call made right after it returns the time elapsed
    between the two readings of the clock, which is not negative.  The clock
    is monotonic, its first reading is not the sentinel time point, and the
    difference of the readings is representable. *)
Theorem GetTimeDelta_first_then_second (E : Env) (this : LayerData.t)
    (trace : list call) :
  let first_reading := DurationClock_now E (clock_reads this) in
  let second_reading := DurationClock_now E (S (clock_reads this)) in
  last_log_time_ this = time_point_min ->
  first_reading <> time_point_min ->
  first_reading <= second_reading ->
  second_reading - first_reading <= int64_max ->
  exists this1 this2 delta,
    GetTimeDelta E this trace = Done duration_min this1 trace
    /\ GetTimeDelta E this1 trace = Done delta this2 trace
    /\ delta = second_reading - first_reading
    /\ 0 <= delta.
Proof.
  intros first_reading second_reading Hfresh Hsentinel Hmono Hfits.
  eexists _, _, _. rewrite !GetTimeDelta_run.
  split; [|split; [reflexivity|]].
  - rewrite Hfresh. reflexivity.
  - cbn [last_log_time_ clock_reads set_last_log_time_ set_clock_reads].
    fold first_reading second_reading.
    rewrite bool_decide_eq_true_2 by exact Hsentinel.
    rewrite wrap_int64_small by (unfold int64_min, int64_max in *; lia).
    split; [reflexivity | lia].
Qed.

Lemma GetTimeDelta_first_then_second_witness :
  last_log_time_ fresh = time_point_min /\
  1000 <> time_point_min /\
  1000 <= 1025 /\
  1025 - 1000 <= int64_max /\
  exists this1 this2,
    GetTimeDelta (demo_env VK_SUCCESS true) fresh [] = Done duration_min this1 []
    /\ GetTimeDelta (demo_env VK_SUCCESS true) this1 [] = Done 25 this2 [].
Proof.
  assert (H0 : last_log_time_ fresh = time_point_min) by reflexivity.
  assert (H1 : 1000 <> time_point_min)
    by (unfold time_point_min, int64_min; lia).
  assert (H2 : 1000 <= 1025) by lia.
  assert (H3 : 1025 - 1000 <= int64_max) by (unfold int64_max; lia).
  repeat (split; [assumption|]).
  destruct (GetTimeDelta_first_then_second (demo_env VK_SUCCESS true) fresh []
              H0 H1 H2 H3)
    as (this1 & this2 & delta & Hfirst & Hsecond & Hdelta & _).
  exists this1, this2. split; [exact Hfirst|].
  rewrite Hsecond, Hdelta. reflexivity.
Defined.

(** ** The common logger *)

Lemma CommonLogger_EndLog_run logger trace :
  CommonLogger.EndLog logger trace
  = match CommonLogger.out_ logger with
    | Some (stream id) =>
        Done tt {| CommonLogger.out_ := None |}
          (trace ++ [c_fclose (stream id)])
    | Some stderr | None => Done tt logger trace
    end.
Proof.
  destruct logger as [[[|id]|]]; reflexivity.
Qed.

Lemma CommonLogger_AddEvent_run event logger trace :
  CommonLogger.AddEvent event logger trace
  = match CommonLogger.out_ logger with
    | Some f =>
        Done tt logger
          (trace ++
           [c_fputs f (EventToCommonLogStr event +:+ String Text.newline "");
            c_fflush f])
    | None => Abort
    end.
Proof.
  destruct logger as [[f|]]; unfold CommonLogger.AddEvent, bind, get;
    cbn [CommonLogger.out_].
  - rewrite bool_decide_eq_true_2 by eauto.
    unfold assert, ret, WriteLnAndFlush, bind, emit.
    rewrite <- app_assoc. reflexivity.
  - rewrite bool_decide_eq_false_2 by (intros [? ?]; discriminate).
    reflexivity.
Qed.

Lemma CommonLogger_Flush_run logger trace :
  CommonLogger.Flush logger trace
  = match CommonLogger.out_ logger with
    | Some f => Done tt logger (trace ++ [c_fflush f])
    | None => Abort
    end.
Proof.
  destruct logger as [[f|]]; unfold CommonLogger.Flush, bind, get;
    cbn [CommonLogger.out_].
  - rewrite bool_decide_eq_true_2 by eauto. reflexivity.
  - rewrite bool_decide_eq_false_2 by (intros [? ?]; discriminate).
    reflexivity.
Qed.

Lemma run_logger_call_run c logger (trace : list call) :
  run_logger_call c logger trace
  = match c with
    | call_AddEvent event => CommonLogger.AddEvent event logger trace
    | call_StartLog => Done tt logger trace
    | call_EndLog => CommonLogger.EndLog logger trace
    | call_Flush => CommonLogger.Flush logger trace
    end.
Proof. destruct c; reflexivity. Qed.

(** Without a write operation, a sequence does nothing on a logger whose
    sink is [stderr] or forgotten. *)
Lemma run_no_writes calls logger (trace : list call) :
  forallb (fun c => negb (is_write c)) calls = true ->
  CommonLogger.out_ logger = None
  \/ CommonLogger.out_ logger = Some stderr ->
  run_logger_calls calls logger trace = Done tt logger trace.
Proof.
  intros Hcalls Hlogger.
  induction calls as [|c calls IH]; [reflexivity|].
  cbn [forallb] in Hcalls. apply andb_true_iff in Hcalls as [Hc Hcalls].
  cbn [run_logger_calls]. unfold bind. rewrite run_logger_call_run.
  destruct c; try discriminate Hc.
  - apply IH, Hcalls.
  - rewrite CommonLogger_EndLog_run.
    destruct Hlogger as [-> | ->]; apply IH, Hcalls.
Qed.

Lemma writes_on_no_writes f calls :
  forallb (fun c => negb (is_write c)) calls = true -> writes_on f calls = [].
Proof.
  induction calls as [|c calls IH]; [reflexivity|].
  cbn [forallb]. intros Hcalls.
  apply andb_true_iff in Hcalls as [Hc Hcalls].
  unfold writes_on in *. cbn [flat_map]. rewrite IH by exact Hcalls.
  destruct c; try discriminate Hc; reflexivity.
Qed.

(** The first write operation on a logger that has forgotten its sink stops
    at the assertion. *)
Lemma run_write_without_sink calls (trace : list call) :
  forallb (fun c => negb (is_write c)) calls = false ->
  run_logger_calls calls {| CommonLogger.out_ := None |} trace = Abort.
Proof.
  induction calls as [|c calls IH]; [discriminate|].
  cbn [forallb]. intros Hcalls.
  cbn [run_logger_calls]. unfold bind. rewrite run_logger_call_run.
  destruct c; cbn [is_write negb andb] in Hcalls.
  - rewrite CommonLogger_AddEvent_run. reflexivity.
  - apply IH, Hcalls.
  - rewrite CommonLogger_EndLog_run. apply IH, Hcalls.
  - rewrite CommonLogger_Flush_run. reflexivity.
Qed.

Lemma run_permitted calls :
  forall f (trace : list call),
    permitted calls = true ->
    run_logger_calls calls {| CommonLogger.out_ := Some f |} trace
    = Done tt (logger_after f calls)
        (trace ++ writes_on f calls ++ closing_of f calls).
Proof.
  induction calls as [|c calls IH]; intros f trace Hpermitted.
  - destruct f; cbn; rewrite app_nil_r; reflexivity.
  - cbn [run_logger_calls]. unfold bind. rewrite run_logger_call_run.
    destruct c as [event| | |]; cbn [permitted] in Hpermitted.
    + rewrite CommonLogger_AddEvent_run. cbn [CommonLogger.out_].
      rewrite IH by exact Hpermitted.
      unfold writes_on. cbn [flat_map]. rewrite <- !app_assoc.
      destruct f; reflexivity.
    + rewrite IH by exact Hpermitted. destruct f; reflexivity.
    + rewrite CommonLogger_EndLog_run. cbn [CommonLogger.out_].
      unfold writes_on. cbn [flat_map app].
      fold (writes_on f calls).
      rewrite (writes_on_no_writes f calls Hpermitted).
      destruct f as [|id];
        rewrite run_no_writes by (auto; exact Hpermitted);
        cbn [logger_after closing_of existsb is_EndLog orb app];
        rewrite ?app_nil_r; reflexivity.
    + rewrite CommonLogger_Flush_run. cbn [CommonLogger.out_].
      rewrite IH by exact Hpermitted.
      unfold writes_on. cbn [flat_map]. rewrite <- !app_assoc.
      destruct f; reflexivity.
Qed.

Lemma run_not_permitted calls :
  forall id (trace : list call),
    permitted calls = false ->
    run_logger_calls calls {| CommonLogger.out_ := Some (stream id) |} trace
    = Abort.
Proof.
  induction calls as [|c calls IH]; intros id trace Hpermitted;
    [discriminate|].
  cbn [run_logger_calls]. unfold bind. rewrite run_logger_call_run.
  destruct c as [event| | |]; cbn [permitted] in Hpermitted.
  - rewrite CommonLogger_AddEvent_run. cbn [CommonLogger.out_].
    apply IH, Hpermitted.
  - apply IH, Hpermitted.
  - rewrite CommonLogger_EndLog_run. cbn [CommonLogger.out_].
    apply run_write_without_sink, Hpermitted.
  - rewrite CommonLogger_Flush_run. cbn [CommonLogger.out_].
    apply IH, Hpermitted.
Qed.

(** C9: [EndLog] closes the sink and forgets it unless the sink is [stderr],
    which is never closed; a second [EndLog] after [EndLog] does nothing.
    The rule that no write operation ([AddEvent], [Flush]) follows [EndLog]
    is what the logger relies on: every sequence of calls that keeps it runs
    to its end on a logger with a sink, all its writes go to the sink before
    the sink is closed, and the sink is closed at most once; and a logger on
    a file holds its caller to the rule, as a sequence that breaks it stops
    at the assertion [assert(out_)] of the write operation. *)
Theorem EndLog_protocol (logger : CommonLogger.t) (trace : list call) :
  CommonLogger.EndLog logger trace
  = match CommonLogger.out_ logger with
    | Some (stream id) =>
        Done tt {| CommonLogger.out_ := None |}
          (trace ++ [c_fclose (stream id)])
    | Some stderr | None => Done tt logger trace
    end
  /\ (CommonLogger.EndLog ;; CommonLogger.EndLog)%method logger trace
     = CommonLogger.EndLog logger trace
  /\ (forall calls f,
        CommonLogger.out_ logger = Some f ->
        permitted calls = true ->
        run_logger_calls calls logger trace
        = Done tt (logger_after f calls)
            (trace ++ writes_on f calls ++ closing_of f calls))
  /\ (forall calls id,
        CommonLogger.out_ logger = Some (stream id) ->
        permitted calls = false ->
        run_logger_calls calls logger trace = Abort).
Proof.
  split; [apply CommonLogger_EndLog_run|]. split; [|split].
  - unfold bind. rewrite CommonLogger_EndLog_run.
    destruct logger as [[[|id]|]]; cbn [CommonLogger.out_];
      rewrite CommonLogger_EndLog_run; reflexivity.
  - intros calls f Hsink Hpermitted. destruct logger as [sink].
    cbn [CommonLogger.out_] in Hsink. subst sink.
    apply run_permitted, Hpermitted.
  - intros calls id Hsink Hbroken. destruct logger as [sink].
    cbn [CommonLogger.out_] in Hsink. subst sink.
    apply run_not_permitted, Hbroken.
Qed.

Lemma EndLog_protocol_witness :
  permitted
    [call_StartLog;
     call_AddEvent {| event_name := "frame_present";
                      event_attributes := [("frame", "17")] |};
     call_Flush; call_EndLog; call_EndLog] = true
  /\ run_logger_calls
       [call_StartLog;
        call_AddEvent {| event_name := "frame_present";
                         event_attributes := [("frame", "17")] |};
        call_Flush; call_EndLog; call_EndLog]
       {| CommonLogger.out_ := Some (stream 3) |} []
     = Done tt {| CommonLogger.out_ := None |}
         [c_fputs (stream 3)
            ("frame_present,frame:17" +:+ String Text.newline "");
          c_fflush (stream 3); c_fflush (stream 3); c_fclose (stream 3)]
  /\ permitted [call_EndLog; call_Flush] = false
  /\ run_logger_calls [call_EndLog; call_Flush]
       {| CommonLogger.out_ := Some (stream 3) |} []
     = Abort.
Proof.
  destruct (EndLog_protocol {| CommonLogger.out_ := Some (stream 3) |} [])
    as (_ & _ & Hkept & Hbroken).
  split; [reflexivity|]. split.
  - rewrite (Hkept
               [call_StartLog;
                call_AddEvent {| event_name := "frame_present";
                                 event_attributes := [("frame", "17")] |};
                call_Flush; call_EndLog; call_EndLog]
               (stream 3) eq_refl eq_refl).
    reflexivity.
  - split; [reflexivity|].
    exact (Hbroken [call_EndLog; call_Flush] 3%nat eq_refl eq_refl).
Defined.

(** ** Creation of instances and devices *)

Lemma FindInstanceCreateInfo_loop_absent chain position :
  Forall
    (fun record =>
       ~ (sType record = VK_STRUCTURE_TYPE_LOADER_INSTANCE_CREATE_INFO
          /\ function record = VK_LAYER_LINK_INFO)) chain ->
  FindInstanceCreateInfo_loop chain position = None.
Proof.
  intros Habsent. revert position.
  induction Habsent as [|record chain Hrecord _ IH]; intros position; simpl.
  - reflexivity.
  - repeat case_bool_decide; simpl; try apply IH.
    exfalso. apply Hrecord. split.
    + destruct (decide (sType record
                        = VK_STRUCTURE_TYPE_LOADER_INSTANCE_CREATE_INFO));
        [assumption | contradiction].
    + destruct (decide (function record = VK_LAYER_LINK_INFO));
        [assumption | contradiction].
Qed.

(** C2: a [CreateInstance] whose creation parameters hold no loader-linkage
    record returns [VK_ERROR_INITIALIZATION_FAILED]; the fields of the layer
    and the trace of calls are as before, so nothing was registered and the
    next layer was not called. *)
Theorem CreateInstance_without_linkage (E : Env)
    (create_info : VkInstanceCreateInfo) (allocator : Z)
    (instance : VkInstance)
    (get_dispatch_table : PFN -> VkLayerInstanceDispatchTable)
    (this : LayerData.t) (trace : list call) :
  no_instance_linkage create_info ->
  CreateInstance E create_info allocator instance get_dispatch_table this trace
  = Done (VK_ERROR_INITIALIZATION_FAILED, instance) this trace.
Proof.
  intros Habsent. unfold CreateInstance, FindInstanceCreateInfo.
  rewrite FindInstanceCreateInfo_loop_absent by exact Habsent.
  reflexivity.
Qed.

Lemma CreateInstance_without_linkage_witness :
  no_instance_linkage demo_unlinked_create_info /\
  CreateInstance (demo_env VK_SUCCESS true) demo_unlinked_create_info 0 0
    demo_instance_table demo_layer []
  = Done (-3, 0) demo_layer [].
Proof.
  assert (Habsent : no_instance_linkage demo_unlinked_create_info).
  { unfold no_instance_linkage, demo_unlinked_create_info. simpl.
    repeat constructor; simpl; intros [Htag Hfunction]; discriminate. }
  split; [exact Habsent|].
  exact (CreateInstance_without_linkage (demo_env VK_SUCCESS true)
           demo_unlinked_create_info 0 0 demo_instance_table demo_layer []
           Habsent).
Defined.

Lemma bind_Done {S A B} (m : M S A) (k : A -> M S B) s t a s' t' :
  m s t = Done a s' t' -> bind m k s t = k a s' t'.
Proof. intros Hrun. unfold bind. now rewrite Hrun. Qed.

Lemma invoke_GetInstanceProcAddr_run E pfn instance name this
    (trace : list call) :
  pfn <> 0 ->
  invoke_GetInstanceProcAddr E pfn instance name this trace
  = Done (call_GetInstanceProcAddr E pfn instance name) this
      (trace ++ [next_GetInstanceProcAddr pfn instance name]).
Proof.
  intros Hpfn. unfold invoke_GetInstanceProcAddr.
  rewrite bool_decide_eq_false_2 by exact Hpfn. reflexivity.
Qed.

Lemma invoke_vkCreateInstance_run E pfn create_info allocator instance this
    (trace : list call) :
  pfn <> 0 ->
  invoke_vkCreateInstance E pfn create_info allocator instance this trace
  = Done (call_vkCreateInstance E pfn create_info allocator instance) this
      (trace ++ [next_vkCreateInstance pfn create_info]).
Proof.
  intros Hpfn. unfold invoke_vkCreateInstance.
  rewrite bool_decide_eq_false_2 by exact Hpfn. reflexivity.
Qed.

Lemma invoke_vkCreateDevice_run E pfn physical_device create_info allocator
    device this (trace : list call) :
  pfn <> 0 ->
  invoke_vkCreateDevice E pfn physical_device create_info allocator device
    this trace
  = Done (call_vkCreateDevice E pfn physical_device create_info allocator
            device) this
      (trace ++ [next_vkCreateDevice pfn physical_device create_info]).
Proof.
  intros Hpfn. unfold invoke_vkCreateDevice.
  rewrite bool_decide_eq_false_2 by exact Hpfn. reflexivity.
Qed.

Lemma invoke_vkCreateShaderModule_run E pfn device create_info allocator
    shader_module this (trace : list call) :
  pfn <> 0 ->
  invoke_vkCreateShaderModule E pfn device create_info allocator shader_module
    this trace
  = Done (call_vkCreateShaderModule E pfn device create_info allocator
            shader_module) this
      (trace ++ [next_vkCreateShaderModule pfn device create_info]).
Proof.
  intros Hpfn. unfold invoke_vkCreateShaderModule.
  rewrite bool_decide_eq_false_2 by exact Hpfn. reflexivity.
Qed.

(** The run of [CreateInstance] up to the answer of the next layer, reached
    through function pointers that are not null. *)
Lemma CreateInstance_forwarded E create_info allocator instance
    get_dispatch_table this (trace : list call) position record link links :
  FindInstanceCreateInfo create_info = Some (position, record) ->
  pLayerInfo record = link :: links ->
  let get_proc_addr := pfnNextGetInstanceProcAddr link in
  let create_function :=
    call_GetInstanceProcAddr E get_proc_addr VK_NULL_HANDLE
      "vkCreateInstance" in
  let forwarded := store_pLayerInfo create_info position record links in
  let answer :=
    call_vkCreateInstance E create_function forwarded allocator instance in
  let trace' :=
    (trace ++ [next_GetInstanceProcAddr get_proc_addr VK_NULL_HANDLE
                 "vkCreateInstance";
               next_vkCreateInstance create_function forwarded])%list in
  get_proc_addr <> 0 ->
  create_function <> 0 ->
  CreateInstance E create_info allocator instance get_dispatch_table this trace
  = if bool_decide (answer.1 <> VK_SUCCESS) then Done answer this trace'
    else
      match AddInstance E answer.2 (get_dispatch_table get_proc_addr)
              this trace' with
      | Done added this' trace'' =>
          Done (if negb added then VK_ERROR_OUT_OF_HOST_MEMORY
                else VK_SUCCESS, answer.2) this' trace''
      | Abort => Abort
      end.
Proof.
  intros Hfind Hlinks. cbv zeta. intros Hresolver Hfunction.
  unfold CreateInstance. rewrite Hfind, Hlinks. cbv zeta.
  rewrite (bind_Done _ _ _ _ _ _ _
             (invoke_GetInstanceProcAddr_run E _ _ _ _ _ Hresolver)).
  rewrite (bind_Done _ _ _ _ _ _ _
             (invoke_vkCreateInstance_run E _ _ _ _ _ _ Hfunction)).
  rewrite <- app_assoc. cbn [app].
  destruct (call_vkCreateInstance E _ _ allocator instance) as [res instance'].
  cbn [fst snd].
  destruct (bool_decide (res <> VK_SUCCESS)); [reflexivity|].
  unfold bind at 1.
  destruct (AddInstance E instance' _ this _) as [[|] this' trace''|];
    reflexivity.
Qed.

(** The run of [CreateDevice] up to the answer of the next layer, reached
    through function pointers that are not null. *)
Lemma CreateDevice_forwarded E physical_device create_info allocator device
    get_dispatch_table this (trace : list call) position record link links
    instance :
  FindDeviceCreateInfo create_info = Some (position, record) ->
  dev_pLayerInfo record = link :: links ->
  instance_keys_map_ this !! InstanceKey_of_physical_device E physical_device
  = Some instance ->
  instance <> VK_NULL_HANDLE ->
  let get_instance_proc_addr := dev_pfnNextGetInstanceProcAddr link in
  let get_device_proc_addr := dev_pfnNextGetDeviceProcAddr link in
  let create_function :=
    call_GetInstanceProcAddr E get_instance_proc_addr instance
      "vkCreateDevice" in
  let forwarded := dev_store_pLayerInfo create_info position record links in
  let answer :=
    call_vkCreateDevice E create_function physical_device forwarded allocator
      device in
  let trace' :=
    (trace ++ [next_GetInstanceProcAddr get_instance_proc_addr instance
                 "vkCreateDevice";
               next_vkCreateDevice create_function physical_device
                 forwarded])%list in
  get_instance_proc_addr <> 0 ->
  create_function <> 0 ->
  CreateDevice E physical_device create_info allocator device
    get_dispatch_table this trace
  = if bool_decide (answer.1 <> VK_SUCCESS) then Done answer this trace'
    else
      match AddDevice E answer.2 (get_dispatch_table get_device_proc_addr)
              this trace' with
      | Done added this' trace'' =>
          Done (if negb added then VK_ERROR_OUT_OF_HOST_MEMORY
                else VK_SUCCESS, answer.2) this' trace''
      | Abort => Abort
      end.
Proof.
  intros Hfind Hlinks Hinstance Hnonnull. cbv zeta.
  intros Hresolver Hfunction.
  unfold CreateDevice. rewrite Hfind, Hlinks. cbv zeta.
  unfold bind at 1, GetInstance at 1, bind at 1, get at 1.
  rewrite Hinstance. unfold ret at 1.
  unfold bind at 1. rewrite bool_decide_eq_true_2 by exact Hnonnull.
  unfold assert at 1, ret at 1.
  rewrite (bind_Done _ _ _ _ _ _ _
             (invoke_GetInstanceProcAddr_run E _ _ _ _ _ Hresolver)).
  unfold bind at 1. rewrite bool_decide_eq_true_2 by exact Hfunction.
  unfold assert at 1, ret at 1.
  rewrite (bind_Done _ _ _ _ _ _ _
             (invoke_vkCreateDevice_run E _ _ _ _ _ _ _ Hfunction)).
  rewrite <- app_assoc. cbn [app].
  destruct (call_vkCreateDevice E _ physical_device _ allocator device)
    as [result device'].
  cbn [fst snd].
  destruct (bool_decide (result <> VK_SUCCESS)); [reflexivity|].
  unfold bind at 1.
  destruct (AddDevice E device' _ this _) as [[|] this' trace''|];
    reflexivity.
Qed.

(** C3: when the create function of the next layer answers a code other than
    [VK_SUCCESS], [CreateInstance] and [CreateDevice] return that code
    together with what the next layer left in the output location, and the
    fields of the layer are unchanged: no dispatch table and no instance key
    is added.  The trace holds the two calls to the next layer, which are
    made through function pointers that are not null. *)
Theorem upstream_failure_propagated (E : Env) (this : LayerData.t)
    (trace : list call) (allocator : Z) :
  (forall create_info instance get_dispatch_table position record link links
          res instance',
     FindInstanceCreateInfo create_info = Some (position, record) ->
     pLayerInfo record = link :: links ->
     let get_proc_addr := pfnNextGetInstanceProcAddr link in
     let create_function :=
       call_GetInstanceProcAddr E get_proc_addr VK_NULL_HANDLE
         "vkCreateInstance" in
     let forwarded := store_pLayerInfo create_info position record links in
     get_proc_addr <> 0 ->
     create_function <> 0 ->
     call_vkCreateInstance E create_function forwarded allocator instance
     = (res, instance') ->
     res <> VK_SUCCESS ->
     CreateInstance E create_info allocator instance get_dispatch_table
       this trace
     = Done (res, instance') this
         (trace ++ [next_GetInstanceProcAddr get_proc_addr VK_NULL_HANDLE
                      "vkCreateInstance";
                    next_vkCreateInstance create_function forwarded])%list)
  /\
  (forall physical_device create_info device get_dispatch_table position
          record link links instance result device',
     FindDeviceCreateInfo create_info = Some (position, record) ->
     dev_pLayerInfo record = link :: links ->
     instance_keys_map_ this
       !! InstanceKey_of_physical_device E physical_device = Some instance ->
     instance <> VK_NULL_HANDLE ->
     let get_instance_proc_addr := dev_pfnNextGetInstanceProcAddr link in
     let create_function :=
       call_GetInstanceProcAddr E get_instance_proc_addr instance
         "vkCreateDevice" in
     let forwarded := dev_store_pLayerInfo create_info position record links in
     get_instance_proc_addr <> 0 ->
     create_function <> 0 ->
     call_vkCreateDevice E create_function physical_device forwarded allocator
       device = (result, device') ->
     result <> VK_SUCCESS ->
     CreateDevice E physical_device create_info allocator device
       get_dispatch_table this trace
     = Done (result, device') this
         (trace ++ [next_GetInstanceProcAddr get_instance_proc_addr instance
                      "vkCreateDevice";
                    next_vkCreateDevice create_function physical_device
                      forwarded])%list).
Proof.
  split.
  - intros create_info instance get_dispatch_table position record link links
      res instance' Hfind Hlinks get_proc_addr create_function forwarded
      Hresolver Hfunction Hanswer Hfailed.
    rewrite (CreateInstance_forwarded E _ _ _ _ _ _ _ _ _ _ Hfind Hlinks
               Hresolver Hfunction).
    fold get_proc_addr create_function forwarded. rewrite Hanswer.
    cbn [fst]. rewrite bool_decide_eq_true_2 by exact Hfailed. reflexivity.
  - intros physical_device create_info device get_dispatch_table position
      record link links instance result device' Hfind Hlinks Hinstance
      Hnonnull get_instance_proc_addr create_function forwarded Hresolver
      Hfunction Hanswer Hfailed.
    rewrite (CreateDevice_forwarded E _ _ _ _ _ _ _ _ _ _ _ _ Hfind Hlinks
               Hinstance Hnonnull Hresolver Hfunction).
    fold get_instance_proc_addr create_function forwarded. rewrite Hanswer.
    cbn [fst]. rewrite bool_decide_eq_true_2 by exact Hfailed. reflexivity.
Qed.

Lemma upstream_failure_propagated_witness :
  CreateInstance (demo_env (-7) true) demo_instance_create_info 0 0
    demo_instance_table demo_tracking_layer []
  = Done (-7, 0) demo_tracking_layer
      [next_GetInstanceProcAddr 4096 0 "vkCreateInstance";
       next_vkCreateInstance 4097
         {| pNext :=
              [ {| sType := 1000011004; function := 7; pLayerInfo := [] |};
                {| sType := 47; function := 0;
                   pLayerInfo :=
                     [ {| pfnNextGetInstanceProcAddr := 8192;
                          pfnNextGetPhysicalDeviceProcAddr := 8200 |} ] |} ]
         |}]
  /\ CreateDevice (demo_env (-7) true) 1048833 demo_device_create_info 0 0
       demo_device_table demo_tracking_layer []
     = Done (-7, 0) demo_tracking_layer
         [next_GetInstanceProcAddr 4096 1048832 "vkCreateDevice";
          next_vkCreateDevice 4098 1048833
            {| dev_pNext :=
                 [ {| dev_sType := 48; dev_function := 0;
                      dev_pLayerInfo := [] |} ] |}].
Proof.
  pose proof (upstream_failure_propagated (demo_env (-7) true)
                demo_tracking_layer [] 0) as [Hinstance Hdevice].
  split.
  - apply (Hinstance demo_instance_create_info 0 demo_instance_table 1%nat
             {| sType := 47; function := 0;
                pLayerInfo :=
                  [ {| pfnNextGetInstanceProcAddr := 4096;
                       pfnNextGetPhysicalDeviceProcAddr := 4104 |};
                    {| pfnNextGetInstanceProcAddr := 8192;
                       pfnNextGetPhysicalDeviceProcAddr := 8200 |} ] |}
             {| pfnNextGetInstanceProcAddr := 4096;
                pfnNextGetPhysicalDeviceProcAddr := 4104 |}
             [ {| pfnNextGetInstanceProcAddr := 8192;
                  pfnNextGetPhysicalDeviceProcAddr := 8200 |} ]
             (-7) 0).
    + reflexivity.
    + reflexivity.
    + simpl. lia.
    + simpl. lia.
    + reflexivity.
    + unfold VK_SUCCESS. lia.
  - apply (Hdevice 1048833 demo_device_create_info 0 demo_device_table O
             {| dev_sType := 48; dev_function := 0;
                dev_pLayerInfo :=
                  [ {| dev_pfnNextGetInstanceProcAddr := 4096;
                       dev_pfnNextGetDeviceProcAddr := 4112 |} ] |}
             {| dev_pfnNextGetInstanceProcAddr := 4096;
                dev_pfnNextGetDeviceProcAddr := 4112 |}
             [] 1048832 (-7) 0).
    + reflexivity.
    + reflexivity.
    + reflexivity.
    + unfold VK_NULL_HANDLE. lia.
    + simpl. lia.
    + simpl. lia.
    + reflexivity.
    + unfold VK_SUCCESS. lia.
Defined.

(** C4: when the next layer's create call succeeds and the registration that
    follows ([AddInstance], [AddDevice]) returns false, [CreateInstance] and
    [CreateDevice] return [VK_ERROR_OUT_OF_HOST_MEMORY]; the output location
    holds the handle the next layer created.  The next layer is reached
    through function pointers that are not null. *)
Theorem registration_failure_reported (E : Env) (this : LayerData.t)
    (trace : list call) (allocator : Z) :
  (forall create_info instance get_dispatch_table position record link links
          instance' this' trace',
     FindInstanceCreateInfo create_info = Some (position, record) ->
     pLayerInfo record = link :: links ->
     let get_proc_addr := pfnNextGetInstanceProcAddr link in
     let create_function :=
       call_GetInstanceProcAddr E get_proc_addr VK_NULL_HANDLE
         "vkCreateInstance" in
     let forwarded := store_pLayerInfo create_info position record links in
     get_proc_addr <> 0 ->
     create_function <> 0 ->
     call_vkCreateInstance E create_function forwarded allocator instance
     = (VK_SUCCESS, instance') ->
     AddInstance E instance' (get_dispatch_table get_proc_addr) this
       (trace ++ [next_GetInstanceProcAddr get_proc_addr VK_NULL_HANDLE
                    "vkCreateInstance";
                  next_vkCreateInstance create_function forwarded])%list
     = Done false this' trace' ->
     CreateInstance E create_info allocator instance get_dispatch_table
       this trace
     = Done (VK_ERROR_OUT_OF_HOST_MEMORY, instance') this' trace')
  /\
  (forall physical_device create_info device get_dispatch_table position
          record link links instance device' this' trace',
     FindDeviceCreateInfo create_info = Some (position, record) ->
     dev_pLayerInfo record = link :: links ->
     instance_keys_map_ this
       !! InstanceKey_of_physical_device E physical_device = Some instance ->
     instance <> VK_NULL_HANDLE ->
     let get_instance_proc_addr := dev_pfnNextGetInstanceProcAddr link in
     let get_device_proc_addr := dev_pfnNextGetDeviceProcAddr link in
     let create_function :=
       call_GetInstanceProcAddr E get_instance_proc_addr instance
         "vkCreateDevice" in
     let forwarded := dev_store_pLayerInfo create_info position record links in
     get_instance_proc_addr <> 0 ->
     create_function <> 0 ->
     call_vkCreateDevice E create_function physical_device forwarded allocator
       device = (VK_SUCCESS, device') ->
     AddDevice E device' (get_dispatch_table get_device_proc_addr) this
       (trace ++ [next_GetInstanceProcAddr get_instance_proc_addr instance
                    "vkCreateDevice";
                  next_vkCreateDevice create_function physical_device
                    forwarded])%list
     = Done false this' trace' ->
     CreateDevice E physical_device create_info allocator device
       get_dispatch_table this trace
     = Done (VK_ERROR_OUT_OF_HOST_MEMORY, device') this' trace').
Proof.
  split.
  - intros create_info instance get_dispatch_table position record link links
      instance' this' trace' Hfind Hlinks get_proc_addr create_function
      forwarded Hresolver Hfunction Hanswer Hadd.
    rewrite (CreateInstance_forwarded E _ _ _ _ _ _ _ _ _ _ Hfind Hlinks
               Hresolver Hfunction).
    fold get_proc_addr create_function forwarded. rewrite Hanswer.
    cbn [fst snd].
    rewrite bool_decide_eq_false_2 by (intros Hne; now apply Hne).
    rewrite Hadd. reflexivity.
  - intros physical_device create_info device get_dispatch_table position
      record link links instance device' this' trace' Hfind Hlinks Hinstance
      Hnonnull get_instance_proc_addr get_device_proc_addr create_function
      forwarded Hresolver Hfunction Hanswer Hadd.
    rewrite (CreateDevice_forwarded E _ _ _ _ _ _ _ _ _ _ _ _ Hfind Hlinks
               Hinstance Hnonnull Hresolver Hfunction).
    fold get_instance_proc_addr get_device_proc_addr create_function forwarded.
    rewrite Hanswer. cbn [fst snd].
    rewrite bool_decide_eq_false_2 by (intros Hne; now apply Hne).
    rewrite Hadd. reflexivity.
Qed.

Lemma registration_failure_reported_witness :
  CreateInstance (demo_env VK_SUCCESS false) demo_instance_create_info 0 0
    demo_instance_table demo_layer []
  = Done (VK_ERROR_OUT_OF_HOST_MEMORY, 1048832) demo_layer
      [next_GetInstanceProcAddr 4096 0 "vkCreateInstance";
       next_vkCreateInstance 4097
         (store_pLayerInfo demo_instance_create_info 1
            {| sType := 47; function := 0; pLayerInfo := [] |}
            [ {| pfnNextGetInstanceProcAddr := 8192;
                 pfnNextGetPhysicalDeviceProcAddr := 8200 |} ])]
  /\ CreateDevice (demo_env VK_SUCCESS false) 1048833 demo_device_create_info
       0 0 demo_device_table demo_tracking_layer []
     = Done (VK_ERROR_OUT_OF_HOST_MEMORY, 1049104) demo_tracking_layer
         [next_GetInstanceProcAddr 4096 1048832 "vkCreateDevice";
          next_vkCreateDevice 4098 1048833
            (dev_store_pLayerInfo demo_device_create_info 0
               {| dev_sType := 48; dev_function := 0; dev_pLayerInfo := [] |}
               [])].
Proof.
  split.
  - apply (proj1 (registration_failure_reported (demo_env VK_SUCCESS false)
                    demo_layer [] 0)
             demo_instance_create_info 0 demo_instance_table 1%nat
             {| sType := 47; function := 0;
                pLayerInfo :=
                  [ {| pfnNextGetInstanceProcAddr := 4096;
                       pfnNextGetPhysicalDeviceProcAddr := 4104 |};
                    {| pfnNextGetInstanceProcAddr := 8192;
                       pfnNextGetPhysicalDeviceProcAddr := 8200 |} ] |}
             {| pfnNextGetInstanceProcAddr := 4096;
                pfnNextGetPhysicalDeviceProcAddr := 4104 |}
             [ {| pfnNextGetInstanceProcAddr := 8192;
                  pfnNextGetPhysicalDeviceProcAddr := 8200 |} ]
             1048832).
    + reflexivity.
    + reflexivity.
    + simpl. lia.
    + simpl. lia.
    + reflexivity.
    + reflexivity.
  - apply (proj2 (registration_failure_reported (demo_env VK_SUCCESS false)
                    demo_tracking_layer [] 0)
             1048833 demo_device_create_info 0 demo_device_table O
             {| dev_sType := 48; dev_function := 0;
                dev_pLayerInfo :=
                  [ {| dev_pfnNextGetInstanceProcAddr := 4096;
                       dev_pfnNextGetDeviceProcAddr := 4112 |} ] |}
             {| dev_pfnNextGetInstanceProcAddr := 4096;
                dev_pfnNextGetDeviceProcAddr := 4112 |}
             [] 1048832 1049104).
    + reflexivity.
    + reflexivity.
    + reflexivity.
    + unfold VK_NULL_HANDLE. lia.
    + simpl. lia.
    + simpl. lia.
    + reflexivity.
    + reflexivity.
Defined.

(** With the registration as the spec describes it, a failed registration
    leaves the registries as they were: the created object is untracked. *)
Lemma AddInstance_false_untracked E instance dispatch_table this trace
    this' trace' :
  AddInstance E instance dispatch_table this trace = Done false this' trace' ->
  can_register_instance E instance = false /\ this' = this /\ trace' = trace.
Proof.
  unfold AddInstance, bind, get, put, ret.
  destruct (can_register_instance E instance); intros Hrun.
  - discriminate Hrun.
  - injection Hrun as <- <-. auto.
Qed.

Lemma AddDevice_false_untracked E device dispatch_table this trace
    this' trace' :
  AddDevice E device dispatch_table this trace = Done false this' trace' ->
  can_register_device E device = false /\ this' = this /\ trace' = trace.
Proof.
  unfold AddDevice, bind, get, put, ret.
  destruct (can_register_device E device); intros Hrun.
  - discriminate Hrun.
  - injection Hrun as <- <-. auto.
Qed.

(** ** The instance registry *)

Lemma AddInstance_run E instance dispatch_table this trace :
  AddInstance E instance dispatch_table this trace
  = Done (can_register_instance E instance)
      (if can_register_instance E instance
       then set_instance_maps
              (<[InstanceKey_of_instance E instance := dispatch_table]>
                 (instance_dispatch_map_ this))
              (<[InstanceKey_of_instance E instance := instance]>
                 (instance_keys_map_ this)) this
       else this)
      trace.
Proof.
  unfold AddInstance, bind, get.
  destruct (can_register_instance E instance); reflexivity.
Qed.

Lemma RemoveInstance_run E instance this trace :
  RemoveInstance E instance this trace
  = Done tt
      (set_instance_maps
         (delete (InstanceKey_of_instance E instance)
            (instance_dispatch_map_ this))
         (delete (InstanceKey_of_instance E instance)
            (instance_keys_map_ this)) this)
      trace.
Proof. reflexivity. Qed.

Lemma keys_map_consistent_fresh E : keys_map_consistent E fresh.
Proof. intros key instance Hlookup. simpl in Hlookup. done. Qed.

(** A sequence of registry calls always runs to its end, makes no call
    outside the layer, and keeps the key map consistent. *)
Lemma run_calls_total E calls :
  forall this trace,
    keys_map_consistent E this ->
    exists this',
      run_calls E calls this trace = Done tt this' trace
      /\ keys_map_consistent E this'.
Proof.
  induction calls as [|c calls IH]; intros this trace Hconsistent.
  - exists this. split; [reflexivity | exact Hconsistent].
  - destruct c as [instance dispatch_table | instance]; cbn [run_calls];
      unfold bind.
    + rewrite AddInstance_run. apply IH.
      destruct (can_register_instance E instance); [|exact Hconsistent].
      intros key other. cbn [instance_keys_map_ set_instance_maps].
      rewrite lookup_insert. case_decide as Hkey.
      * intros [= <-]. congruence.
      * apply Hconsistent.
    + rewrite RemoveInstance_run. apply IH.
      intros key other. cbn [instance_keys_map_ set_instance_maps].
      rewrite lookup_delete. case_decide as Hkey; [done | apply Hconsistent].
Qed.

Lemma run_calls_app E before after this trace :
  run_calls E (before ++ after) this trace
  = (run_calls E before ;; run_calls E after)%method this trace.
Proof.
  revert this trace. induction before as [|c before IH]; intros this trace.
  - reflexivity.
  - destruct c as [instance dispatch_table | instance];
      cbn [run_calls app]; unfold bind in *.
    + destruct (AddInstance E instance dispatch_table this trace)
        as [added this' trace'|]; [apply IH | reflexivity].
    + destruct (RemoveInstance E instance this trace)
        as [u this' trace'|]; [apply IH | reflexivity].
Qed.

(** Calls that keep clear of an instance leave its key absent. *)
Lemma run_calls_keeps_absent E instance calls :
  Forall (keeps_clear_of E instance) calls ->
  forall this this' trace trace',
    run_calls E calls this trace = Done tt this' trace' ->
    instance_dispatch_map_ this !! InstanceKey_of_instance E instance = None ->
    instance_keys_map_ this !! InstanceKey_of_instance E instance = None ->
    instance_dispatch_map_ this' !! InstanceKey_of_instance E instance = None
    /\ instance_keys_map_ this' !! InstanceKey_of_instance E instance = None.
Proof.
  induction 1 as [|c calls Hclear _ IH];
    intros this this' trace trace' Hrun Hdispatch Hkeys.
  - injection Hrun as <- <-. auto.
  - destruct c as [other dispatch_table | other]; cbn [run_calls] in Hrun;
      unfold bind in Hrun.
    + rewrite AddInstance_run in Hrun. eapply IH; [exact Hrun | |];
        destruct (can_register_instance E other); try assumption;
        cbn [instance_dispatch_map_ instance_keys_map_ set_instance_maps];
        rewrite lookup_insert_ne by exact Hclear; assumption.
    + rewrite RemoveInstance_run in Hrun. eapply IH; [exact Hrun | |];
        cbn [instance_dispatch_map_ instance_keys_map_ set_instance_maps];
        rewrite lookup_delete; case_decide; done.
Qed.

Lemma GetInstance_absent key this (trace : list call) :
  instance_keys_map_ this !! key = None ->
  GetInstance key this trace = Abort.
Proof. intros Habsent. unfold GetInstance, bind, get. now rewrite Habsent. Qed.

(** C1: in every sequence of [AddInstance] and [RemoveInstance] calls on a
    new registry, once [RemoveInstance(instance)] has run and the calls after
    it register only other instances (instances with another key), the
    dispatch table of the instance is gone, no instance-key entry points at
    the instance, and [GetInstance] finds nothing under any key derived from
    it, whether from the instance itself or from a physical device that
    shares its key. *)
Theorem RemoveInstance_removes (E : Env) (before after : list registry_call)
    (instance : VkInstance) (trace : list call) :
  Forall (keeps_clear_of E instance) after ->
  exists this,
    run_calls E (before ++ call_RemoveInstance instance :: after) fresh trace
    = Done tt this trace
    /\ instance_dispatch_map_ this !! InstanceKey_of_instance E instance = None
    /\ instance_keys_map_ this !! InstanceKey_of_instance E instance = None
    /\ (forall key, instance_keys_map_ this !! key <> Some instance)
    /\ GetInstance (InstanceKey_of_instance E instance) this trace = Abort
    /\ (forall physical_device,
          InstanceKey_of_physical_device E physical_device
          = InstanceKey_of_instance E instance ->
          instance_keys_map_ this
            !! InstanceKey_of_physical_device E physical_device = None
          /\ GetInstance (InstanceKey_of_physical_device E physical_device)
               this trace = Abort).
Proof.
  intros Hclear.
  destruct (run_calls_total E before fresh trace (keys_map_consistent_fresh E))
    as (this1 & Hbefore & Hconsistent1).
  pose proof (RemoveInstance_run E instance this1 trace) as Hremove.
  set (this2 := set_instance_maps
                  (delete (InstanceKey_of_instance E instance)
                     (instance_dispatch_map_ this1))
                  (delete (InstanceKey_of_instance E instance)
                     (instance_keys_map_ this1)) this1) in Hremove.
  assert (Hconsistent2 : keys_map_consistent E this2).
  { intros key other. unfold this2.
    cbn [instance_keys_map_ set_instance_maps].
    rewrite lookup_delete. case_decide; [done | apply Hconsistent1]. }
  destruct (run_calls_total E after this2 trace Hconsistent2)
    as (this3 & Hafter & Hconsistent3).
  assert (Hrun :
    run_calls E (before ++ call_RemoveInstance instance :: after) fresh trace
    = Done tt this3 trace).
  { rewrite run_calls_app. unfold bind at 1. rewrite Hbefore.
    cbn [run_calls]. unfold bind. rewrite Hremove. exact Hafter. }
  destruct (run_calls_keeps_absent E instance after Hclear _ _ _ _ Hafter)
    as [Hdispatch Hkeys].
  { unfold this2. cbn [instance_dispatch_map_ set_instance_maps].
    apply lookup_delete_eq. }
  { unfold this2. cbn [instance_keys_map_ set_instance_maps].
    apply lookup_delete_eq. }
  exists this3.
  split; [exact Hrun|]. split; [exact Hdispatch|]. split; [exact Hkeys|].
  split; [|split].
  - intros key Hpoints. pose proof (Hconsistent3 _ _ Hpoints) as ->.
    rewrite Hkeys in Hpoints. discriminate.
  - apply GetInstance_absent, Hkeys.
  - intros physical_device Hshared. rewrite Hshared.
    split; [exact Hkeys | apply GetInstance_absent, Hkeys].
Qed.

Lemma RemoveInstance_removes_witness :
  Forall (keeps_clear_of (demo_env VK_SUCCESS true) 256)
    [call_AddInstance 768 (demo_instance_table 3); call_RemoveInstance 512]
  /\ exists this,
       run_calls (demo_env VK_SUCCESS true)
         ([call_AddInstance 256 (demo_instance_table 1);
           call_AddInstance 512 (demo_instance_table 2)]
          ++ call_RemoveInstance 256
          :: [call_AddInstance 768 (demo_instance_table 3);
              call_RemoveInstance 512])
         fresh []
       = Done tt this []
       /\ instance_dispatch_map_ this !! 1 = None
       /\ GetInstance
            (InstanceKey_of_physical_device (demo_env VK_SUCCESS true) 257)
            this [] = Abort.
Proof.
  assert (Hclear :
    Forall (keeps_clear_of (demo_env VK_SUCCESS true) 256)
      [call_AddInstance 768 (demo_instance_table 3); call_RemoveInstance 512]).
  { repeat constructor. vm_compute. intros Hkey. discriminate Hkey. }
  split; [exact Hclear|].
  destruct (RemoveInstance_removes (demo_env VK_SUCCESS true)
              [call_AddInstance 256 (demo_instance_table 1);
               call_AddInstance 512 (demo_instance_table 2)]
              [call_AddInstance 768 (demo_instance_table 3);
               call_RemoveInstance 512]
              256 [] Hclear)
    as (this & Hrun & Hdispatch & _ & _ & _ & Hphysical).
  exists this. split; [exact Hrun|]. split; [exact Hdispatch|].
  exact (proj2 (Hphysical 257 eq_refl)).
Defined.

(** ** Shader modules *)

Lemma Now_traced_run E this (trace : list call) :
  Now_traced E this trace
  = Done (DurationClock_now E (clock_reads this))
      (set_clock_reads (S (clock_reads this)) this)
      (trace ++ [c_clock_now (DurationClock_now E (clock_reads this))]).
Proof. reflexivity. Qed.

(** C10: for a device whose dispatch table is registered with a
    [CreateShaderModule] member that is not null, [CreateShaderModule] reads
    the clock, forwards the call, reads the clock again, in this order, then
    hashes the supplied code and records the hash under the handle found in
    the output location, whatever status the next layer returned; the result
    carries that status, that hash, the reading taken before the forwarded
    call as start and the reading taken after it as end. *)
Theorem CreateShaderModule_hashes_unconditionally (E : Env)
    (device : VkDevice) (create_info : VkShaderModuleCreateInfo)
    (allocator : Z) (shader_module : VkShaderModule) (this : LayerData.t)
    (trace : list call) (dispatch_table : VkLayerDispatchTable) :
  device_dispatch_map_ this !! DeviceKey E device = Some dispatch_table ->
  let next_proc := CreateShaderModule_member dispatch_table in
  next_proc <> 0 ->
  let answer :=
    call_vkCreateShaderModule E next_proc device create_info allocator
      shader_module in
  let hash := shader_digest E (pCode create_info) (codeSize create_info) in
  let start := DurationClock_now E (clock_reads this) in
  let end_ := DurationClock_now E (S (clock_reads this)) in
  let this' :=
    set_shader_hash_map_ (<[answer.2 := hash]> (shader_hash_map_ this))
      (set_clock_reads (S (S (clock_reads this))) this) in
  CreateShaderModule E device create_info allocator shader_module this trace
  = Done ({| result := answer.1;
             shader_hash := hash;
             create_start := start;
             create_end := end_ |},
          answer.2)
      this'
      (trace ++ [c_clock_now start;
                 next_vkCreateShaderModule next_proc device create_info;
                 c_clock_now end_])%list
  /\ shader_hash_map_ this' !! answer.2 = Some hash.
Proof.
  intros Hregistered next_proc Hmember answer hash start end_ this'.
  split.
  - unfold CreateShaderModule.
    unfold bind at 1, GetNextDeviceProcAddr at 1, bind at 1, get at 1.
    rewrite Hregistered. unfold ret at 1. fold next_proc.
    rewrite (bind_Done _ _ _ _ _ _ _ (Now_traced_run E _ _)).
    rewrite (bind_Done _ _ _ _ _ _ _
               (invoke_vkCreateShaderModule_run E _ _ _ _ _ _ _ Hmember)).
    fold answer. destruct answer as [status created] eqn:Hanswer.
    rewrite (bind_Done _ _ _ _ _ _ _ (Now_traced_run E _ _)).
    cbn [clock_reads set_clock_reads]. fold start end_.
    unfold bind, HashShader, bind, get, put, ret.
    rewrite <- !app_assoc. reflexivity.
  - unfold this'. cbn [shader_hash_map_ set_shader_hash_map_].
    apply lookup_insert_eq.
Qed.

Lemma CreateShaderModule_hashes_unconditionally_witness :
  device_dispatch_map_ demo_tracking_layer !! DeviceKey (demo_env (-7) true) 77
  = Some (demo_device_table 4112)
  /\ CreateShaderModule_member (demo_device_table 4112) <> 0
  /\ exists this',
       CreateShaderModule (demo_env (-7) true) 77
         {| pCode := [119734787; 66816; 11]; codeSize := 12 |} 0 5
         demo_tracking_layer []
       = Done ({| result := -7; shader_hash := 119801626;
                  create_start := 1000; create_end := 1025 |}, 5)
           this'
           [c_clock_now 1000;
            next_vkCreateShaderModule 4120 77
              {| pCode := [119734787; 66816; 11]; codeSize := 12 |};
            c_clock_now 1025]
       /\ shader_hash_map_ this' !! 5 = Some 119801626.
Proof.
  assert (Hmember : CreateShaderModule_member (demo_device_table 4112) <> 0)
    by (simpl; lia).
  split; [reflexivity|]. split; [exact Hmember|].
  eexists.
  exact (CreateShaderModule_hashes_unconditionally (demo_env (-7) true) 77
           {| pCode := [119734787; 66816; 11]; codeSize := 12 |} 0 5
           demo_tracking_layer [] (demo_device_table 4112) eq_refl Hmember).
Defined.

(** * Further properties of the code *)

Local Open Scope list_scope.

(** ** The search of the creation-parameter chain *)

Lemma FindInstanceCreateInfo_loop_skip prefix rest position :
  Forall (fun record => ~ is_instance_linkage record) prefix ->
  FindInstanceCreateInfo_loop (prefix ++ rest) position
  = FindInstanceCreateInfo_loop rest (position + length prefix).
Proof.
  intros Hprefix. revert position.
  induction Hprefix as [|record prefix Hrecord _ IH]; intros position.
  - simpl. f_equal. lia.
  - cbn [app FindInstanceCreateInfo_loop length].
    replace (position + S (length prefix))%nat
      with (S position + length prefix)%nat by lia.
    rewrite <- IH.
    repeat case_bool_decide; try reflexivity.
    exfalso. apply Hrecord. split.
    + destruct (decide (sType record
                        = VK_STRUCTURE_TYPE_LOADER_INSTANCE_CREATE_INFO));
        [assumption | contradiction].
    + destruct (decide (function record = VK_LAYER_LINK_INFO));
        [assumption | contradiction].
Qed.

Lemma FindInstanceCreateInfo_loop_hit record rest position :
  is_instance_linkage record ->
  FindInstanceCreateInfo_loop (record :: rest) position
  = Some (position, record).
Proof.
  intros [Htag Hfunction]. cbn [FindInstanceCreateInfo_loop].
  rewrite !bool_decide_eq_false_2 by (intros Hne; now apply Hne).
  reflexivity.
Qed.

Lemma FindInstanceCreateInfo_loop_spec chain position :
  match FindInstanceCreateInfo_loop chain position with
  | Some (found, record) =>
      exists prefix rest,
        chain = prefix ++ record :: rest
        /\ found = (position + length prefix)%nat
        /\ is_instance_linkage record
        /\ Forall (fun earlier => ~ is_instance_linkage earlier) prefix
  | None => Forall (fun record => ~ is_instance_linkage record) chain
  end.
Proof.
  revert position. induction chain as [|record chain IH]; intros position.
  - constructor.
  - cbn [FindInstanceCreateInfo_loop].
    destruct (bool_decide (sType record
                           <> VK_STRUCTURE_TYPE_LOADER_INSTANCE_CREATE_INFO))
      eqn:Htag;
      [|destruct (bool_decide (function record <> VK_LAYER_LINK_INFO))
          eqn:Hfunction]; cbn [orb].
    + apply bool_decide_eq_true_1 in Htag.
      specialize (IH (S position)).
      destruct (FindInstanceCreateInfo_loop chain (S position))
        as [[found hit]|].
      * destruct IH as (prefix & rest & -> & -> & Hhit & Hprefix).
        exists (record :: prefix), rest. cbn [app length].
        repeat split; [lia | apply Hhit | apply Hhit |].
        constructor; [|exact Hprefix]. intros [Heq _]. contradiction.
      * constructor; [|exact IH]. intros [Heq _]. contradiction.
    + apply bool_decide_eq_true_1 in Hfunction.
      specialize (IH (S position)).
      destruct (FindInstanceCreateInfo_loop chain (S position))
        as [[found hit]|].
      * destruct IH as (prefix & rest & -> & -> & Hhit & Hprefix).
        exists (record :: prefix), rest. cbn [app length].
        repeat split; [lia | apply Hhit | apply Hhit |].
        constructor; [|exact Hprefix]. intros [_ Heq]. contradiction.
      * constructor; [|exact IH]. intros [_ Heq]. contradiction.
    + apply bool_decide_eq_false_1 in Htag, Hfunction.
      exists [], chain. cbn [app length].
      repeat split; [lia | | | constructor].
      * destruct (decide (sType record
                          = VK_STRUCTURE_TYPE_LOADER_INSTANCE_CREATE_INFO));
          [assumption | contradiction].
      * destruct (decide (function record = VK_LAYER_LINK_INFO));
          [assumption | contradiction].
Qed.

(** X1: [FindInstanceCreateInfo] returns the FIRST linkage record of the
    chain: the record returned sits at the position returned, carries the
    loader's tag and the link sub-tag, and no record before it does; it
    returns [nullptr] only when no record of the chain does. *)
Theorem FindInstanceCreateInfo_first_match (create_info : VkInstanceCreateInfo) :
  match FindInstanceCreateInfo create_info with
  | Some (position, record) =>
      pNext create_info !! position = Some record
      /\ is_instance_linkage record
      /\ (forall earlier_position earlier,
            (earlier_position < position)%nat ->
            pNext create_info !! earlier_position = Some earlier ->
            ~ is_instance_linkage earlier)
  | None => no_instance_linkage create_info
  end.
Proof.
  unfold FindInstanceCreateInfo, no_instance_linkage.
  pose proof (FindInstanceCreateInfo_loop_spec (pNext create_info) O) as Hspec.
  destruct (FindInstanceCreateInfo_loop (pNext create_info) O)
    as [[position record]|]; [|exact Hspec].
  destruct Hspec as (prefix & rest & Hchain & -> & Hhit & Hprefix).
  rewrite Hchain. cbn [Nat.add]. split; [|split; [exact Hhit|]].
  - rewrite lookup_app_r by lia. now rewrite Nat.sub_diag.
  - intros earlier_position earlier Hbefore Hlookup.
    rewrite lookup_app_l in Hlookup by exact Hbefore.
    rewrite Forall_forall in Hprefix. apply Hprefix.
    eapply list_elem_of_lookup_2. exact Hlookup.
Qed.

Lemma FindInstanceCreateInfo_split create_info position record :
  FindInstanceCreateInfo create_info = Some (position, record) ->
  exists prefix rest,
    pNext create_info = prefix ++ record :: rest
    /\ position = length prefix
    /\ is_instance_linkage record
    /\ Forall (fun earlier => ~ is_instance_linkage earlier) prefix.
Proof.
  unfold FindInstanceCreateInfo. intros Hfind.
  pose proof (FindInstanceCreateInfo_loop_spec (pNext create_info) O) as Hspec.
  rewrite Hfind in Hspec.
  destruct Hspec as (prefix & rest & Hchain & -> & Hhit & Hprefix).
  exists prefix, rest. auto.
Qed.

(** X2: the creation parameters that [CreateInstance] hands to the next
    layer differ from the ones it received only in the linkage record, whose
    layer list is replaced; a layer that searches them the same way finds the
    linkage record at the same position, holding the new layer list. *)
Theorem forwarded_chain_keeps_linkage (create_info : VkInstanceCreateInfo)
    (position : nat) (record : VkLayerInstanceCreateInfo)
    (links : list VkLayerInstanceLink) :
  FindInstanceCreateInfo create_info = Some (position, record) ->
  let forwarded := store_pLayerInfo create_info position record links in
  FindInstanceCreateInfo forwarded
  = Some (position, {| sType := sType record;
                       function := function record;
                       pLayerInfo := links |})
  /\ length (pNext forwarded) = length (pNext create_info)
  /\ (forall other, other <> position ->
        pNext forwarded !! other = pNext create_info !! other).
Proof.
  intros Hfind forwarded.
  destruct (FindInstanceCreateInfo_split _ _ _ Hfind)
    as (prefix & rest & Hchain & -> & Hhit & Hprefix).
  unfold forwarded, store_pLayerInfo, FindInstanceCreateInfo.
  cbn [pNext]. split; [|split].
  - rewrite Hchain, insert_app_r_alt by lia.
    rewrite Nat.sub_diag. cbn [insert list_insert].
    rewrite FindInstanceCreateInfo_loop_skip by exact Hprefix.
    apply FindInstanceCreateInfo_loop_hit. exact Hhit.
  - apply length_insert.
  - intros other Hother. apply list_lookup_insert_ne. congruence.
Qed.

Lemma forwarded_chain_keeps_linkage_witness :
  FindInstanceCreateInfo demo_instance_create_info
  = Some (1%nat,
          {| sType := 47; function := 0;
             pLayerInfo :=
               [ {| pfnNextGetInstanceProcAddr := 4096;
                    pfnNextGetPhysicalDeviceProcAddr := 4104 |};
                 {| pfnNextGetInstanceProcAddr := 8192;
                    pfnNextGetPhysicalDeviceProcAddr := 8200 |} ] |})
  /\ FindInstanceCreateInfo
       (store_pLayerInfo demo_instance_create_info 1
          {| sType := 47; function := 0; pLayerInfo := [] |}
          [ {| pfnNextGetInstanceProcAddr := 8192;
               pfnNextGetPhysicalDeviceProcAddr := 8200 |} ])
     = Some (1%nat,
             {| sType := 47; function := 0;
                pLayerInfo :=
                  [ {| pfnNextGetInstanceProcAddr := 8192;
                       pfnNextGetPhysicalDeviceProcAddr := 8200 |} ] |}).
Proof.
  split; [reflexivity|].
  exact (proj1 (forwarded_chain_keeps_linkage demo_instance_create_info 1
                  {| sType := 47; function := 0;
                     pLayerInfo :=
                       [ {| pfnNextGetInstanceProcAddr := 4096;
                            pfnNextGetPhysicalDeviceProcAddr := 4104 |};
                         {| pfnNextGetInstanceProcAddr := 8192;
                            pfnNextGetPhysicalDeviceProcAddr := 8200 |} ] |}
                  [ {| pfnNextGetInstanceProcAddr := 8192;
                       pfnNextGetPhysicalDeviceProcAddr := 8200 |} ]
                  eq_refl)).
Defined.

Lemma FindDeviceCreateInfo_loop_skip prefix rest position :
  Forall (fun record => ~ is_device_linkage record) prefix ->
  FindDeviceCreateInfo_loop (prefix ++ rest) position
  = FindDeviceCreateInfo_loop rest (position + length prefix).
Proof.
  intros Hprefix. revert position.
  induction Hprefix as [|record prefix Hrecord _ IH]; intros position.
  - simpl. f_equal. lia.
  - cbn [app FindDeviceCreateInfo_loop length].
    replace (position + S (length prefix))%nat
      with (S position + length prefix)%nat by lia.
    rewrite <- IH.
    repeat case_bool_decide; try reflexivity.
    exfalso. apply Hrecord. split.
    + destruct (decide (dev_sType record
                        = VK_STRUCTURE_TYPE_LOADER_DEVICE_CREATE_INFO));
        [assumption | contradiction].
    + destruct (decide (dev_function record = VK_LAYER_LINK_INFO));
        [assumption | contradiction].
Qed.

Lemma FindDeviceCreateInfo_loop_hit record rest position :
  is_device_linkage record ->
  FindDeviceCreateInfo_loop (record :: rest) position
  = Some (position, record).
Proof.
  intros [Htag Hfunction]. cbn [FindDeviceCreateInfo_loop].
  rewrite !bool_decide_eq_false_2 by (intros Hne; now apply Hne).
  reflexivity.
Qed.

Lemma FindDeviceCreateInfo_loop_spec chain position :
  match FindDeviceCreateInfo_loop chain position with
  | Some (found, record) =>
      exists prefix rest,
        chain = prefix ++ record :: rest
        /\ found = (position + length prefix)%nat
        /\ is_device_linkage record
        /\ Forall (fun earlier => ~ is_device_linkage earlier) prefix
  | None => Forall (fun record => ~ is_device_linkage record) chain
  end.
Proof.
  revert position. induction chain as [|record chain IH]; intros position.
  - constructor.
  - cbn [FindDeviceCreateInfo_loop].
    destruct (bool_decide (dev_sType record
                           <> VK_STRUCTURE_TYPE_LOADER_DEVICE_CREATE_INFO))
      eqn:Htag;
      [|destruct (bool_decide (dev_function record <> VK_LAYER_LINK_INFO))
          eqn:Hfunction]; cbn [orb].
    + apply bool_decide_eq_true_1 in Htag.
      specialize (IH (S position)).
      destruct (FindDeviceCreateInfo_loop chain (S position))
        as [[found hit]|].
      * destruct IH as (prefix & rest & -> & -> & Hhit & Hprefix).
        exists (record :: prefix), rest. cbn [app length].
        repeat split; [lia | apply Hhit | apply Hhit |].
        constructor; [|exact Hprefix]. intros [Heq _]. contradiction.
      * constructor; [|exact IH]. intros [Heq _]. contradiction.
    + apply bool_decide_eq_true_1 in Hfunction.
      specialize (IH (S position)).
      destruct (FindDeviceCreateInfo_loop chain (S position))
        as [[found hit]|].
      * destruct IH as (prefix & rest & -> & -> & Hhit & Hprefix).
        exists (record :: prefix), rest. cbn [app length].
        repeat split; [lia | apply Hhit | apply Hhit |].
        constructor; [|exact Hprefix]. intros [_ Heq]. contradiction.
      * constructor; [|exact IH]. intros [_ Heq]. contradiction.
    + apply bool_decide_eq_false_1 in Htag, Hfunction.
      exists [], chain. cbn [app length].
      repeat split; [lia | | | constructor].
      * destruct (decide (dev_sType record
                          = VK_STRUCTURE_TYPE_LOADER_DEVICE_CREATE_INFO));
          [assumption | contradiction].
      * destruct (decide (dev_function record = VK_LAYER_LINK_INFO));
          [assumption | contradiction].
Qed.

(** X3: [FindDeviceCreateInfo] returns the FIRST record of the chain that
    carries the loader's device tag and the link sub-tag: it sits at the
    position returned and no record before it is one; the result is
    [nullptr] only when no record of the chain is one. *)
Theorem FindDeviceCreateInfo_first_match (create_info : VkDeviceCreateInfo) :
  match FindDeviceCreateInfo create_info with
  | Some (position, record) =>
      dev_pNext create_info !! position = Some record
      /\ is_device_linkage record
      /\ (forall earlier_position earlier,
            (earlier_position < position)%nat ->
            dev_pNext create_info !! earlier_position = Some earlier ->
            ~ is_device_linkage earlier)
  | None => no_device_linkage create_info
  end.
Proof.
  unfold FindDeviceCreateInfo, no_device_linkage.
  pose proof (FindDeviceCreateInfo_loop_spec (dev_pNext create_info) O) as Hspec.
  destruct (FindDeviceCreateInfo_loop (dev_pNext create_info) O)
    as [[position record]|]; [|exact Hspec].
  destruct Hspec as (prefix & rest & Hchain & -> & Hhit & Hprefix).
  rewrite Hchain. cbn [Nat.add]. split; [|split; [exact Hhit|]].
  - rewrite lookup_app_r by lia. now rewrite Nat.sub_diag.
  - intros earlier_position earlier Hbefore Hlookup.
    rewrite lookup_app_l in Hlookup by exact Hbefore.
    rewrite Forall_forall in Hprefix. apply Hprefix.
    eapply list_elem_of_lookup_2. exact Hlookup.
Qed.

Lemma FindDeviceCreateInfo_split create_info position record :
  FindDeviceCreateInfo create_info = Some (position, record) ->
  exists prefix rest,
    dev_pNext create_info = prefix ++ record :: rest
    /\ position = length prefix
    /\ is_device_linkage record
    /\ Forall (fun earlier => ~ is_device_linkage earlier) prefix.
Proof.
  unfold FindDeviceCreateInfo. intros Hfind.
  pose proof (FindDeviceCreateInfo_loop_spec (dev_pNext create_info) O) as Hspec.
  rewrite Hfind in Hspec.
  destruct Hspec as (prefix & rest & Hchain & -> & Hhit & Hprefix).
  exists prefix, rest. auto.
Qed.

(** X4: the creation parameters that [CreateDevice] hands to the next layer
    differ from the ones it received only in the linkage record, whose layer
    list is replaced; a layer that searches them the same way finds the
    linkage record at the same position, holding the new layer list. *)
Theorem forwarded_device_chain_keeps_linkage (create_info : VkDeviceCreateInfo)
    (position : nat) (record : VkLayerDeviceCreateInfo)
    (links : list VkLayerDeviceLink) :
  FindDeviceCreateInfo create_info = Some (position, record) ->
  let forwarded := dev_store_pLayerInfo create_info position record links in
  FindDeviceCreateInfo forwarded
  = Some (position, {| dev_sType := dev_sType record;
                       dev_function := dev_function record;
                       dev_pLayerInfo := links |})
  /\ length (dev_pNext forwarded) = length (dev_pNext create_info)
  /\ (forall other, other <> position ->
        dev_pNext forwarded !! other = dev_pNext create_info !! other).
Proof.
  intros Hfind forwarded.
  destruct (FindDeviceCreateInfo_split _ _ _ Hfind)
    as (prefix & rest & Hchain & -> & Hhit & Hprefix).
  unfold forwarded, dev_store_pLayerInfo, FindDeviceCreateInfo.
  cbn [dev_pNext]. split; [|split].
  - rewrite Hchain, insert_app_r_alt by lia.
    rewrite Nat.sub_diag. cbn [insert list_insert].
    rewrite FindDeviceCreateInfo_loop_skip by exact Hprefix.
    apply FindDeviceCreateInfo_loop_hit. exact Hhit.
  - apply length_insert.
  - intros other Hother. apply list_lookup_insert_ne. congruence.
Qed.

Lemma forwarded_device_chain_keeps_linkage_witness :
  FindDeviceCreateInfo demo_device_create_info
  = Some (O, {| dev_sType := 48; dev_function := 0;
                dev_pLayerInfo :=
                  [ {| dev_pfnNextGetInstanceProcAddr := 4096;
                       dev_pfnNextGetDeviceProcAddr := 4112 |} ] |})
  /\ FindDeviceCreateInfo
       (dev_store_pLayerInfo demo_device_create_info 0
          {| dev_sType := 48; dev_function := 0; dev_pLayerInfo := [] |} [])
     = Some (O, {| dev_sType := 48; dev_function := 0;
                   dev_pLayerInfo := [] |}).
Proof.
  split; [reflexivity|].
  exact (proj1 (forwarded_device_chain_keeps_linkage demo_device_create_info 0
                  {| dev_sType := 48; dev_function := 0;
                     dev_pLayerInfo :=
                       [ {| dev_pfnNextGetInstanceProcAddr := 4096;
                            dev_pfnNextGetDeviceProcAddr := 4112 |} ] |}
                  [] eq_refl)).
Defined.

(** ** Creation of devices and instances: the other outcomes *)

(** X5: a [CreateDevice] whose creation parameters hold no loader-linkage
    record returns [VK_ERROR_INITIALIZATION_FAILED] and leaves the output
    location, the fields of the layer and the trace of calls as they were: it
    does not resolve the instance and does not call the next layer. *)
Theorem CreateDevice_without_linkage (E : Env)
    (physical_device : VkPhysicalDevice) (create_info : VkDeviceCreateInfo)
    (allocator : Z) (device : VkDevice)
    (get_dispatch_table : PFN -> VkLayerDispatchTable)
    (this : LayerData.t) (trace : list call) :
  no_device_linkage create_info ->
  CreateDevice E physical_device create_info allocator device
    get_dispatch_table this trace
  = Done (VK_ERROR_INITIALIZATION_FAILED, device) this trace.
Proof.
  intros Habsent. unfold CreateDevice.
  destruct (FindDeviceCreateInfo create_info) as [[position record]|]
    eqn:Hfind; [|reflexivity].
  destruct (FindDeviceCreateInfo_split _ _ _ Hfind)
    as (prefix & rest & Hchain & _ & Hhit & _). exfalso.
  unfold no_device_linkage in Habsent. rewrite Hchain in Habsent.
  apply Forall_app in Habsent as [_ Habsent].
  inversion Habsent as [|? ? Hrecord _]; subst. exact (Hrecord Hhit).
Qed.

Lemma CreateDevice_without_linkage_witness :
  no_device_linkage {| dev_pNext := [ {| dev_sType := 48; dev_function := 1;
                                         dev_pLayerInfo := [] |} ] |}
  /\ CreateDevice (demo_env VK_SUCCESS true) 1048833
       {| dev_pNext := [ {| dev_sType := 48; dev_function := 1;
                            dev_pLayerInfo := [] |} ] |}
       0 9 demo_device_table demo_tracking_layer []
     = Done (-3, 9) demo_tracking_layer [].
Proof.
  assert (Habsent :
    no_device_linkage {| dev_pNext := [ {| dev_sType := 48; dev_function := 1;
                                           dev_pLayerInfo := [] |} ] |}).
  { unfold no_device_linkage. simpl. repeat constructor.
    intros [_ Hfunction]. discriminate Hfunction. }
  split; [exact Habsent|].
  exact (CreateDevice_without_linkage (demo_env VK_SUCCESS true) 1048833 _ 0 9
           demo_device_table demo_tracking_layer [] Habsent).
Defined.

(** A call through a null function pointer stops [CreateInstance]. *)
Lemma CreateInstance_null_pointer E create_info allocator instance
    get_dispatch_table this (trace : list call) position record link links :
  FindInstanceCreateInfo create_info = Some (position, record) ->
  pLayerInfo record = link :: links ->
  pfnNextGetInstanceProcAddr link = 0
  \/ call_GetInstanceProcAddr E (pfnNextGetInstanceProcAddr link)
       VK_NULL_HANDLE "vkCreateInstance" = 0 ->
  CreateInstance E create_info allocator instance get_dispatch_table this trace
  = Abort.
Proof.
  intros Hfind Hlinks Hnull. unfold CreateInstance.
  rewrite Hfind, Hlinks. cbv zeta.
  destruct (decide (pfnNextGetInstanceProcAddr link = 0))
    as [Hresolver|Hresolver].
  - unfold bind at 1, invoke_GetInstanceProcAddr at 1.
    rewrite bool_decide_eq_true_2 by exact Hresolver. reflexivity.
  - destruct Hnull as [Hnull|Hnull]; [contradiction|].
    rewrite (bind_Done _ _ _ _ _ _ _
               (invoke_GetInstanceProcAddr_run E _ _ _ _ _ Hresolver)).
    unfold bind at 1, invoke_vkCreateInstance at 1.
    rewrite bool_decide_eq_true_2 by exact Hnull. reflexivity.
Qed.

(** X6: [CreateInstance] reports [VK_SUCCESS] only after the next layer's
    [vkCreateInstance], reached through the first link of the linkage
    record, answered [VK_SUCCESS] and [AddInstance] returned true for the
    handle it created, with the dispatch table built from that link's
    resolver; the instance key of the handle then resolves to the handle and
    to that table. *)
Theorem CreateInstance_success_registers (E : Env)
    (create_info : VkInstanceCreateInfo) (allocator : Z)
    (instance : VkInstance)
    (get_dispatch_table : PFN -> VkLayerInstanceDispatchTable)
    (this : LayerData.t) (trace : list call)
    (created : VkInstance) (this' : LayerData.t) (trace' : list call) :
  CreateInstance E create_info allocator instance get_dispatch_table this trace
  = Done (VK_SUCCESS, created) this' trace' ->
  exists position record link links,
    FindInstanceCreateInfo create_info = Some (position, record)
    /\ pLayerInfo record = link :: links
    /\ call_vkCreateInstance E
         (call_GetInstanceProcAddr E (pfnNextGetInstanceProcAddr link)
            VK_NULL_HANDLE "vkCreateInstance")
         (store_pLayerInfo create_info position record links)
         allocator instance
       = (VK_SUCCESS, created)
    /\ AddInstance E created
         (get_dispatch_table (pfnNextGetInstanceProcAddr link)) this
         (trace ++
          [next_GetInstanceProcAddr (pfnNextGetInstanceProcAddr link)
             VK_NULL_HANDLE "vkCreateInstance";
           next_vkCreateInstance
             (call_GetInstanceProcAddr E (pfnNextGetInstanceProcAddr link)
                VK_NULL_HANDLE "vkCreateInstance")
             (store_pLayerInfo create_info position record links)])
       = Done true this' trace'
    /\ instance_keys_map_ this' !! InstanceKey_of_instance E created
       = Some created
    /\ instance_dispatch_map_ this' !! InstanceKey_of_instance E created
       = Some (get_dispatch_table (pfnNextGetInstanceProcAddr link)).
Proof.
  intros Hrun.
  destruct (FindInstanceCreateInfo create_info) as [[position record]|]
    eqn:Hfind.
  2:{ unfold CreateInstance in Hrun. rewrite Hfind in Hrun.
      discriminate Hrun. }
  destruct (pLayerInfo record) as [|link links] eqn:Hlinks.
  { unfold CreateInstance in Hrun. rewrite Hfind, Hlinks in Hrun.
    discriminate Hrun. }
  destruct (decide (pfnNextGetInstanceProcAddr link = 0))
    as [Hnull|Hresolver].
  { rewrite (CreateInstance_null_pointer E _ _ _ _ _ _ _ _ _ _ Hfind Hlinks)
      in Hrun by (left; exact Hnull).
    discriminate Hrun. }
  destruct (decide (call_GetInstanceProcAddr E
                      (pfnNextGetInstanceProcAddr link) VK_NULL_HANDLE
                      "vkCreateInstance" = 0)) as [Hnull|Hfunction].
  { rewrite (CreateInstance_null_pointer E _ _ _ _ _ _ _ _ _ _ Hfind Hlinks)
      in Hrun by (right; exact Hnull).
    discriminate Hrun. }
  rewrite (CreateInstance_forwarded E _ _ _ _ _ _ _ _ _ _ Hfind Hlinks
             Hresolver Hfunction) in Hrun.
  destruct (call_vkCreateInstance E _ _ allocator instance)
    as [res answer] eqn:Hanswer.
  cbn [fst snd] in Hrun.
  case_bool_decide as Hres.
  { injection Hrun as Hcode _ _ _. congruence. }
  assert (res = VK_SUCCESS) as -> by (destruct (decide (res = VK_SUCCESS)); tauto).
  destruct (AddInstance E answer _ this _) as [added this1 trace1|] eqn:Hadd;
    [|discriminate Hrun].
  destruct added; cbn [negb] in Hrun; [|discriminate Hrun].
  injection Hrun as -> -> ->.
  pose proof Hadd as Hstored. rewrite AddInstance_run in Hstored.
  destruct (can_register_instance E created); [|discriminate Hstored].
  injection Hstored as Hthis _.
  exists position, record, link, links.
  do 4 (split; [first [reflexivity | eassumption]|]).
  rewrite <- Hthis.
  cbn [instance_keys_map_ instance_dispatch_map_ set_instance_maps].
  split; apply lookup_insert_eq.
Qed.

Lemma CreateInstance_success_registers_witness :
  exists this',
    CreateInstance (demo_env VK_SUCCESS true) demo_instance_create_info 0 0
      demo_instance_table demo_layer []
    = Done (VK_SUCCESS, 1048832) this'
        [next_GetInstanceProcAddr 4096 0 "vkCreateInstance";
         next_vkCreateInstance 4097
           (store_pLayerInfo demo_instance_create_info 1
              {| sType := 47; function := 0; pLayerInfo := [] |}
              [ {| pfnNextGetInstanceProcAddr := 8192;
                   pfnNextGetPhysicalDeviceProcAddr := 8200 |} ])]
    /\ instance_keys_map_ this' !! 4097 = Some 1048832
    /\ instance_dispatch_map_ this' !! 4097 = Some (demo_instance_table 4096).
Proof.
  set (this' := set_instance_maps
                  (<[4097 := demo_instance_table 4096]> ∅)
                  (<[4097 := 1048832]> ∅) demo_layer).
  assert (Hrun :
    CreateInstance (demo_env VK_SUCCESS true) demo_instance_create_info 0 0
      demo_instance_table demo_layer []
    = Done (VK_SUCCESS, 1048832) this'
        [next_GetInstanceProcAddr 4096 0 "vkCreateInstance";
         next_vkCreateInstance 4097
           (store_pLayerInfo demo_instance_create_info 1
              {| sType := 47; function := 0; pLayerInfo := [] |}
              [ {| pfnNextGetInstanceProcAddr := 8192;
                   pfnNextGetPhysicalDeviceProcAddr := 8200 |} ])])
    by reflexivity.
  exists this'. split; [exact Hrun|].
  destruct (CreateInstance_success_registers _ _ _ _ _ _ _ _ _ _ Hrun)
    as (position & record & link & links & Hfind & Hlinks & _ & _ & Hkey
        & Htable).
  injection Hfind as <- <-. injection Hlinks as <- <-.
  split; [exact Hkey | exact Htable].
Defined.

Lemma CreateDevice_abort_unresolved E physical_device create_info allocator
    device get_dispatch_table this (trace : list call) position record :
  FindDeviceCreateInfo create_info = Some (position, record) ->
  dev_pLayerInfo record = []
  \/ instance_keys_map_ this
       !! InstanceKey_of_physical_device E physical_device = None
  \/ instance_keys_map_ this
       !! InstanceKey_of_physical_device E physical_device
     = Some VK_NULL_HANDLE ->
  CreateDevice E physical_device create_info allocator device
    get_dispatch_table this trace
  = Abort.
Proof.
  intros Hfind Hcases. unfold CreateDevice. rewrite Hfind.
  destruct (dev_pLayerInfo record) as [|link links] eqn:Hlinks;
    [reflexivity|].
  unfold bind at 1, GetInstance at 1, bind at 1, get at 1.
  destruct Hcases as [Hnull | [Habsent | Hzero]].
  - discriminate Hnull.
  - rewrite Habsent. reflexivity.
  - rewrite Hzero. reflexivity.
Qed.

Lemma CreateDevice_abort_null_function E physical_device create_info allocator
    device get_dispatch_table this (trace : list call) position record
    link links instance :
  FindDeviceCreateInfo create_info = Some (position, record) ->
  dev_pLayerInfo record = link :: links ->
  instance_keys_map_ this
    !! InstanceKey_of_physical_device E physical_device = Some instance ->
  call_GetInstanceProcAddr E (dev_pfnNextGetInstanceProcAddr link)
    instance "vkCreateDevice" = 0 ->
  CreateDevice E physical_device create_info allocator device
    get_dispatch_table this trace
  = Abort.
Proof.
  intros Hfind Hlinks Hinstance Hzero. unfold CreateDevice.
  rewrite Hfind, Hlinks.
  unfold bind at 1, GetInstance at 1, bind at 1, get at 1.
  rewrite Hinstance. unfold ret at 1. unfold bind at 1.
  destruct (bool_decide (instance <> VK_NULL_HANDLE)); [|reflexivity].
  unfold assert at 1, ret at 1.
  destruct (decide (dev_pfnNextGetInstanceProcAddr link = 0))
    as [Hresolver|Hresolver].
  - unfold bind at 1, invoke_GetInstanceProcAddr at 1.
    rewrite bool_decide_eq_true_2 by exact Hresolver. reflexivity.
  - rewrite (bind_Done _ _ _ _ _ _ _
               (invoke_GetInstanceProcAddr_run E _ _ _ _ _ Hresolver)).
    rewrite Hzero. reflexivity.
Qed.

(** A null resolver in the link stops [CreateDevice]. *)
Lemma CreateDevice_abort_null_resolver E physical_device create_info allocator
    device get_dispatch_table this (trace : list call) position record
    link links :
  FindDeviceCreateInfo create_info = Some (position, record) ->
  dev_pLayerInfo record = link :: links ->
  dev_pfnNextGetInstanceProcAddr link = 0 ->
  CreateDevice E physical_device create_info allocator device
    get_dispatch_table this trace
  = Abort.
Proof.
  intros Hfind Hlinks Hresolver. unfold CreateDevice.
  rewrite Hfind, Hlinks.
  unfold bind at 1, GetInstance at 1, bind at 1, get at 1.
  destruct (instance_keys_map_ this
              !! InstanceKey_of_physical_device E physical_device)
    as [instance|]; [|reflexivity].
  unfold ret at 1. unfold bind at 1.
  destruct (bool_decide (instance <> VK_NULL_HANDLE)); [|reflexivity].
  unfold assert at 1, ret at 1.
  unfold bind at 1, invoke_GetInstanceProcAddr at 1.
  rewrite bool_decide_eq_true_2 by exact Hresolver. reflexivity.
Qed.

(** X7: [CreateDevice] stops at its assertions, before the next layer's
    [vkCreateDevice] is called, when the linkage record has no layer info,
    when the instance key of the physical device resolves to no instance or
    to the null handle, and when the resolver of the owning instance answers
    a null [vkCreateDevice]. *)
Theorem CreateDevice_asserts (E : Env) (physical_device : VkPhysicalDevice)
    (create_info : VkDeviceCreateInfo) (allocator : Z) (device : VkDevice)
    (get_dispatch_table : PFN -> VkLayerDispatchTable)
    (this : LayerData.t) (trace : list call)
    (position : nat) (record : VkLayerDeviceCreateInfo) :
  FindDeviceCreateInfo create_info = Some (position, record) ->
  dev_pLayerInfo record = []
  \/ instance_keys_map_ this
       !! InstanceKey_of_physical_device E physical_device = None
  \/ instance_keys_map_ this
       !! InstanceKey_of_physical_device E physical_device
     = Some VK_NULL_HANDLE
  \/ (exists link links instance,
        dev_pLayerInfo record = link :: links
        /\ instance_keys_map_ this
             !! InstanceKey_of_physical_device E physical_device
           = Some instance
        /\ call_GetInstanceProcAddr E (dev_pfnNextGetInstanceProcAddr link)
             instance "vkCreateDevice" = 0) ->
  CreateDevice E physical_device create_info allocator device
    get_dispatch_table this trace
  = Abort.
Proof.
  intros Hfind [Hnull | [Habsent | [Hzero | Hfunction]]].
  - eapply CreateDevice_abort_unresolved; [exact Hfind | auto].
  - eapply CreateDevice_abort_unresolved; [exact Hfind | auto].
  - eapply CreateDevice_abort_unresolved; [exact Hfind | auto].
  - destruct Hfunction as (link & links & instance & Hlinks & Hinstance
                           & Hzero).
    eapply CreateDevice_abort_null_function; eassumption.
Qed.

Lemma CreateDevice_asserts_witness :
  FindDeviceCreateInfo demo_device_create_info
  = Some (O, {| dev_sType := 48; dev_function := 0;
                dev_pLayerInfo :=
                  [ {| dev_pfnNextGetInstanceProcAddr := 4096;
                       dev_pfnNextGetDeviceProcAddr := 4112 |} ] |})
  /\ instance_keys_map_ demo_layer
       !! InstanceKey_of_physical_device (demo_env VK_SUCCESS true) 1048833
     = None
  /\ CreateDevice (demo_env VK_SUCCESS true) 1048833 demo_device_create_info
       0 0 demo_device_table demo_layer []
     = Abort.
Proof.
  split; [reflexivity|]. split; [reflexivity|].
  apply (CreateDevice_asserts (demo_env VK_SUCCESS true) 1048833
           demo_device_create_info 0 0 demo_device_table demo_layer [] O _
           eq_refl).
  right. left. reflexivity.
Defined.

(** X8: [CreateDevice] reports [VK_SUCCESS] only after it resolved the
    instance that owns the physical device, obtained [vkCreateDevice] from
    the first link's instance resolver for that instance, got [VK_SUCCESS]
    from it and [AddDevice] returned true for the created handle, with the
    dispatch table built from the link's DEVICE resolver; the device key of
    the handle then resolves to that table, and the instance registries are
    as before. *)
Theorem CreateDevice_success_registers (E : Env)
    (physical_device : VkPhysicalDevice) (create_info : VkDeviceCreateInfo)
    (allocator : Z) (device : VkDevice)
    (get_dispatch_table : PFN -> VkLayerDispatchTable)
    (this : LayerData.t) (trace : list call)
    (created : VkDevice) (this' : LayerData.t) (trace' : list call) :
  CreateDevice E physical_device create_info allocator device
    get_dispatch_table this trace
  = Done (VK_SUCCESS, created) this' trace' ->
  exists position record link links instance,
    FindDeviceCreateInfo create_info = Some (position, record)
    /\ dev_pLayerInfo record = link :: links
    /\ instance_keys_map_ this
         !! InstanceKey_of_physical_device E physical_device = Some instance
    /\ instance <> VK_NULL_HANDLE
    /\ call_vkCreateDevice E
         (call_GetInstanceProcAddr E (dev_pfnNextGetInstanceProcAddr link)
            instance "vkCreateDevice")
         physical_device
         (dev_store_pLayerInfo create_info position record links)
         allocator device
       = (VK_SUCCESS, created)
    /\ trace'
       = trace ++
         [next_GetInstanceProcAddr (dev_pfnNextGetInstanceProcAddr link)
            instance "vkCreateDevice";
          next_vkCreateDevice
            (call_GetInstanceProcAddr E (dev_pfnNextGetInstanceProcAddr link)
               instance "vkCreateDevice")
            physical_device
            (dev_store_pLayerInfo create_info position record links)]
    /\ device_dispatch_map_ this' !! DeviceKey E created
       = Some (get_dispatch_table (dev_pfnNextGetDeviceProcAddr link))
    /\ instance_keys_map_ this' = instance_keys_map_ this
    /\ instance_dispatch_map_ this' = instance_dispatch_map_ this.
Proof.
  intros Hrun.
  destruct (FindDeviceCreateInfo create_info) as [[position record]|]
    eqn:Hfind.
  2:{ unfold CreateDevice in Hrun. rewrite Hfind in Hrun. discriminate Hrun. }
  destruct (dev_pLayerInfo record) as [|link links] eqn:Hlinks.
  { rewrite (CreateDevice_abort_unresolved E _ _ _ _ _ _ _ _ _ Hfind)
      in Hrun by (left; exact Hlinks).
    discriminate Hrun. }
  destruct (instance_keys_map_ this
              !! InstanceKey_of_physical_device E physical_device)
    as [instance|] eqn:Hinstance.
  2:{ rewrite (CreateDevice_abort_unresolved E _ _ _ _ _ _ _ _ _ Hfind)
        in Hrun by (right; left; exact Hinstance).
      discriminate Hrun. }
  destruct (decide (instance = VK_NULL_HANDLE)) as [->|Hnonnull].
  { rewrite (CreateDevice_abort_unresolved E _ _ _ _ _ _ _ _ _ Hfind)
      in Hrun by (right; right; exact Hinstance).
    discriminate Hrun. }
  destruct (decide (call_GetInstanceProcAddr E
                      (dev_pfnNextGetInstanceProcAddr link) instance
                      "vkCreateDevice" = 0)) as [Hzero|Hfunction].
  { rewrite (CreateDevice_abort_null_function E _ _ _ _ _ _ _ _ _ _ _ _
               Hfind Hlinks Hinstance Hzero) in Hrun.
    discriminate Hrun. }
  destruct (decide (dev_pfnNextGetInstanceProcAddr link = 0))
    as [Hnull|Hresolver].
  { rewrite (CreateDevice_abort_null_resolver E _ _ _ _ _ _ _ _ _ _ _
               Hfind Hlinks Hnull) in Hrun.
    discriminate Hrun. }
  rewrite (CreateDevice_forwarded E _ _ _ _ _ _ _ _ _ _ _ _ Hfind Hlinks
             Hinstance Hnonnull Hresolver Hfunction) in Hrun.
  destruct (call_vkCreateDevice E _ physical_device _ allocator device)
    as [result answer] eqn:Hanswer.
  cbn [fst snd] in Hrun.
  case_bool_decide as Hresult.
  { injection Hrun as Hcode _ _ _. congruence. }
  assert (result = VK_SUCCESS) as ->
    by (destruct (decide (result = VK_SUCCESS)); tauto).
  unfold AddDevice, bind, get, put, ret in Hrun.
  destruct (can_register_device E answer); cbn [negb] in Hrun;
    [|discriminate Hrun].
  injection Hrun as -> <- <-.
  exists position, record, link, links, instance.
  do 6 (split; [first [reflexivity | eassumption]|]).
  cbn [device_dispatch_map_ instance_keys_map_ instance_dispatch_map_
       set_device_dispatch_map_].
  split; [apply lookup_insert_eq | split; reflexivity].
Qed.

Lemma CreateDevice_success_registers_witness :
  exists this',
    CreateDevice (demo_env VK_SUCCESS true) 1048833 demo_device_create_info
      0 0 demo_device_table demo_tracking_layer []
    = Done (VK_SUCCESS, 1049104) this'
        [next_GetInstanceProcAddr 4096 1048832 "vkCreateDevice";
         next_vkCreateDevice 4098 1048833
           (dev_store_pLayerInfo demo_device_create_info 0
              {| dev_sType := 48; dev_function := 0; dev_pLayerInfo := [] |}
              [])]
    /\ device_dispatch_map_ this' !! 1049104 = Some (demo_device_table 4112).
Proof.
  set (this' := set_device_dispatch_map_
                  (<[1049104 := demo_device_table 4112]>
                     (device_dispatch_map_ demo_tracking_layer))
                  demo_tracking_layer).
  assert (Hrun :
    CreateDevice (demo_env VK_SUCCESS true) 1048833 demo_device_create_info
      0 0 demo_device_table demo_tracking_layer []
    = Done (VK_SUCCESS, 1049104) this'
        [next_GetInstanceProcAddr 4096 1048832 "vkCreateDevice";
         next_vkCreateDevice 4098 1048833
           (dev_store_pLayerInfo demo_device_create_info 0
              {| dev_sType := 48; dev_function := 0; dev_pLayerInfo := [] |}
              [])])
    by reflexivity.
  exists this'. split; [exact Hrun|].
  destruct (CreateDevice_success_registers _ _ _ _ _ _ _ _ _ _ _ Hrun)
    as (position & record & link & links & instance & Hfind & Hlinks & _ & _
        & _ & _ & Htable & _).
  injection Hfind as <- <-. injection Hlinks as <- <-.
  exact Htable.
Defined.

(** ** Removing an instance *)

Lemma set_instance_maps_same this :
  set_instance_maps (instance_dispatch_map_ this) (instance_keys_map_ this)
    this = this.
Proof. destruct this. reflexivity. Qed.

Lemma RemoveInstance_absent_run E instance this (trace : list call) :
  instance_dispatch_map_ this !! InstanceKey_of_instance E instance = None ->
  instance_keys_map_ this !! InstanceKey_of_instance E instance = None ->
  RemoveInstance E instance this trace = Done tt this trace.
Proof.
  intros Hdispatch Hkeys. rewrite RemoveInstance_run.
  rewrite !delete_id by assumption.
  now rewrite set_instance_maps_same.
Qed.

(** X9: [RemoveInstance] on an instance whose key is in neither map changes
    nothing: the call is safe for a handle that was never added or was
    removed already. *)
Theorem RemoveInstance_unknown_noop (E : Env) (instance : VkInstance)
    (this : LayerData.t) (trace : list call) :
  instance_dispatch_map_ this !! InstanceKey_of_instance E instance = None ->
  instance_keys_map_ this !! InstanceKey_of_instance E instance = None ->
  RemoveInstance E instance this trace = Done tt this trace.
Proof.
  intros Hdispatch Hkeys.
  unfold RemoveInstance, bind, get, put.
  rewrite (delete_id _ _ Hdispatch), (delete_id _ _ Hkeys).
  destruct this. reflexivity.
Qed.

Lemma RemoveInstance_unknown_noop_witness :
  instance_dispatch_map_ demo_tracking_layer
    !! InstanceKey_of_instance (demo_env VK_SUCCESS true) 512 = None
  /\ instance_keys_map_ demo_tracking_layer
       !! InstanceKey_of_instance (demo_env VK_SUCCESS true) 512 = None
  /\ RemoveInstance (demo_env VK_SUCCESS true) 512 demo_tracking_layer []
     = Done tt demo_tracking_layer [].
Proof.
  split; [reflexivity|]. split; [reflexivity|].
  apply RemoveInstance_unknown_noop; reflexivity.
Defined.

(** X10: [RemoveInstance] touches nothing but the two entries under the key
    of its instance: entries under every other key of both instance maps,
    the device dispatch map, the shader hashes, the sinks and the last log
    time are as before, no call leaves the layer, and a second
    [RemoveInstance] of the same instance changes nothing more. *)
Theorem RemoveInstance_frame (E : Env) (instance : VkInstance)
    (this : LayerData.t) (trace : list call) :
  exists this',
    RemoveInstance E instance this trace = Done tt this' trace
    /\ (forall key, key <> InstanceKey_of_instance E instance ->
          instance_dispatch_map_ this' !! key
          = instance_dispatch_map_ this !! key
          /\ instance_keys_map_ this' !! key = instance_keys_map_ this !! key)
    /\ device_dispatch_map_ this' = device_dispatch_map_ this
    /\ shader_hash_map_ this' = shader_hash_map_ this
    /\ out_ this' = out_ this
    /\ event_log_ this' = event_log_ this
    /\ last_log_time_ this' = last_log_time_ this
    /\ RemoveInstance E instance this' trace = Done tt this' trace.
Proof.
  eexists. split; [apply RemoveInstance_run|].
  cbn [instance_dispatch_map_ instance_keys_map_ device_dispatch_map_
       shader_hash_map_ out_ event_log_ last_log_time_ set_instance_maps].
  split.
  { intros key Hkey. split; apply lookup_delete_ne; congruence. }
  do 5 (split; [reflexivity|]).
  apply RemoveInstance_absent_run;
    cbn [instance_dispatch_map_ instance_keys_map_ set_instance_maps];
    apply lookup_delete_eq.
Qed.

(** ** The constructors and the sinks *)


(** X11: the constructor [LayerData(log_filename, header)] always leaves a
    primary sink: the file if it opens, [stderr] if no file name is given or
    the file does not open, a failure to open being reported.  The header is
    the first thing written to a stream, as one flushed line, and the
    registries are empty. *)
Theorem LayerData_with_log_primary_sink (E : Env)
    (log_filename : option string) (header : string) (trace : list call) :
  exists this' f before after,
    LayerData_with_log E log_filename header fresh trace
    = Done tt this'
        (trace ++ before
         ++ [c_fputs f (header +:+ String Text.newline ""); c_fflush f]
         ++ after)
    /\ out_ this' = Some f
    /\ Forall opens_or_reports before
    /\ Forall opens_or_reports after
    /\ match log_filename with
       | Some name =>
           match fopen E name "w" with
           | Some file => f = file /\ before = [c_fopen name "w"]
           | None =>
               f = stderr
               /\ before
                  = [c_fopen name "w";
                     c_log_error ("Failed to open " +:+ name
                                  +:+ ", output will be to STDERR.")]
           end
       | None => f = stderr /\ before = []
       end
    /\ instance_dispatch_map_ this' = ∅
    /\ instance_keys_map_ this' = ∅
    /\ device_dispatch_map_ this' = ∅
    /\ shader_hash_map_ this' = ∅.
Proof.
  unfold LayerData_with_log, open_event_log, do_fopen, WriteLnAndFlush, bind,
    emit, get, put, ret.
  destruct log_filename as [name|];
    [destruct (fopen E name "w") as [file|] eqn:Hopen|];
    destruct (getenv E kEventLogFileEnvVar) as [event_log_file|];
    cbn [out_ set_out_ set_event_log_]; rewrite <- ?app_assoc; cbn [app].
  - exists (set_event_log_ (fopen E event_log_file "a")
              (set_out_ (Some file) fresh)),
      file, [c_fopen name "w"], [c_fopen event_log_file "a"].
    cbn. repeat split; repeat constructor.
  - exists (set_out_ (Some file) fresh), file, [c_fopen name "w"], [].
    cbn. repeat split; repeat constructor.
  - exists (set_event_log_ (fopen E event_log_file "a")
              (set_out_ (Some stderr) fresh)),
      stderr,
      [c_fopen name "w";
       c_log_error ("Failed to open " +:+ name
                    +:+ ", output will be to STDERR.")],
      [c_fopen event_log_file "a"].
    cbn. repeat split; repeat constructor.
  - exists (set_out_ (Some stderr) fresh), stderr,
      [c_fopen name "w";
       c_log_error ("Failed to open " +:+ name
                    +:+ ", output will be to STDERR.")], [].
    cbn. repeat split; repeat constructor.
  - exists (set_event_log_ (fopen E event_log_file "a")
              (set_out_ (Some stderr) fresh)),
      stderr, [], [c_fopen event_log_file "a"].
    cbn. repeat split; repeat constructor.
  - exists (set_out_ (Some stderr) fresh), stderr, [], [].
    cbn. repeat split; repeat constructor.
Qed.

Lemma LogEventOnly_run E event_type extra_content this (trace : list call) :
  LogEventOnly E event_type extra_content this trace
  = match event_log_ this with
    | Some event_log =>
        Done tt (set_clock_reads (S (clock_reads this)) this)
          (trace ++
           [c_fputs event_log
              ((if String.eqb extra_content ""
                then MakeEventLogPrefix E event_type
                       (TimestampClock_now E (clock_reads this))
                else Text.CsvCat
                       [MakeEventLogPrefix E event_type
                          (TimestampClock_now E (clock_reads this));
                        extra_content])
               +:+ String Text.newline "");
            c_fflush event_log])
    | None => Done tt this trace
    end.
Proof.
  unfold LogEventOnly, bind, get.
  destruct (event_log_ this) as [event_log|]; [|reflexivity].
  unfold GetTimestamp, bind, get, put, ret, WriteLnAndFlush, bind, emit.
  rewrite <- app_assoc. reflexivity.
Qed.




(** ** Sequences of log calls *)

Lemma whole_lines_app allowed a b :
  whole_lines allowed a -> whole_lines allowed b ->
  whole_lines allowed (a ++ b).
Proof.
  induction 1 as [|f line rest Hf _ IH]; intros Hb; [exact Hb|].
  cbn [app]. constructor; auto.
Qed.

Lemma lines_on_app f a b :
  lines_on f (a ++ b) = (lines_on f a + lines_on f b)%nat.
Proof.
  induction a as [|c a IH]; [reflexivity|].
  destruct c; cbn [app lines_on]; try exact IH.
  case_bool_decide; rewrite IH; reflexivity.
Qed.

Lemma Log_run E event_type pipeline prefix this (trace : list call) :
  Log E event_type pipeline prefix this trace
  = LogLine E event_type
      (Text.CsvCat [Text.quoted (PipelineHashToString pipeline); prefix])
      (TimestampClock_now E (clock_reads this))
      (set_clock_reads (S (clock_reads this)) this) trace.
Proof. reflexivity. Qed.

Lemma event_log_writes_whole_lines E this event_type line timestamp allowed :
  (forall f, event_log_ this = Some f -> allowed f) ->
  whole_lines allowed (event_log_writes E this event_type line timestamp).
Proof.
  intros Hallowed. unfold event_log_writes.
  destruct (event_log_ this) as [event_log|]; [|constructor].
  replace (event_type +:+ "," +:+ Text.decimal (ToUnixNanos E timestamp)
           +:+ "," +:+ line +:+ String Text.newline "")
    with ((event_type +:+ "," +:+ Text.decimal (ToUnixNanos E timestamp)
           +:+ "," +:+ line) +:+ String Text.newline "")
    by (rewrite !string_app_assoc; reflexivity).
  constructor; [auto | constructor].
Qed.

Lemma event_log_writes_lines_on E this event_type line timestamp out :
  event_log_ this <> Some out ->
  lines_on out (event_log_writes E this event_type line timestamp) = O.
Proof.
  intros Hother. unfold event_log_writes.
  destruct (event_log_ this) as [event_log|]; [|reflexivity].
  cbn [lines_on]. rewrite bool_decide_eq_false_2 by congruence. reflexivity.
Qed.

(** X13: on a layer with a primary sink, every sequence of [LogLine], [Log]
    and [LogEventOnly] calls runs to its end and changes no field of the
    layer; what it adds to the trace is made of whole lines only, each write
    followed at once by the flush of its stream, on the primary sink or the
    event log and on no other stream; and when the event log is another
    stream, the primary sink receives exactly one line for each [LogLine] and
    [Log] and none for [LogEventOnly]. *)
Theorem log_ops_whole_lines (E : Env) (ops : list log_op)
    (this : LayerData.t) (out : FILE) (trace : list call) :
  out_ this = Some out ->
  exists reads added,
    run_log_ops E ops this trace
    = Done tt (set_clock_reads reads this) (trace ++ added)
    /\ whole_lines (fun f => f = out \/ event_log_ this = Some f) added
    /\ (event_log_ this <> Some out -> lines_on out added = primary_ops ops).
Proof.
  intros Hout. revert this trace Hout.
  induction ops as [|op ops IH]; intros this trace Hout.
  - exists (clock_reads this), []. rewrite app_nil_r. destruct this.
    repeat split; constructor.
  - destruct op as [event_type line timestamp | event_type pipeline prefix
                    | event_type extra_content]; cbn [run_log_ops primary_ops];
      unfold bind.
    + rewrite (LogLine_trace E _ _ _ _ out) by exact Hout.
      destruct (IH this (trace ++ [c_fputs out (line +:+ String Text.newline "");
                                   c_fflush out]
                         ++ event_log_writes E this event_type line timestamp)
                  Hout) as (reads & added & Hrun & Hlines & Hcount).
      exists reads, ([c_fputs out (line +:+ String Text.newline "");
                      c_fflush out]
                     ++ event_log_writes E this event_type line timestamp
                     ++ added).
      split; [rewrite Hrun, <- !app_assoc; reflexivity|]. split.
      * cbn [app]. constructor; [now left|].
        apply whole_lines_app; [|exact Hlines].
        apply event_log_writes_whole_lines. auto.
      * intros Hother. cbn [app lines_on].
        rewrite bool_decide_eq_true_2 by reflexivity.
        rewrite lines_on_app, event_log_writes_lines_on by exact Hother.
        rewrite Hcount by exact Hother. reflexivity.
    + rewrite Log_run.
      set (this1 := set_clock_reads (S (clock_reads this)) this).
      set (line :=
             Text.CsvCat [Text.quoted (PipelineHashToString pipeline); prefix]).
      set (timestamp := TimestampClock_now E (clock_reads this)).
      rewrite (LogLine_trace E _ _ _ _ out) by exact Hout.
      destruct (IH this1
                  (trace ++ [c_fputs out (line +:+ String Text.newline "");
                             c_fflush out]
                   ++ event_log_writes E this1 event_type line timestamp)
                  Hout) as (reads & added & Hrun & Hlines & Hcount).
      exists reads, ([c_fputs out (line +:+ String Text.newline "");
                      c_fflush out]
                     ++ event_log_writes E this1 event_type line timestamp
                     ++ added).
      split; [rewrite Hrun, <- !app_assoc; reflexivity|]. split.
      * cbn [app]. constructor; [now left|].
        apply whole_lines_app; [|exact Hlines].
        apply event_log_writes_whole_lines. auto.
      * intros Hother. cbn [app lines_on].
        rewrite bool_decide_eq_true_2 by reflexivity.
        rewrite lines_on_app, event_log_writes_lines_on by exact Hother.
        rewrite Hcount by exact Hother. reflexivity.
    + rewrite LogEventOnly_run.
      destruct (event_log_ this) as [event_log|] eqn:Hlog.
      * set (this1 := set_clock_reads (S (clock_reads this)) this).
        match goal with
        | |- context [c_fputs event_log ?text] => set (written := text)
        end.
        destruct (IH this1 (trace ++ [c_fputs event_log written;
                                      c_fflush event_log]) Hout)
          as (reads & added & Hrun & Hlines & Hcount).
        exists reads, ([c_fputs event_log written; c_fflush event_log]
                       ++ added).
        split; [rewrite Hrun, <- !app_assoc; reflexivity|]. split.
        -- cbn [app]. unfold written. constructor; [now right|].
           unfold this1 in Hlines. cbn [event_log_ set_clock_reads] in Hlines.
           rewrite Hlog in Hlines. exact Hlines.
        -- intros Hother. cbn [app lines_on].
           rewrite bool_decide_eq_false_2 by congruence.
           apply Hcount. unfold this1. cbn [event_log_ set_clock_reads].
           rewrite Hlog. exact Hother.
      * destruct (IH this trace Hout) as (reads & added & Hrun & Hlines
                                          & Hcount).
        exists reads, added. rewrite Hlog in Hlines, Hcount.
        split; [exact Hrun|]. split; [exact Hlines | exact Hcount].
Qed.

Lemma log_ops_whole_lines_witness :
  out_ demo_layer = Some stderr
  /\ exists reads added,
       run_log_ops (demo_env VK_SUCCESS true)
         [op_LogLine "frame_present" "17,42" 1700000000;
          op_LogEventOnly "create_shader" "0xbeef";
          op_Log "pipeline_cache_hit" [1; 2] "42"]
         demo_layer []
       = Done tt (set_clock_reads reads demo_layer) added
       /\ lines_on stderr added = 2%nat.
Proof.
  split; [reflexivity|].
  destruct (log_ops_whole_lines (demo_env VK_SUCCESS true)
              [op_LogLine "frame_present" "17,42" 1700000000;
               op_LogEventOnly "create_shader" "0xbeef";
               op_Log "pipeline_cache_hit" [1; 2] "42"]
              demo_layer stderr [] eq_refl)
    as (reads & added & Hrun & _ & Hcount).
  exists reads, added. split; [exact Hrun|].
  apply Hcount. discriminate.
Defined.

(** ** Sequences of time deltas *)

Lemma consecutive_deltas_sum E previous reading count :
  fold_right Z.add 0 (consecutive_deltas E previous reading (S count))
  = DurationClock_now E (reading + count) - previous.
Proof.
  revert previous reading. induction count as [|count IH];
    intros previous reading.
  - cbn. rewrite Nat.add_0_r. lia.
  - cbn [consecutive_deltas fold_right] in *. rewrite IH.
    replace (S reading + count)%nat with (reading + S count)%nat by lia. lia.
Qed.

Lemma GetTimeDelta_times_run E count :
  forall this (trace : list call),
    (forall i, (i < count)%nat ->
       0 <= DurationClock_now E (clock_reads this + i) <= int64_max) ->
    0 <= last_log_time_ this <= int64_max ->
    GetTimeDelta_times E count this trace
    = Done (consecutive_deltas E (last_log_time_ this) (clock_reads this) count)
        (if count is O then this
         else set_last_log_time_
                (DurationClock_now E (clock_reads this + count - 1))
                (set_clock_reads (clock_reads this + count) this))
        trace.
Proof.
  induction count as [|count IH]; intros this trace Hclock Hprevious.
  - reflexivity.
  - pose proof (Hclock O ltac:(lia)) as Hnow. rewrite Nat.add_0_r in Hnow.
    cbn [GetTimeDelta_times]. unfold bind at 1. rewrite GetTimeDelta_run.
    rewrite bool_decide_eq_true_2
      by (unfold time_point_min, int64_min, int64_max in *; lia).
    rewrite wrap_int64_small by (unfold int64_min, int64_max in *; lia).
    unfold bind at 1. rewrite IH.
    2:{ intros i Hi.
        cbn [last_log_time_ clock_reads set_last_log_time_ set_clock_reads].
        replace (S (clock_reads this) + i)%nat
          with (clock_reads this + S i)%nat by lia.
        apply Hclock. lia. }
    2:{ cbn [last_log_time_ set_last_log_time_]. exact Hnow. }
    cbn [last_log_time_ clock_reads set_last_log_time_ set_clock_reads
         consecutive_deltas].
    unfold ret. f_equal.
    destruct count as [|count].
    + replace (clock_reads this + 1 - 1)%nat with (clock_reads this) by lia.
      replace (clock_reads this + 1)%nat with (S (clock_reads this)) by lia.
      reflexivity.
    + cbn [set_last_log_time_ set_clock_reads last_log_time_ clock_reads
           instance_dispatch_map_ instance_keys_map_ device_dispatch_map_
           shader_hash_map_ out_ event_log_].
      replace (S (clock_reads this) + S count - 1)%nat
        with (clock_reads this + S (S count) - 1)%nat by lia.
      replace (S (clock_reads this) + S count)%nat
        with (clock_reads this + S (S count))%nat by lia.
      reflexivity.
Qed.

(** X14: with readings of the clock that are non-negative ticks, [count + 1]
    calls of [GetTimeDelta] in a row on a layer that has not measured yet
    return the sentinel first and then, call after call, the difference
    between the reading of the call and the reading of the call before it;
    these differences add up to the time between the first and the last
    reading, and the last reading is what the layer remembers. *)
Theorem GetTimeDelta_sequence (E : Env) (count : nat) (this : LayerData.t)
    (trace : list call) :
  let first := clock_reads this in
  (forall i, (i <= count)%nat ->
     0 <= DurationClock_now E (first + i) <= int64_max) ->
  last_log_time_ this = time_point_min ->
  exists this' deltas,
    GetTimeDelta_times E (S count) this trace
    = Done (duration_min :: deltas) this' trace
    /\ deltas
       = consecutive_deltas E (DurationClock_now E first) (S first) count
    /\ fold_right Z.add 0 deltas
       = DurationClock_now E (first + count) - DurationClock_now E first
    /\ last_log_time_ this' = DurationClock_now E (first + count).
Proof.
  intros first Hclock Hfresh.
  cbn [GetTimeDelta_times]. unfold bind at 1. rewrite GetTimeDelta_run.
  rewrite Hfresh.
  rewrite bool_decide_eq_false_2 by (intros Hne; now apply Hne).
  unfold bind at 1.
  rewrite (GetTimeDelta_times_run E count).
  2:{ intros i Hi.
      cbn [last_log_time_ clock_reads set_last_log_time_ set_clock_reads].
      replace (S (clock_reads this) + i)%nat with (first + S i)%nat
        by (unfold first; lia).
      apply Hclock. lia. }
  2:{ cbn [last_log_time_ set_last_log_time_].
      pose proof (Hclock O ltac:(lia)) as Hnow.
      rewrite Nat.add_0_r in Hnow. exact Hnow. }
  cbn [last_log_time_ clock_reads set_last_log_time_ set_clock_reads].
  fold first. unfold ret.
  eexists _, _. split; [reflexivity|]. split; [reflexivity|]. split.
  - destruct count as [|count].
    + cbn. rewrite Nat.add_0_r. lia.
    + rewrite consecutive_deltas_sum.
      replace (S first + count)%nat with (first + S count)%nat by lia.
      reflexivity.
  - destruct count as [|count].
    + cbn. now rewrite Nat.add_0_r.
    + cbn [last_log_time_ set_last_log_time_]. f_equal. lia.
Qed.

Lemma GetTimeDelta_sequence_witness :
  (forall i, (i <= 3)%nat ->
     0 <= DurationClock_now (demo_env VK_SUCCESS true) (0 + i) <= int64_max)
  /\ exists this',
       GetTimeDelta_times (demo_env VK_SUCCESS true) 4 fresh []
       = Done [duration_min; 25; 25; 25] this' []
       /\ last_log_time_ this' = 1075.
Proof.
  assert (Hclock : forall i, (i <= 3)%nat ->
            0 <= DurationClock_now (demo_env VK_SUCCESS true) (0 + i)
              <= int64_max).
  { intros i Hi. cbn [DurationClock_now demo_env Nat.add].
    unfold int64_max. lia. }
  split; [exact Hclock|].
  destruct (GetTimeDelta_sequence (demo_env VK_SUCCESS true) 3 fresh [] Hclock
              eq_refl)
    as (this' & deltas & Hrun & Hdeltas & _ & Hlast).
  exists this'. split; [|exact Hlast].
  rewrite Hrun, Hdeltas. reflexivity.
Defined.

(** ** Reading hashes back from the log *)

Lemma decode_hash_ShaderHashToString hash :
  0 <= hash < 2 ^ 64 -> decode_hash (ShaderHashToString hash) = Some hash.
Proof.
  intros Hrange. unfold ShaderHashToString, Text.StrFormat_alt_x.
  rewrite Z.mod_small by lia.
  destruct (Z.eqb_spec hash 0) as [->|Hnz]; [reflexivity|].
  change (decode_hash ("0x" +:+ Text.hex_string hash))
    with (Text.parse_hex (Text.hex_string hash)).
  apply parse_hex_hex_string. lia.
Qed.

(** X15: [ShaderHashToString] tells 64-bit hashes apart: the hash is read
    back from its rendering, so two different hashes never get the same
    string in the log. *)
Theorem ShaderHashToString_injective (hash hash' : Z) :
  0 <= hash < 2 ^ 64 -> 0 <= hash' < 2 ^ 64 ->
  decode_hash (ShaderHashToString hash) = Some hash
  /\ (ShaderHashToString hash = ShaderHashToString hash' -> hash = hash').
Proof.
  intros Hrange Hrange'. split; [now apply decode_hash_ShaderHashToString|].
  intros Hsame.
  pose proof (decode_hash_ShaderHashToString hash Hrange) as Hdecode.
  rewrite Hsame, decode_hash_ShaderHashToString in Hdecode by exact Hrange'.
  congruence.
Qed.

Lemma ShaderHashToString_injective_witness :
  0 <= 255 < 2 ^ 64 /\ 0 <= 4080 < 2 ^ 64
  /\ decode_hash (ShaderHashToString 255) = Some 255
  /\ ShaderHashToString 255 <> ShaderHashToString 4080.
Proof.
  split; [lia|]. split; [lia|].
  destruct (ShaderHashToString_injective 255 4080 ltac:(lia) ltac:(lia))
    as [Hdecode Hinjective].
  split; [exact Hdecode|].
  intros Hsame. specialize (Hinjective Hsame). lia.
Defined.

Lemma is_field_app a b :
  is_field (a +:+ b) = is_field a && is_field b.
Proof.
  induction a as [|c a IH]; [reflexivity|].
  change (is_field (String c (a +:+ b))
          = is_field (String c a) && is_field b).
  cbn [is_field]. rewrite IH. now rewrite andb_assoc.
Qed.

Lemma is_field_hex_chars digits :
  is_field (string_of_list_ascii (map Text.hex_char digits)) = true.
Proof.
  induction digits as [|d digits IH]; [reflexivity|].
  cbn [map string_of_list_ascii is_field]. rewrite IH, andb_true_r.
  destruct d as [|p|p]; [reflexivity| |reflexivity].
  do 4 (try destruct p as [p|p|]); reflexivity.
Qed.

Lemma is_field_ShaderHashToString hash :
  is_field (ShaderHashToString hash) = true.
Proof.
  unfold ShaderHashToString, Text.StrFormat_alt_x.
  destruct (hash mod 2 ^ 64 =? 0); [reflexivity|].
  rewrite is_field_app. unfold Text.hex_string.
  now rewrite is_field_hex_chars.
Qed.

Lemma ShaderHashToString_nonempty hash : ShaderHashToString hash <> "".
Proof.
  unfold ShaderHashToString, Text.StrFormat_alt_x.
  destruct (hash mod 2 ^ 64 =? 0); discriminate.
Qed.

Lemma string_app_nil_r (s : string) : s +:+ "" = s.
Proof.
  induction s as [|c s IH]; [reflexivity|].
  change (String c (s +:+ "") = String c s). now rewrite IH.
Qed.

Lemma decode_fields_nonempty s : decode_fields s <> Some [].
Proof.
  induction s as [|c s IH]; [discriminate|].
  cbn [decode_fields].
  destruct (Ascii.eqb c "]").
  - destruct (String.eqb s ""); discriminate.
  - destruct (Ascii.eqb c ",").
    + destruct (decode_fields s); discriminate.
    + destruct (decode_fields s) as [[|first fields]|]; discriminate.
Qed.

Lemma decode_fields_field field rest :
  is_field field = true ->
  decode_fields (field +:+ rest)
  = match decode_fields rest with
    | Some (first :: fields) => Some ((field +:+ first) :: fields)
    | _ => None
    end.
Proof.
  induction field as [|c field IH]; intros Hfield.
  - change ("" +:+ rest) with rest.
    pose proof (decode_fields_nonempty rest) as Hnonempty.
    destruct (decode_fields rest) as [[|first fields]|];
      [congruence | reflexivity | reflexivity].
  - cbn [is_field] in Hfield.
    apply andb_true_iff in Hfield as [Hc Hfield].
    apply andb_true_iff in Hc as [Hcomma Hbracket].
    apply negb_true_iff in Hcomma, Hbracket.
    change (String c field +:+ rest) with (String c (field +:+ rest)).
    cbn [decode_fields]. rewrite Hcomma, Hbracket, IH by exact Hfield.
    destruct (decode_fields rest) as [[|first fields]|]; reflexivity.
Qed.

Lemma decode_fields_join pipeline :
  decode_fields (Text.StrJoin (map ShaderHashToString pipeline) "," +:+ "]")
  = Some (match pipeline with
          | [] => [""]
          | _ => map ShaderHashToString pipeline
          end).
Proof.
  unfold Text.StrJoin.
  induction pipeline as [|hash rest IH]; [reflexivity|].
  destruct rest as [|hash' rest].
  - cbn [map String.concat].
    rewrite decode_fields_field by apply is_field_ShaderHashToString.
    cbn. now rewrite string_app_nil_r.
  - change (String.concat "," (map ShaderHashToString (hash :: hash' :: rest)))
      with (ShaderHashToString hash +:+ "," +:+
            String.concat "," (map ShaderHashToString (hash' :: rest))).
    rewrite !string_app_assoc.
    rewrite decode_fields_field by apply is_field_ShaderHashToString.
    change ("," +:+
            String.concat "," (map ShaderHashToString (hash' :: rest))
            +:+ "]")
      with (String ","
              (String.concat "," (map ShaderHashToString (hash' :: rest))
               +:+ "]")).
    cbn [decode_fields Ascii.eqb]. cbn [Bool.eqb]. rewrite IH.
    cbn [option_map]. now rewrite string_app_nil_r.
Qed.

Lemma decode_hashes_map pipeline :
  Forall (fun hash => 0 <= hash < 2 ^ 64) pipeline ->
  decode_hashes (map ShaderHashToString pipeline) = Some pipeline.
Proof.
  induction 1 as [|hash rest Hhash _ IH]; [reflexivity|].
  cbn [map decode_hashes].
  now rewrite decode_hash_ShaderHashToString, IH.
Qed.

Lemma decode_pipeline_PipelineHashToString pipeline :
  Forall (fun hash => 0 <= hash < 2 ^ 64) pipeline ->
  decode_pipeline (PipelineHashToString pipeline) = Some pipeline.
Proof.
  intros Hrange. unfold PipelineHashToString.
  change ("[" +:+ Text.StrJoin (map ShaderHashToString pipeline) "," +:+ "]")
    with (String "["
            (Text.StrJoin (map ShaderHashToString pipeline) "," +:+ "]")).
  cbn [decode_pipeline]. rewrite decode_fields_join.
  destruct pipeline as [|hash rest]; [reflexivity|].
  rewrite <- (decode_hashes_map (hash :: rest) Hrange).
  cbn [map]. pose proof (ShaderHashToString_nonempty hash) as Hnonempty.
  destruct (ShaderHashToString hash) as [|c s]; [congruence|].
  destruct (map ShaderHashToString rest); reflexivity.
Qed.

(** X16: the hash list that [PipelineHashToString] writes is read back
    exactly: splitting the text between the brackets at the commas and
    reading each field gives the pipeline's hashes in order (the empty
    pipeline is [[]]), so two different pipelines of 64-bit hashes never get
    the same text. *)
Theorem PipelineHashToString_round_trip (pipeline pipeline' : list Z) :
  Forall (fun hash => 0 <= hash < 2 ^ 64) pipeline ->
  Forall (fun hash => 0 <= hash < 2 ^ 64) pipeline' ->
  decode_pipeline (PipelineHashToString pipeline) = Some pipeline
  /\ (PipelineHashToString pipeline = PipelineHashToString pipeline' ->
      pipeline = pipeline').
Proof.
  intros Hrange Hrange'.
  split; [now apply decode_pipeline_PipelineHashToString|].
  intros Hsame.
  pose proof (decode_pipeline_PipelineHashToString pipeline Hrange) as Hdecode.
  rewrite Hsame, decode_pipeline_PipelineHashToString in Hdecode
    by exact Hrange'.
  congruence.
Qed.

Lemma PipelineHashToString_round_trip_witness :
  Forall (fun hash => 0 <= hash < 2 ^ 64) [1; 0; 48879]
  /\ PipelineHashToString [1; 0; 48879] = "[0x1,0,0xbeef]"
  /\ decode_pipeline "[0x1,0,0xbeef]" = Some [1; 0; 48879].
Proof.
  assert (Hrange : Forall (fun hash => 0 <= hash < 2 ^ 64) [1; 0; 48879])
    by (repeat constructor; lia).
  split; [exact Hrange|]. split; [reflexivity|].
  exact (proj1 (PipelineHashToString_round_trip [1; 0; 48879] [1; 0; 48879]
                  Hrange Hrange)).
Defined.

(** ** A session of the common logger *)

Lemma AddEvents_run events logger f (trace : list call) :
  CommonLogger.out_ logger = Some f ->
  AddEvents events logger trace
  = Done tt logger (trace ++ event_lines f events).
Proof.
  intros Hout. revert trace.
  induction events as [|event events IH]; intros trace.
  - cbn. now rewrite app_nil_r.
  - cbn [AddEvents]. unfold bind.
    rewrite CommonLogger_AddEvent_run, Hout, IH.
    unfold event_lines. cbn [flat_map]. now rewrite <- app_assoc.
Qed.

(** X17: a whole session of the common logger, [StartLog], [AddEvent] for
    each event, [Flush], [EndLog] and [EndLog] again, writes one flushed line
    per event, in the order of the events, on the logger's sink and nothing
    else; a file sink is closed exactly once and forgotten, [stderr] is never
    closed and stays the sink.  A logger without a sink stops at the
    assertion. *)
Theorem CommonLogger_session (events : list Event) (logger : CommonLogger.t)
    (trace : list call) :
  (CommonLogger.StartLog ;; AddEvents events ;; CommonLogger.Flush ;;
   CommonLogger.EndLog ;; CommonLogger.EndLog)%method logger trace
  = match CommonLogger.out_ logger with
    | Some stderr =>
        Done tt logger (trace ++ event_lines stderr events ++ [c_fflush stderr])
    | Some (stream id) =>
        Done tt {| CommonLogger.out_ := None |}
          (trace ++ event_lines (stream id) events
           ++ [c_fflush (stream id); c_fclose (stream id)])
    | None => Abort
    end.
Proof.
  unfold bind at 1, CommonLogger.StartLog at 1, ret at 1.
  destruct logger as [[f|]].
  - unfold bind at 1.
    rewrite (AddEvents_run events _ f) by reflexivity.
    unfold bind at 1. rewrite CommonLogger_Flush_run.
    cbn [CommonLogger.out_]. unfold bind.
    rewrite !CommonLogger_EndLog_run. cbn [CommonLogger.out_].
    destruct f as [|id].
    + rewrite CommonLogger_EndLog_run. cbn [CommonLogger.out_].
      now rewrite <- app_assoc.
    + rewrite CommonLogger_EndLog_run. cbn [CommonLogger.out_].
      rewrite <- !app_assoc. reflexivity.
  - unfold bind at 1.
    destruct events as [|event events].
    + reflexivity.
    + cbn [AddEvents]. unfold bind at 1.
      rewrite CommonLogger_AddEvent_run. reflexivity.
Qed.

(** ** The line of [Log] is unambiguous *)

Lemma quote_free_app a b : quote_free (a +:+ b) = quote_free a && quote_free b.
Proof.
  induction a as [|c a IH]; [reflexivity|].
  change (quote_free (String c (a +:+ b))
          = quote_free (String c a) && quote_free b).
  cbn [quote_free]. rewrite IH. now rewrite andb_assoc.
Qed.

Lemma quote_free_hex_chars digits :
  quote_free (string_of_list_ascii (map Text.hex_char digits)) = true.
Proof.
  induction digits as [|d digits IH]; [reflexivity|].
  cbn [map string_of_list_ascii quote_free]. rewrite IH, andb_true_r.
  destruct d as [|p|p]; [reflexivity| |reflexivity].
  do 4 (try destruct p as [p|p|]); reflexivity.
Qed.

Lemma quote_free_ShaderHashToString hash :
  quote_free (ShaderHashToString hash) = true.
Proof.
  unfold ShaderHashToString, Text.StrFormat_alt_x.
  destruct (hash mod 2 ^ 64 =? 0); [reflexivity|].
  rewrite quote_free_app. unfold Text.hex_string.
  now rewrite quote_free_hex_chars.
Qed.

Lemma quote_free_join pipeline :
  quote_free (Text.StrJoin (map ShaderHashToString pipeline) ",") = true.
Proof.
  unfold Text.StrJoin.
  induction pipeline as [|hash rest IH]; [reflexivity|].
  destruct rest as [|hash' rest].
  - cbn [map String.concat]. apply quote_free_ShaderHashToString.
  - change (String.concat "," (map ShaderHashToString (hash :: hash' :: rest)))
      with (ShaderHashToString hash +:+ "," +:+
            String.concat "," (map ShaderHashToString (hash' :: rest))).
    rewrite !quote_free_app, IH, quote_free_ShaderHashToString. reflexivity.
Qed.

Lemma quote_free_PipelineHashToString pipeline :
  quote_free (PipelineHashToString pipeline) = true.
Proof.
  unfold PipelineHashToString.
  rewrite !quote_free_app, quote_free_join. reflexivity.
Qed.

(** Two texts that agree up to their first double quote agree before and
    after it. *)
Lemma split_at_first_quote a a' rest rest' :
  quote_free a = true -> quote_free a' = true ->
  a +:+ String Text.dquote rest = a' +:+ String Text.dquote rest' ->
  a = a' /\ rest = rest'.
Proof.
  revert a'. induction a as [|c a IH]; intros a' Ha Ha' Hsame.
  - destruct a' as [|c' a'].
    + injection Hsame as <-. auto.
    + change (String Text.dquote rest
              = String c' (a' +:+ String Text.dquote rest')) in Hsame.
      injection Hsame as <- _. cbn [quote_free] in Ha'.
      rewrite Ascii.eqb_refl in Ha'. discriminate Ha'.
  - destruct a' as [|c' a'].
    + change (String c (a +:+ String Text.dquote rest)
              = String Text.dquote rest') in Hsame.
      injection Hsame as -> _. cbn [quote_free] in Ha.
      rewrite Ascii.eqb_refl in Ha. discriminate Ha.
    + change (String c (a +:+ String Text.dquote rest)
              = String c' (a' +:+ String Text.dquote rest')) in Hsame.
      injection Hsame as <- Hsame.
      cbn [quote_free] in Ha, Ha'.
      apply andb_true_iff in Ha as [_ Ha].
      apply andb_true_iff in Ha' as [_ Ha'].
      destruct (IH a' Ha Ha' Hsame) as [-> ->]. auto.
Qed.

Lemma String_tail_eq c (a b : string) : String c a = String c b -> a = b.
Proof. now intros [= ->]. Qed.

Lemma Log_line_shape pipeline prefix :
  Log_line pipeline prefix
  = String Text.dquote
      (PipelineHashToString pipeline +:+ String Text.dquote ("," +:+ prefix)).
Proof.
  unfold Log_line. rewrite quoted_PipelineHashToString.
  unfold Text.CsvCat, Text.StrJoin, String.concat.
  change (String Text.dquote (PipelineHashToString pipeline)
          +:+ String Text.dquote "")
    with (String Text.dquote
            (PipelineHashToString pipeline +:+ String Text.dquote "")).
  change ((String Text.dquote
             (PipelineHashToString pipeline +:+ String Text.dquote ""))
          +:+ "," +:+ prefix)
    with (String Text.dquote
            ((PipelineHashToString pipeline +:+ String Text.dquote "")
             +:+ "," +:+ prefix)).
  rewrite string_app_assoc. reflexivity.
Qed.

(** X18: [Log] writes [Log_line pipeline prefix] and its terminator to the
    primary sink, and that line gives both back: it is a double quote, the
    hash list, a double quote, a comma and the prefix, the hash list holds no
    double quote, so two calls with different 64-bit pipelines or different
    prefixes never write the same line, whatever commas the prefix holds. *)
Theorem Log_line_unambiguous (E : Env) (event_type : string)
    (pipeline pipeline' : list Z) (prefix prefix' : string)
    (this : LayerData.t) (out : FILE) (trace : list call) :
  out_ this = Some out ->
  Forall (fun hash => 0 <= hash < 2 ^ 64) pipeline ->
  Forall (fun hash => 0 <= hash < 2 ^ 64) pipeline' ->
  (exists after,
     Log E event_type pipeline prefix this trace
     = Done tt (set_clock_reads (S (clock_reads this)) this)
         (trace ++ [c_fputs out (Log_line pipeline prefix
                                 +:+ String Text.newline "");
                    c_fflush out] ++ after))
  /\ (Log_line pipeline prefix = Log_line pipeline' prefix' ->
      pipeline = pipeline' /\ prefix = prefix').
Proof.
  intros Hout Hrange Hrange'. split.
  - rewrite Log_run. fold (Log_line pipeline prefix).
    rewrite (LogLine_trace E _ _ _ _ out) by exact Hout.
    eexists. reflexivity.
  - rewrite !Log_line_shape. intros Hsame. apply String_tail_eq in Hsame.
    apply split_at_first_quote in Hsame as [Hlist Hrest];
      [|apply quote_free_PipelineHashToString..].
    split.
    + assert (Hdecoded : Some pipeline = Some pipeline').
      { rewrite <- (decode_pipeline_PipelineHashToString pipeline Hrange).
        rewrite <- (decode_pipeline_PipelineHashToString pipeline' Hrange').
        f_equal. exact Hlist. }
      congruence.
    + now apply String_tail_eq in Hrest.
Qed.

Lemma Log_line_unambiguous_witness :
  out_ demo_layer = Some stderr
  /\ Forall (fun hash => 0 <= hash < 2 ^ 64) [1; 2]
  /\ Forall (fun hash => 0 <= hash < 2 ^ 64) [1]
  /\ Log_line [1; 2] "42" <> Log_line [1] "0x2,42".
Proof.
  assert (Hrange : Forall (fun hash => 0 <= hash < 2 ^ 64) [1; 2])
    by (repeat constructor; lia).
  assert (Hrange' : Forall (fun hash => 0 <= hash < 2 ^ 64) [1])
    by (repeat constructor; lia).
  split; [reflexivity|]. split; [exact Hrange|]. split; [exact Hrange'|].
  intros Hsame.
  destruct (proj2 (Log_line_unambiguous (demo_env VK_SUCCESS true)
                     "pipeline_cache_hit" [1; 2] [1] "42" "0x2,42"
                     demo_layer stderr [] eq_refl Hrange Hrange') Hsame)
    as [Hpipeline _].
  discriminate Hpipeline.
Defined.

(** ** The searches and the frame of [RemoveInstance] on the examples *)

Lemma FindInstanceCreateInfo_first_match_witness :
  pNext demo_instance_create_info !! 1%nat
  = Some {| sType := 47; function := 0;
            pLayerInfo :=
              [ {| pfnNextGetInstanceProcAddr := 4096;
                   pfnNextGetPhysicalDeviceProcAddr := 4104 |};
                {| pfnNextGetInstanceProcAddr := 8192;
                   pfnNextGetPhysicalDeviceProcAddr := 8200 |} ] |}
  /\ ~ is_instance_linkage
         {| sType := 1000011004; function := 7; pLayerInfo := [] |}.
Proof.
  pose proof (FindInstanceCreateInfo_first_match demo_instance_create_info)
    as Hfirst.
  change (FindInstanceCreateInfo demo_instance_create_info)
    with (Some (1%nat,
                {| sType := 47; function := 0;
                   pLayerInfo :=
                     [ {| pfnNextGetInstanceProcAddr := 4096;
                          pfnNextGetPhysicalDeviceProcAddr := 4104 |};
                       {| pfnNextGetInstanceProcAddr := 8192;
                          pfnNextGetPhysicalDeviceProcAddr := 8200 |} ] |}))
    in Hfirst.
  destruct Hfirst as (Hlookup & _ & Hearlier).
  split; [exact Hlookup|].
  apply (Hearlier O); [lia | reflexivity].
Defined.

Lemma FindDeviceCreateInfo_first_match_witness :
  dev_pNext demo_device_create_info !! O
  = Some {| dev_sType := 48; dev_function := 0;
            dev_pLayerInfo :=
              [ {| dev_pfnNextGetInstanceProcAddr := 4096;
                   dev_pfnNextGetDeviceProcAddr := 4112 |} ] |}
  /\ is_device_linkage
       {| dev_sType := 48; dev_function := 0;
          dev_pLayerInfo :=
            [ {| dev_pfnNextGetInstanceProcAddr := 4096;
                 dev_pfnNextGetDeviceProcAddr := 4112 |} ] |}.
Proof.
  pose proof (FindDeviceCreateInfo_first_match demo_device_create_info)
    as Hfirst.
  change (FindDeviceCreateInfo demo_device_create_info)
    with (Some (O,
                {| dev_sType := 48; dev_function := 0;
                   dev_pLayerInfo :=
                     [ {| dev_pfnNextGetInstanceProcAddr := 4096;
                          dev_pfnNextGetDeviceProcAddr := 4112 |} ] |}))
    in Hfirst.
  destruct Hfirst as (Hlookup & Hhit & _).
  split; [exact Hlookup | exact Hhit].
Defined.

Lemma RemoveInstance_frame_witness :
  exists this',
    RemoveInstance (demo_env VK_SUCCESS true) 512
      (set_instance_maps
         {[ 1 := demo_instance_table 1; 2 := demo_instance_table 2 ]}
         {[ 1 := 256; 2 := 512 ]} demo_layer) []
    = Done tt this' []
    /\ instance_keys_map_ this' !! 1 = Some 256
    /\ instance_keys_map_ this' !! 2 = None.
Proof.
  destruct (RemoveInstance_frame (demo_env VK_SUCCESS true) 512
              (set_instance_maps
                 {[ 1 := demo_instance_table 1; 2 := demo_instance_table 2 ]}
                 {[ 1 := 256; 2 := 512 ]} demo_layer) [])
    as (this' & Hrun & Hother & _).
  exists this'. split; [exact Hrun|]. split.
  - rewrite (proj2 (Hother 1 ltac:(vm_compute; discriminate))). reflexivity.
  - rewrite RemoveInstance_run in Hrun. injection Hrun as <-. reflexivity.
Defined.
